(** * GPUtil: parsing of [nvidia-smi] output and selection of available GPUs

    A shallow embedding of [GPUtil/GPUtil.py]: the record constructors, the
    permissive float cast, the two snapshot readers ([getGPUs],
    [getGPUProcesses]), the availability mask ([getAvailability]), the
    selector ([getAvailable]), the polling wrapper ([getFirstAvailable]),
    the table printer ([showUtilization]) and the statements run at import.

    Conventions of the model.
    - Text is a byte string ([string]); the Python runtime functions used by
      the module ([str.split], [str.strip], [int], [float], [str]) are
      written out for ASCII input in module [Py].
    - Python floats are binary64 numbers: Rocq's primitive [float] with its
      IEEE operations.  A GPU index is a Python int or a non-finite float
      ([pynum]); the selector's sort keys guard against a NaN index.
    - Exceptions are values of [exn]; a computation that may raise returns a
      [result].
    - The outside world (platform, environment, the outcome of each
      [subprocess.run], the draws of [random.sample]) is a [world]; the
      effects a call performs are appended to a trace of [event]s.
    - Keyword arguments are passed explicitly; the defaults of the source
      are [order="first"], [limit=1], [maxLoad=0.5], [maxMemory=0.5],
      [memoryFree=0], [includeNan=False], [excludeID=[]], [excludeUUID=[]],
      [excludeComputeMode=["Exclusive_Process"]], [attempts=1],
      [interval=900], [verbose=False]. *)

From Stdlib Require Import ZArith Floats String Ascii DecimalString.
From stdpp Require Import base option list sorting gmap strings.

Local Open Scope Z_scope.

(* ================================================================== *)
(** ** Values: exceptions, results, index numbers *)
(* ================================================================== *)

(** The exceptions that the modelled code can raise. *)
Inductive exn : Type :=
| ValueError
| IndexError
| KeyError (key : string)
| ZeroDivisionError
| UnboundLocalError (name : string)
| RuntimeError (msg : string).

Inductive result (A : Type) : Type :=
| Ok (a : A)
| Raise (e : exn).
Arguments Ok {A} a.
Arguments Raise {A} e.

Definition result_bind {A B : Type} (f : A → result B) (r : result A) : result B :=
  match r with
  | Ok a => f a
  | Raise e => Raise e
  end.

#[global] Instance result_ret : MRet result := λ A a, Ok a.
#[global] Instance result_mbind : MBind result := λ A B f r, result_bind f r.
#[global] Instance result_fmap : FMap result := λ A B f r, result_bind (λ a, Ok (f a)) r.

(** *** Numbers used as GPU indices and sort keys

    [PyInt z] is the int [z]; [PyNaN] is [float("nan")]; [PyInf false] and
    [PyInf true] are [float("inf")] and [float("-inf")]. *)
Inductive pynum : Type :=
| PyInt (z : Z)
| PyNaN
| PyInf (negative : bool).

(* ================================================================== *)
(** ** The fragment of the Python runtime the module relies on *)
(* ================================================================== *)

Module Py.

(** [a < b]: exact comparison of the values; every comparison with NaN is
    false. *)
Definition lt (a b : pynum) : bool :=
  match a, b with
  | PyNaN, _ | _, PyNaN => false
  | PyInt x, PyInt y => x <? y
  | PyInt _, PyInf negative => negb negative
  | PyInf negative, PyInt _ => negative
  | PyInf n1, PyInf n2 => n1 && negb n2
  end.

(** [a == b]. *)
Definition eq (a b : pynum) : bool :=
  match a, b with
  | PyInt x, PyInt y => x =? y
  | PyInf n1, PyInf n2 => Bool.eqb n1 n2
  | _, _ => false
  end.

(** [math.isnan]; an int is converted to a float first, which never gives
    NaN (the conversion overflows only from 2^1024 on, far beyond any device
    index, and that OverflowError is not represented). *)
Definition isnan (a : pynum) : bool :=
  match a with
  | PyNaN => true
  | _ => false
  end.

(** [x in l] for a list of numbers: some entry equals [x].  (CPython also
    accepts an entry that is the very same object; for numbers this differs
    from [==] only for a NaN stored in both places, which is not modelled.) *)
Definition num_in (x : pynum) (l : list pynum) : bool := existsb (eq x) l.

(** [x in l] for a list of strings. *)
Definition str_in (x : string) (l : list string) : bool := existsb (String.eqb x) l.

(** *** Lists *)

(** [l[i]] for an index [0 <= i]. *)
Definition getitem {A : Type} (l : list A) (i : nat) : result A :=
  match l !! i with
  | Some a => Ok a
  | None => Raise IndexError
  end.

(** [l[0:stop]]: a negative [stop] counts from the end. *)
Definition slice_to {A : Type} (l : list A) (stop : Z) : list A :=
  if stop <? 0 then take (Z.to_nat (Z.max 0 (Z.of_nat (length l) + stop))) l
  else take (Z.to_nat stop) l.

(** [range(n)]. *)
Definition range (n : Z) : list Z := Z.of_nat <$> seq 0 (Z.to_nat n).

(** *** [list.sort(key=..., reverse=...)]

    The sort is stable and compares keys with [<] only.  For keys on which
    [<] is a strict weak order there is one stable sorted arrangement, so the
    insertion sort below returns what CPython's merge sort returns.  With
    [reverse=True] CPython reverses the list, sorts it, and reverses the
    result. *)
Section sort.
Context {K A : Type} (klt : K → K → bool) (key : A → K).

Fixpoint insert_sorted (x : A) (l : list A) : list A :=
  match l with
  | [] => [x]
  | y :: l' => if klt (key y) (key x) then y :: insert_sorted x l' else x :: y :: l'
  end.

Fixpoint sort_asc (l : list A) : list A :=
  match l with
  | [] => []
  | x :: l' => insert_sorted x (sort_asc l')
  end.

Definition sort (reverse : bool) (l : list A) : list A :=
  if reverse then rev (sort_asc (rev l)) else sort_asc l.

End sort.

(** *** Strings *)

(** [str.isspace] on one ASCII character: the separators of [s.split()]. *)
Definition isspace (c : ascii) : bool :=
  let n := N_of_ascii c in
  ((9 <=? n) && (n <=? 13) || (28 <=? n) && (n <=? 32))%N.

(** The whitespace that [int] and [float] skip around a numeral
    (CPython's [Py_ISSPACE]): tab to carriage return, and the space. *)
Definition isspace_c (c : ascii) : bool :=
  let n := N_of_ascii c in
  ((9 <=? n) && (n <=? 13) || (n =? 32))%N.

Fixpoint lstrip (cs : list ascii) : list ascii :=
  match cs with
  | c :: cs' => if isspace_c c then lstrip cs' else cs
  | [] => []
  end.

Definition rstrip (cs : list ascii) : list ascii := rev (lstrip (rev cs)).

(** [s.split(sep)] for a non-empty [sep] (both call sites pass a constant).
    [skip] counts the characters of a separator still to be dropped. *)
Fixpoint split_go (sep : string) (skip : nat) (s : string) : list string :=
  match s with
  | EmptyString => [EmptyString]
  | String c s' =>
      match skip with
      | S k => split_go sep k s'
      | O =>
          if String.prefix sep s
          then EmptyString :: split_go sep (String.length sep - 1) s'
          else match split_go sep 0 s' with
               | piece :: rest => String c piece :: rest
               | [] => [String c EmptyString]
               end
      end
  end.

Definition split (s sep : string) : list string := split_go sep 0 s.

(** [s.split()]: the maximal runs of non-space characters. *)
Fixpoint split_ws_go (s : string) : string * list string :=
  match s with
  | EmptyString => (EmptyString, [])
  | String c s' =>
      let '(w, ws) := split_ws_go s' in
      if isspace c
      then (EmptyString, match w with EmptyString => ws | _ => w :: ws end)
      else (String c w, ws)
  end.

Definition split_ws (s : string) : list string :=
  let '(w, ws) := split_ws_go s in
  match w with EmptyString => ws | _ => w :: ws end.

(** [str(z)] for an int. *)
Definition str_int (z : Z) : string := NilZero.string_of_int (Z.to_int z).

(** [repr] of an index, and [str] of a list of them. *)
Definition repr_num (a : pynum) : string :=
  match a with
  | PyInt z => str_int z
  | PyNaN => "nan"
  | PyInf false => "inf"
  | PyInf true => "-inf"
  end.

Fixpoint join (sep : string) (l : list string) : string :=
  match l with
  | [] => ""
  | [s] => s
  | s :: l' => s +:+ sep +:+ join sep l'
  end.

Definition str_list (l : list pynum) : string :=
  "[" +:+ join ", " (repr_num <$> l) +:+ "]".

(** *** [int(s)] and [int(s, 16)]

    Leading and trailing whitespace is ignored; a sign may precede the
    digits; with base 16 a [0x] prefix (and one underscore after it) may
    too; single underscores may separate digits.  Anything else raises
    ValueError.  (The limit on the number of digits of recent CPython
    versions, 4300 by default, is not represented.) *)
Definition digit_val (c : ascii) : option Z :=
  let n := Z.of_N (N_of_ascii c) in
  if (48 <=? n) && (n <=? 57) then Some (n - 48) else None.

Definition hex_val (c : ascii) : option Z :=
  let n := Z.of_N (N_of_ascii c) in
  if (48 <=? n) && (n <=? 57) then Some (n - 48)
  else if (97 <=? n) && (n <=? 102) then Some (n - 87)
  else if (65 <=? n) && (n <=? 70) then Some (n - 55)
  else None.

Definition underscore : ascii := "_"%char.

(** The value of a run of digits in which single underscores may stand
    between digits; [prev] tells what the previous character was
    ([None] at the start, [Some true] after an underscore). *)
Fixpoint digits_value (val : ascii → option Z) (base : Z) (prev : option bool)
    (acc : Z) (cs : list ascii) : option Z :=
  match cs with
  | [] => match prev with Some false => Some acc | _ => None end
  | c :: cs' =>
      if Ascii.eqb c underscore
      then match prev with
           | Some false => digits_value val base (Some true) acc cs'
           | _ => None
           end
      else match val c with
           | Some d => digits_value val base (Some false) (acc * base + d) cs'
           | None => None
           end
  end.

Definition take_sign (cs : list ascii) : bool * list ascii :=
  match cs with
  | "+"%char :: cs' => (false, cs')
  | "-"%char :: cs' => (true, cs')
  | _ => (false, cs)
  end.

Definition drop_hex_prefix (cs : list ascii) : list ascii :=
  match cs with
  | "0"%char :: x :: cs' =>
      if Ascii.eqb x "x"%char || Ascii.eqb x "X"%char
      then match cs' with
           | u :: cs'' => if Ascii.eqb u underscore then cs'' else cs'
           | [] => cs'
           end
      else cs
  | _ => cs
  end.

Definition int (s : string) : result Z :=
  let '(negative, cs) := take_sign (lstrip (list_ascii_of_string s)) in
  match digits_value digit_val 10 None 0 (rstrip cs) with
  | Some v => Ok (if negative then - v else v)
  | None => Raise ValueError
  end.

Definition int16 (s : string) : result Z :=
  let '(negative, cs) := take_sign (lstrip (list_ascii_of_string s)) in
  match digits_value hex_val 16 None 0 (rstrip (drop_hex_prefix cs)) with
  | Some v => Ok (if negative then - v else v)
  | None => Raise ValueError
  end.

(** *** [float(s)]

    Single underscores between digits are dropped, surrounding whitespace is
    ignored, and what remains must be a sign followed by [inf], [infinity]
    or [nan] (in any case), or a decimal numeral with an optional fraction
    and exponent.  The decimal value is rounded to the nearest binary64
    number, ties to even.  Anything else raises ValueError. *)
Definition is_digit (c : ascii) : bool :=
  match digit_val c with Some _ => true | None => false end.

(** An underscore must follow a digit and be followed by one. *)
Fixpoint drop_underscores (prev : option ascii) (cs : list ascii) : option (list ascii) :=
  match cs with
  | [] =>
      match prev with
      | Some p => if Ascii.eqb p underscore then None else Some []
      | None => Some []
      end
  | c :: cs' =>
      if Ascii.eqb c underscore
      then match prev with
           | Some p => if is_digit p then drop_underscores (Some c) cs' else None
           | None => None
           end
      else
        let ok := match prev with
                  | Some p => negb (Ascii.eqb p underscore) || is_digit c
                  | None => true
                  end in
        if ok then cons c <$> drop_underscores (Some c) cs' else None
  end.

Definition lower (c : ascii) : ascii :=
  let n := N_of_ascii c in
  if ((65 <=? n) && (n <=? 90))%N then ascii_of_N (n + 32) else c.

Fixpoint take_digits (cs : list ascii) : list Z * list ascii :=
  match cs with
  | c :: cs' =>
      match digit_val c with
      | Some d => let '(ds, rest) := take_digits cs' in (d :: ds, rest)
      | None => ([], cs)
      end
  | [] => ([], [])
  end.

Definition digits_to_Z (ds : list Z) : Z := foldl (λ acc d, acc * 10 + d) 0 ds.

(** The binary64 number nearest to [(-1)^negative * m * 10^e]. *)
Definition float_of_decimal (negative : bool) (m e : Z) : float :=
  if m =? 0 then SF2Prim (S754_zero negative)
  else if 0 <=? e
  then SF2Prim (binary_normalize prec emax ((if negative then - m else m) * 10 ^ e) 0 negative)
  else
    let '(q, e', loc) := SFdiv_core_binary prec emax m 0 (10 ^ (- e)) 0 in
    SF2Prim (binary_round_aux prec emax negative q e' loc).

Definition parse_exponent (cs : list ascii) : option Z :=
  match cs with
  | [] => Some 0
  | c :: cs' =>
      if Ascii.eqb (lower c) "e"%char
      then
        let '(negative, cs'') := take_sign cs' in
        match take_digits cs'' with
        | (d :: ds, []) =>
            let v := digits_to_Z (d :: ds) in
            Some (if negative then - v else v)
        | _ => None
        end
      else None
  end.

Definition parse_decimal (negative : bool) (cs : list ascii) : option float :=
  let '(ip, r1) := take_digits cs in
  let '(fp, r2) :=
    match r1 with
    | "."%char :: r => take_digits r
    | _ => ([], r1)
    end in
  match ip ++ fp with
  | [] => None
  | ds =>
      e ← parse_exponent r2;
      Some (float_of_decimal negative (digits_to_Z ds) (e - Z.of_nat (length fp)))
  end.

Definition float (s : string) : result float :=
  let parsed :=
    cs ← drop_underscores None (list_ascii_of_string s);
    let '(negative, body) := take_sign (rstrip (lstrip cs)) in
    let word := string_of_list_ascii (lower <$> body) in
    if String.eqb word "inf" || String.eqb word "infinity"
    then Some (if negative then neg_infinity else infinity)
    else if String.eqb word "nan" then Some nan
    else parse_decimal negative body in
  match parsed with
  | Some f => Ok f
  | None => Raise ValueError
  end.

End Py.

(* ================================================================== *)
(** ** The records of [GPUtil.py] *)
(* ================================================================== *)

(** [class GPU]. *)
Module GPU.

Record t : Type := Build {
  id : pynum;
  uuid : string;
  load : float;
  memoryUtil : float;
  memoryTotal : float;
  memoryUsed : float;
  memoryFree : float;
  driver : string;
  name : string;
  serial : string;
  display_mode : string;
  display_active : string;
  temperature : float;
  vbios_version : string;
  power_draw : float;
  power_limit : float;
  core_clock : Z;
  memory_clock : Z;
  compute_mode : string;
  pci_bus : Z
}.

(** [a / b] on floats: Python raises on a zero divisor (of either sign)
    where IEEE division would give an infinity or NaN. *)
Definition truediv (a b : float) : result float :=
  if PrimFloat.eqb b 0 then Raise ZeroDivisionError else Ok (PrimFloat.div a b).

(** [GPU.__init__]; [float(...)] of an argument that is a float already is
    that argument. *)
Definition init (ID : pynum) (uuid : string) (load memoryTotal memoryUsed memoryFree : float)
    (driver gpu_name serial display_mode display_active : string) (temp_gpu : float)
    (core_clock memory_clock : Z) (vbios_version : string) (power_draw power_limit : float)
    (compute_mode : string) (pci_bus : Z) : result t :=
  memoryUtil ← truediv memoryUsed memoryTotal;
  Ok {| id := ID;
        uuid := uuid;
        load := load;
        memoryUtil := memoryUtil;
        memoryTotal := memoryTotal;
        memoryUsed := memoryUsed;
        memoryFree := memoryFree;
        driver := driver;
        name := gpu_name;
        serial := serial;
        display_mode := display_mode;
        display_active := display_active;
        temperature := temp_gpu;
        vbios_version := vbios_version;
        power_draw := power_draw;
        power_limit := power_limit;
        core_clock := core_clock;
        memory_clock := memory_clock;
        compute_mode := compute_mode;
        pci_bus := pci_bus |}.

End GPU.

(** [class GPUProcess]; its constructor only stores its arguments. *)
Module GPUProcess.

Record t : Type := init {
  pid : Z;
  processName : string;
  gpuId : pynum;
  gpuUuid : string;
  gpuName : string;
  usedMemory : float;
  uid : Z;
  uname : string
}.

End GPUProcess.

(** [safeFloatCast]: [float(strNumber)], with NaN in place of a ValueError. *)
Definition safeFloatCast (strNumber : string) : float :=
  match Py.float strNumber with
  | Ok number => number
  | Raise _ => nan
  end.

(* ================================================================== *)
(** ** The outside world and the effects of a call *)
(* ================================================================== *)

(** What the program reads from its surroundings.  [subprocess_run k argv]
    is the outcome of the [k]-th call of [subprocess.run] of the execution
    (with [stdout=PIPE, encoding="utf8"], no [check]): the captured text, or
    [None] when the call raises (binary missing or not executable, I/O or
    decoding failure).  [random_sample k n] is what
    [random.sample(range(0, n), n)] returns when it is called after [k]
    subprocess calls: a rearrangement of [0 .. n-1]. *)
Record world : Type := World {
  platform_system : string;
  find_executable : string → option string;
  environ : gmap string string;
  subprocess_run : nat → list string → option string;
  random_sample : nat → nat → list nat;
  random_sample_perm : ∀ k n, random_sample k n ≡ₚ seq 0 n
}.

Inductive event : Type :=
| Run (argv : list string)
| Sample (n : nat)
| Sleep (seconds : N)
| Print (line : string).

(** The effects so far, oldest first, with the number of subprocess calls
    made. *)
Record state : Type := State {
  runs : nat;
  trace : list event
}.

Definition initial : state := {| runs := 0; trace := [] |}.

(** A computation with effects: it may raise, and the effects performed up
    to that point remain. *)
Definition M (A : Type) : Type := state → result A * state.

#[global] Instance M_ret : MRet M := λ A a st, (Ok a, st).
#[global] Instance M_bind : MBind M := λ A B f m st,
  match m st with
  | (Ok a, st') => f a st'
  | (Raise e, st') => (Raise e, st')
  end.

Definition lift {A : Type} (r : result A) : M A := λ st, (r, st).

Definition emit (e : event) : M unit := λ st,
  (Ok (), {| runs := runs st; trace := trace st ++ [e] |}).

(** The line feed, and [os.linesep]: CR LF on Windows, LF elsewhere. *)
Definition newline : string := String (ascii_of_N 10) EmptyString.

Definition os_linesep (w : world) : string :=
  if String.eqb (platform_system w) "Windows"
  then String (ascii_of_N 13) newline
  else newline.

Definition query_gpu : string :=
  "--query-gpu=index,uuid,utilization.gpu,memory.total,memory.used,memory.free,driver_version,name,gpu_serial,display_active,display_mode,temperature.gpu,clocks.current.graphics,clocks.current.memory,vbios_version,power.draw,power.limit,compute_mode,pci.bus".

Definition query_compute_apps : string :=
  "--query-compute-apps=pid,process_name,gpu_uuid,gpu_name,used_memory".

Definition format_csv : string := "--format=csv,noheader,nounits".

(* ================================================================== *)
(** ** The functions of [GPUtil.py] *)
(* ================================================================== *)

(** The condition of the comprehension of [getAvailability].  The
    thresholds are floats; an int threshold (the default [memoryFree=0])
    stands for the float of the same value. *)
Definition available (maxLoad maxMemory memoryFree : float) (includeNan : bool)
    (excludeID : list pynum) (excludeUUID excludeComputeMode : list string)
    (gpu : GPU.t) : bool :=
  PrimFloat.leb memoryFree (GPU.memoryFree gpu)
  && (PrimFloat.ltb (GPU.load gpu) maxLoad || (includeNan && PrimFloat.is_nan (GPU.load gpu)))
  && (PrimFloat.ltb (GPU.memoryUtil gpu) maxMemory
      || (includeNan && PrimFloat.is_nan (GPU.memoryUtil gpu)))
  && (negb (Py.num_in (GPU.id gpu) excludeID)
      && negb (Py.str_in (GPU.uuid gpu) excludeUUID)
      && negb (Py.str_in (GPU.compute_mode gpu) excludeComputeMode)).

(** [getAvailability]: one entry per GPU, [1] when it is available and [0]
    otherwise. *)
Definition getAvailability (GPUs : list GPU.t) (maxLoad maxMemory memoryFree : float)
    (includeNan : bool) (excludeID : list pynum)
    (excludeUUID excludeComputeMode : list string) : list Z :=
  (λ gpu, if available maxLoad maxMemory memoryFree includeNan
               excludeID excludeUUID excludeComputeMode gpu
          then 1 else 0) <$> GPUs.

(** The sort keys of [getAvailable]. *)
Definition key_first (x : GPU.t) : pynum :=
  if Py.isnan (GPU.id x) then PyInf false else GPU.id x.

Definition key_last (x : GPU.t) : pynum :=
  if Py.isnan (GPU.id x) then PyInf true else GPU.id x.

Definition key_load (x : GPU.t) : float :=
  if PrimFloat.is_nan (GPU.load x) then infinity else GPU.load x.

Definition key_memory (x : GPU.t) : float :=
  if PrimFloat.is_nan (GPU.memoryUtil x) then infinity else GPU.memoryUtil x.

(** The fields of one line of the [--query-gpu] output, as the body of the
    loop of [getGPUs] reads them. *)
Definition gpu_of_vals (vals : list string) : result GPU.t :=
  deviceIds ← Py.getitem vals 0 ≫= Py.int;
  uuid ← Py.getitem vals 1;
  gpuUtil ← (λ v, PrimFloat.div (safeFloatCast v) 100) <$> Py.getitem vals 2;
  memTotal ← safeFloatCast <$> Py.getitem vals 3;
  memUsed ← safeFloatCast <$> Py.getitem vals 4;
  memFree ← safeFloatCast <$> Py.getitem vals 5;
  driver ← Py.getitem vals 6;
  gpu_name ← Py.getitem vals 7;
  serial ← Py.getitem vals 8;
  display_active ← Py.getitem vals 9;
  display_mode ← Py.getitem vals 10;
  temp_gpu ← safeFloatCast <$> Py.getitem vals 11;
  core_clock ← Py.getitem vals 12 ≫= Py.int;
  memory_clock ← Py.getitem vals 13 ≫= Py.int;
  vbios_version ← Py.getitem vals 14;
  power_draw ← safeFloatCast <$> Py.getitem vals 15;
  power_limit ← safeFloatCast <$> Py.getitem vals 16;
  compute_mode ← Py.getitem vals 17;
  pci_bus ← Py.getitem vals 18 ≫= Py.int16;
  GPU.init (PyInt deviceIds) uuid gpuUtil memTotal memUsed memFree driver gpu_name
    serial display_mode display_active temp_gpu core_clock memory_clock
    vbios_version power_draw power_limit compute_mode pci_bus.

Definition gpu_of_line (line : string) : result GPU.t :=
  gpu_of_vals (Py.split line ", ").

(** [gpuUuidToIdMap[gpuUuid]], then the test [gpuId is None].  A value of
    the dict is [Some i] for an index [i] and [None] for Python's None. *)
Definition lookup_gpuId (gpuUuidToIdMap : gmap string (option pynum))
    (gpuUuid : string) : result pynum :=
  match gpuUuidToIdMap !! gpuUuid with
  | None => Raise (KeyError gpuUuid)
  | Some None => Ok (PyInt (-1))
  | Some (Some gpuId) => Ok gpuId
  end.

(** The owner of a process from the text [ps] printed ([None]: the call
    raised).  Every exception of the inner [try] gives [(-1, "")]. *)
Definition owner_of_ps (p : option string) : Z * string :=
  match p with
  | Some stdout =>
      match Py.split_ws stdout with
      | [uid; uname] =>
          match Py.int uid with
          | Ok uid => (uid, uname)
          | Raise _ => (-1, "")
          end
      | _ => (-1, "")
      end
  | None => (-1, "")
  end.

Section program.
Context (w : world).

(** [getNvidiaSmiCmd]. *)
Definition getNvidiaSmiCmd : result string :=
  if String.eqb (platform_system w) "Windows"
  then match find_executable w "nvidia-smi" with
       | Some nvidia_smi => Ok nvidia_smi
       | None =>
           match environ w !! "systemdrive" with
           | Some drive =>
               Ok (drive +:+ "\Program Files\NVIDIA Corporation\NVSMI\nvidia-smi.exe")
           | None => Raise (KeyError "systemdrive")
           end
       end
  else Ok "nvidia-smi".

(** [subprocess.run(argv, stdout=PIPE, encoding="utf8")] inside a [try]
    whose handler catches everything: [None] stands for the handler. *)
Definition run (argv : list string) : M (option string) := λ st,
  (Ok (subprocess_run w (runs st) argv),
   {| runs := S (runs st); trace := trace st ++ [Run argv] |}).

(** [random.sample(range(0, n), n)]. *)
Definition sample (n : nat) : M (list nat) := λ st,
  (Ok (random_sample w (runs st) n),
   {| runs := runs st; trace := trace st ++ [Sample n] |}).

(** The part of [getGPUs] after the [try]: the captured text is split into
    lines, and all but the last piece are parsed in order. *)
Definition gpus_of_output (output : string) : result (list GPU.t) :=
  let lines := Py.split output (os_linesep w) in
  let numDevices := Z.of_nat (length lines) - 1 in
  mapM (λ g, Py.getitem lines (Z.to_nat g) ≫= gpu_of_line) (Py.range numDevices).

(** [getGPUs]. *)
Definition getGPUs : M (list GPU.t) :=
  nvidia_smi ← lift getNvidiaSmiCmd;
  p ← run [nvidia_smi; query_gpu; format_csv];
  match p with
  | None => mret []
  | Some stdout => lift (gpus_of_output stdout)
  end.

(** One round of the loop of [getGPUProcesses]. *)
Definition process_of_line (gpuUuidToIdMap : gmap string (option pynum))
    (line : string) : M GPUProcess.t :=
  let vals := Py.split line ", " in
  pid ← lift (Py.getitem vals 0 ≫= Py.int);
  processName ← lift (Py.getitem vals 1);
  gpuUuid ← lift (Py.getitem vals 2);
  gpuName ← lift (Py.getitem vals 3);
  usedMemory ← lift (safeFloatCast <$> Py.getitem vals 4);
  gpuId ← lift (lookup_gpuId gpuUuidToIdMap gpuUuid);
  p ← run ["ps"; "-p" +:+ Py.str_int pid; "-oruid=,ruser="];
  let '(uid, uname) := owner_of_ps p in
  mret (GPUProcess.init pid processName gpuId gpuUuid gpuName usedMemory uid uname).

(** [getGPUProcesses], reading the global [gpuUuidToIdMap]. *)
Definition getGPUProcesses (gpuUuidToIdMap : gmap string (option pynum))
    : M (list GPUProcess.t) :=
  nvidia_smi ← lift getNvidiaSmiCmd;
  p ← run [nvidia_smi; query_compute_apps; format_csv];
  match p with
  | None => mret []
  | Some stdout =>
      let lines := Py.split stdout (os_linesep w) in
      let numProcesses := Z.of_nat (length lines) - 1 in
      mapM (λ g, lift (Py.getitem lines (Z.to_nat g))
                   ≫= process_of_line gpuUuidToIdMap)
           (Py.range numProcesses)
  end.

(** The statements at the end of the module, run when it is imported: the
    map stays empty when [getGPUs] raises. *)
Definition gpuUuidToIdMap_at_import : M (gmap string (option pynum)) := λ st,
  match getGPUs st with
  | (Ok gpus, st') =>
      (Ok (foldl (λ m gpu, <[GPU.uuid gpu := Some (GPU.id gpu)]> m) ∅ gpus), st')
  | (Raise _, st') => (Ok ∅, st')
  end.

(** The ordering step of [getAvailable]; an [order] that is none of the
    five names leaves the list as it is. *)
Definition order_gpus (order : string) (GPUs : list GPU.t) : M (list GPU.t) :=
  if String.eqb order "first" then mret (Py.sort Py.lt key_first false GPUs)
  else if String.eqb order "last" then mret (Py.sort Py.lt key_last true GPUs)
  else if String.eqb order "random" then
    picks ← sample (length GPUs);
    lift (mapM (Py.getitem GPUs) picks)
  else if String.eqb order "load" then mret (Py.sort PrimFloat.ltb key_load false GPUs)
  else if String.eqb order "memory" then mret (Py.sort PrimFloat.ltb key_memory false GPUs)
  else mret GPUs.

(** [getAvailable]. *)
Definition getAvailable (order : string) (limit : Z) (maxLoad maxMemory memoryFree : float)
    (includeNan : bool) (excludeID : list pynum)
    (excludeUUID excludeComputeMode : list string) : M (list pynum) :=
  GPUs ← getGPUs;
  let GPUavailability :=
    getAvailability GPUs maxLoad maxMemory memoryFree includeNan
      excludeID excludeUUID excludeComputeMode in
  let availAbleGPUindex :=
    List.filter (λ idx, bool_decide (GPUavailability !! idx = Some 1))
      (seq 0 (length GPUavailability)) in
  GPUs ← lift (mapM (Py.getitem GPUs) availAbleGPUindex);
  GPUs ← order_gpus order GPUs;
  let GPUs := Py.slice_to GPUs (Z.min limit (Z.of_nat (length GPUs))) in
  let deviceIds := GPU.id <$> GPUs in
  mret deviceIds.

(** The loop of [getFirstAvailable] over the remaining values of [i];
    [available] is the local variable of that name, [None] while it is
    unbound.  The result is its binding when the loop ends (by exhaustion or
    by [break]). *)
Fixpoint attempt_loop (order : string) (maxLoad maxMemory : float) (attempts : Z)
    (interval : N) (verbose includeNan : bool) (excludeID : list pynum)
    (excludeUUID excludeComputeMode : list string)
    (available : option (list pynum)) (todo : list Z) : M (option (list pynum)) :=
  match todo with
  | [] => mret available
  | i :: todo' =>
      _ ← (if verbose
           then emit (Print ("Attempting (" +:+ Py.str_int (i + 1) +:+ "/"
                             +:+ Py.str_int attempts +:+ ") to locate available GPU."))
           else mret ());
      available ← getAvailable order 1 maxLoad maxMemory 0 includeNan
                     excludeID excludeUUID excludeComputeMode;
      match available with
      | _ :: _ =>
          _ ← (if verbose
               then emit (Print ("GPU " +:+ Py.str_list available +:+ " located!"))
               else mret ());
          mret (Some available)
      | [] =>
          _ ← (if bool_decide (i ≠ attempts - 1) then emit (Sleep interval) else mret ());
          attempt_loop order maxLoad maxMemory attempts interval verbose includeNan
            excludeID excludeUUID excludeComputeMode (Some available) todo'
      end
  end.

(** [getFirstAvailable]; [interval] is a number of whole seconds
    ([time.sleep] accepts no negative one). *)
Definition getFirstAvailable (order : string) (maxLoad maxMemory : float) (attempts : Z)
    (interval : N) (verbose includeNan : bool) (excludeID : list pynum)
    (excludeUUID excludeComputeMode : list string) : M (list pynum) :=
  available ← attempt_loop order maxLoad maxMemory attempts interval verbose includeNan
                 excludeID excludeUUID excludeComputeMode None (Py.range attempts);
  match available with
  | None => lift (Raise (UnboundLocalError "available"))
  | Some [] =>
      lift (Raise (RuntimeError ("Could not find an available GPU after "
                                 +:+ Py.str_int attempts +:+ " attempts with "
                                 +:+ Py.str_int (Z.of_N interval)
                                 +:+ " seconds interval.")))
  | Some available => mret available
  end.

End program.

(* ================================================================== *)
(** ** What a trace shows of the polling loop *)
(* ================================================================== *)

(** The control steps: an invocation of the selector (it runs [nvidia-smi]
    once) and a sleep.  Progress lines and random draws are left out. *)
Inductive step : Type :=
| Attempt
| Pause (seconds : N).

#[global] Instance step_eq_dec : EqDecision step.
Proof. solve_decision. Defined.

Definition step_of (e : event) : option step :=
  match e with
  | Run _ => Some Attempt
  | Sleep seconds => Some (Pause seconds)
  | Sample _ | Print _ => None
  end.

Definition steps (tr : list event) : list step := omap step_of tr.

(** [n] attempts with a sleep between consecutive ones and none after the
    last. *)
Fixpoint polling (interval : N) (n : nat) : list step :=
  match n with
  | O => []
  | S n' =>
      match n' with
      | O => [Attempt]
      | S _ => Attempt :: Pause interval :: polling interval n'
      end
  end.


(** The float stored for a column of the [--query-gpu] output that
    [getGPUs] reads with [safeFloatCast]. *)
Definition float_column (i : nat) (gpu : GPU.t) : option float :=
  match i with
  | 2%nat => Some (GPU.load gpu)
  | 3%nat => Some (GPU.memoryTotal gpu)
  | 4%nat => Some (GPU.memoryUsed gpu)
  | 5%nat => Some (GPU.memoryFree gpu)
  | 11%nat => Some (GPU.temperature gpu)
  | 15%nat => Some (GPU.power_draw gpu)
  | 16%nat => Some (GPU.power_limit gpu)
  | _ => None
  end.

(* ================================================================== *)
(** ** The order of binary64 numbers *)
(* ================================================================== *)

(** The place of a number that is not NaN in the order that IEEE comparison
    follows: sign class first, then exponent, then mantissa (both reversed
    for negative numbers). *)
Definition SFrank (f : spec_float) : Z * Z * Z :=
  match f with
  | S754_zero _ | S754_nan => (0, 0, 0)
  | S754_infinity s => (if s then -2 else 2, 0, 0)
  | S754_finite s m e => if s then (-1, - e, - Z.pos m) else (1, e, Z.pos m)
  end.

Definition lex_lt (a b : Z * Z * Z) : Prop :=
  a.1.1 < b.1.1
  ∨ (a.1.1 = b.1.1 ∧ (a.1.2 < b.1.2 ∨ (a.1.2 = b.1.2 ∧ a.2 < b.2))).

(* ================================================================== *)
(** ** Text formatting: what [showUtilization] uses of [str.format] *)
(* ================================================================== *)

Module PyStr.

(** [len(s)]. *)
Definition len (s : string) : Z := Z.of_nat (String.length s).

(** [s * n]: the empty string for [n <= 0]. *)
Definition mul (s : string) (n : Z) : string :=
  Nat.iter (Z.to_nat n) (String.append s) "".

(** Alignment in a field of [width] characters, filled with spaces: numbers
    go to the right, strings to the left; a text longer than the field is
    left as it is. *)
Definition rjust (s : string) (width : Z) : string := mul " " (width - len s) +:+ s.

Definition ljust (s : string) (width : Z) : string := s +:+ mul " " (width - len s).

(** [format(z, "<width>d")]; the width 0 also stands for a format without
    a width. *)
Definition format_d (width : Z) (z : Z) : string := rjust (Py.str_int z) width.

(** [format(s, "<width>s")]. *)
Definition format_s (width : Z) (s : string) : string := ljust s width.

(** The digits of the integer [n >= 0] with a point before the last
    [precision] of them, and no point for [precision = 0]. *)
Definition fixed_digits (precision : N) (n : Z) : string :=
  let digits := Py.str_int n in
  let digits := mul "0" (Z.of_N precision + 1 - len digits) +:+ digits in
  if (precision =? 0)%N then digits
  else
    let k := (String.length digits - N.to_nat precision)%nat in
    substring 0 k digits +:+ "." +:+ substring k (N.to_nat precision) digits.

(** [m * 2^e * 10^precision] rounded to the nearest integer, to the even one
    when it lies halfway: Python prints the exact value of a float,
    correctly rounded. *)
Definition scaled (precision : N) (m : positive) (e : Z) : Z :=
  let n := Z.pos m * 10 ^ Z.of_N precision in
  if 0 <=? e then n * 2 ^ e
  else
    let d := 2 ^ (- e) in
    let q := n / d in
    match 2 * (n mod d) ?= d with
    | Lt => q
    | Gt => q + 1
    | Eq => if Z.even q then q else q + 1
    end.

(** [format(x, ".<precision>f")]. *)
Definition fixed (precision : N) (x : float) : string :=
  match Prim2SF x with
  | S754_nan => "nan"
  | S754_infinity s => if s then "-inf" else "inf"
  | S754_zero s => (if s then "-" else "") +:+ fixed_digits precision 0
  | S754_finite s m e =>
      (if s then "-" else "") +:+ fixed_digits precision (scaled precision m e)
  end.

(** [format(x, "<width>.<precision>f")]; without a precision in the format
    Python takes six digits. *)
Definition format_f (width : Z) (precision : option N) (x : float) : string :=
  rjust (fixed (default 6%N precision) x) width.

(** [format(z, "X")]. *)
Definition hex_digit (d : Z) : ascii :=
  default "0"%char (list_ascii_of_string "0123456789ABCDEF" !! Z.to_nat d).

Fixpoint hex_pos (fuel : nat) (n : Z) (acc : string) : string :=
  match fuel with
  | O => acc
  | S fuel' =>
      if n =? 0 then acc
      else hex_pos fuel' (n / 16) (String (hex_digit (n mod 16)) acc)
  end.

Definition format_X (z : Z) : string :=
  if z =? 0 then "0"
  else (if z <? 0 then "-" else "")
       +:+ hex_pos (S (Z.to_nat (Z.log2 (Z.abs z)))) (Z.abs z) "".

(** [enumerate(l)]. *)
Definition enumerate {A : Type} (l : list A) : list (nat * A) :=
  zip (seq 0 (length l)) l.

End PyStr.

(** A loop that may raise, over the elements of a list. *)
Fixpoint foldlM {A B : Type} (f : B → A → result B) (b : B) (l : list A) : result B :=
  match l with
  | [] => Ok b
  | a :: l' => b' ← f b a; foldlM f b' l'
  end.

(* ================================================================== *)
(** ** [showUtilization] *)
(* ================================================================== *)

(** The values of the attributes of a GPU: an int, a float or a text.  The
    [isinstance] tests of [showUtilization] tell the three apart; its
    TypeError is for a value of another type, which no slot of a GPU that
    [GPU.__init__] built holds. *)
Inductive pyval : Type :=
| VInt (z : Z)
| VFloat (x : float)
| VStr (s : string).

Definition val_of_num (a : pynum) : pyval :=
  match a with
  | PyInt z => VInt z
  | PyNaN => VFloat nan
  | PyInf negative => VFloat (if negative then neg_infinity else infinity)
  end.

(** The names in [GPU.__slots__]. *)
Inductive slot : Type :=
| slot_id | slot_uuid | slot_load | slot_memoryUtil | slot_memoryTotal
| slot_memoryUsed | slot_memoryFree | slot_driver | slot_name | slot_serial
| slot_display_mode | slot_display_active | slot_temperature | slot_vbios_version
| slot_power_draw | slot_power_limit | slot_core_clock | slot_memory_clock
| slot_compute_mode | slot_pci_bus.

(** [getattr(gpu, attr)] for the name of a slot. *)
Definition getattr (gpu : GPU.t) (attr : slot) : pyval :=
  match attr with
  | slot_id => val_of_num (GPU.id gpu)
  | slot_uuid => VStr (GPU.uuid gpu)
  | slot_load => VFloat (GPU.load gpu)
  | slot_memoryUtil => VFloat (GPU.memoryUtil gpu)
  | slot_memoryTotal => VFloat (GPU.memoryTotal gpu)
  | slot_memoryUsed => VFloat (GPU.memoryUsed gpu)
  | slot_memoryFree => VFloat (GPU.memoryFree gpu)
  | slot_driver => VStr (GPU.driver gpu)
  | slot_name => VStr (GPU.name gpu)
  | slot_serial => VStr (GPU.serial gpu)
  | slot_display_mode => VStr (GPU.display_mode gpu)
  | slot_display_active => VStr (GPU.display_active gpu)
  | slot_temperature => VFloat (GPU.temperature gpu)
  | slot_vbios_version => VStr (GPU.vbios_version gpu)
  | slot_power_draw => VFloat (GPU.power_draw gpu)
  | slot_power_limit => VFloat (GPU.power_limit gpu)
  | slot_core_clock => VInt (GPU.core_clock gpu)
  | slot_memory_clock => VInt (GPU.memory_clock gpu)
  | slot_compute_mode => VStr (GPU.compute_mode gpu)
  | slot_pci_bus => VInt (GPU.pci_bus gpu)
  end.

(** [lambda x: x * 100]. *)
Definition times_100 (x : pyval) : pyval :=
  match x with
  | VInt z => VInt (z * 100)
  | VFloat x => VFloat (x * 100)%float
  | VStr s => VStr (PyStr.mul s 100)
  end.

(** The description of a column: a dict with the keys [attr] and [name]
    and, optionally, [suffix], [transform] and [precision]. *)
Module AttrDict.

Record t : Type := Build {
  attr : slot;
  name : string;
  suffix : option string;
  transform : option (pyval → pyval);
  precision : option N
}.

End AttrDict.

(** The list of columns for [all=True]. *)
Definition attrList_all : list (list AttrDict.t) :=
  [ [ AttrDict.Build slot_id "ID" None None None;
      AttrDict.Build slot_name "Name" None None None;
      AttrDict.Build slot_serial "Serial" None None None;
      AttrDict.Build slot_uuid "UUID" None None None ];
    [ AttrDict.Build slot_temperature "GPU temp." (Some "C") (Some (λ x, x)) (Some 0%N);
      AttrDict.Build slot_load "GPU util." (Some "%") (Some times_100) (Some 0%N);
      AttrDict.Build slot_memoryUtil "Memory util." (Some "%") (Some times_100) (Some 0%N) ];
    [ AttrDict.Build slot_memoryTotal "Memory total" (Some "MB") None (Some 0%N);
      AttrDict.Build slot_memoryUsed "Memory used" (Some "MB") None (Some 0%N);
      AttrDict.Build slot_memoryFree "Memory free" (Some "MB") None (Some 0%N) ];
    [ AttrDict.Build slot_display_mode "Display mode" None None None;
      AttrDict.Build slot_display_active "Display active" None None None ];
    [ AttrDict.Build slot_core_clock "Core Clock" None None None;
      AttrDict.Build slot_memory_clock "Memory Clock" None None None ];
    [ AttrDict.Build slot_power_draw "Power draw" None None None ];
    [ AttrDict.Build slot_compute_mode "Compute mode" None None None ];
    [ AttrDict.Build slot_pci_bus "PCI bus ID" None None None ] ].

(** The list of columns for [all=False]. *)
Definition attrList_default : list (list AttrDict.t) :=
  [ [ AttrDict.Build slot_id "ID" None None None;
      AttrDict.Build slot_load "GPU" (Some "%") (Some times_100) (Some 0%N);
      AttrDict.Build slot_memoryUtil "MEM" (Some "%") (Some times_100) (Some 0%N) ] ].

(** The value of a column for a GPU, after the transform of the column. *)
Definition attr_value (attrDict : AttrDict.t) (gpu : GPU.t) : pyval :=
  default (λ x, x) (AttrDict.transform attrDict) (getattr gpu (AttrDict.attr attrDict)).

Definition attrSuffix (attrDict : AttrDict.t) : string :=
  default "" (AttrDict.suffix attrDict).

(** The text of an entry in the first pass over the GPUs, which finds the
    width of the column. *)
Definition attr_text (attrDict : AttrDict.t) (gpu : GPU.t) : string :=
  match attr_value attrDict gpu with
  | VFloat x => PyStr.format_f 0 (AttrDict.precision attrDict) x
  | VInt z => PyStr.format_d 0 z
  | VStr s => s
  end +:+ attrSuffix attrDict.

(** The text of an entry in the second pass, in a field whose width is
    written into the format as [str(minWidth - len(attrSuffix))].  The text
    of a positive number is read back as that width; ["0"] is the zero-fill
    flag with no width; in ["-n"] the sign is the sign option and [n] the
    width, and a string field rejects a sign with ValueError. *)
Definition attr_field (attrDict : AttrDict.t) (width : Z) (gpu : GPU.t) : result string :=
  attrStr ← match attr_value attrDict gpu with
            | VFloat x => Ok (PyStr.format_f (Z.abs width) (AttrDict.precision attrDict) x)
            | VInt z => Ok (PyStr.format_d (Z.abs width) z)
            | VStr s => if width <? 0 then Raise ValueError else Ok (PyStr.format_s width s)
            end;
  Ok (attrStr +:+ attrSuffix attrDict).

(** The body of the loop over the columns of a group: the header and the
    line of every GPU grow by one column. *)
Definition add_column (GPUs : list GPU.t) (table : string * list string)
    (attrDict : AttrDict.t) : result (string * list string) :=
  let '(headerString, GPUstrings) := table in
  let headerString := headerString +:+ "| " +:+ AttrDict.name attrDict +:+ " " in
  let headerWidth := PyStr.len (AttrDict.name attrDict) in
  let minWidth :=
    foldl (λ minWidth gpu, Z.max minWidth (PyStr.len (attr_text attrDict gpu)))
      (PyStr.len (AttrDict.name attrDict)) GPUs in
  let headerString := headerString +:+ PyStr.mul " " (Z.max 0 (minWidth - headerWidth)) in
  let width := minWidth - PyStr.len (attrSuffix attrDict) in
  GPUstrings ← foldlM (λ GPUstrings '(gpuIdx, gpu),
                         attrStr ← attr_field attrDict width gpu;
                         Ok (alter (λ s, s +:+ "| " +:+ attrStr +:+ " ") gpuIdx GPUstrings))
                  GPUstrings (PyStr.enumerate GPUs);
  Ok (headerString, GPUstrings).

(** The body of the loop over the groups: the columns of the group, then
    a bar. *)
Definition add_group (GPUs : list GPU.t) (table : string * list string)
    (attrGroup : list AttrDict.t) : result (string * list string) :=
  '(headerString, GPUstrings) ← foldlM (add_column GPUs) table attrGroup;
  let headerString := headerString +:+ "|" in
  let GPUstrings :=
    foldl (λ GPUstrings '(gpuIdx, _), alter (λ s, s +:+ "|") gpuIdx GPUstrings)
      GPUstrings (PyStr.enumerate GPUs) in
  Ok (headerString, GPUstrings).

(** The header and the lines of the table. *)
Definition table_of (attrList : list (list AttrDict.t)) (GPUs : list GPU.t)
    : result (string * list string) :=
  foldlM (add_group GPUs) ("", replicate (length GPUs) "") attrList.

(** The shape of a table under construction: one line per GPU, each as long
    as the header. *)
Definition aligned (GPUs : list GPU.t) (table : string * list string) : Prop :=
  length table.2 = length GPUs
  ∧ Forall (λ GPUstring, PyStr.len GPUstring = PyStr.len table.1) table.2.

(** [format(ID, "<width>d")] for an index: a float has no format [d]. *)
Definition format_id (width : Z) (ID : pynum) : result string :=
  match ID with
  | PyInt z => Ok (PyStr.format_d width z)
  | PyNaN | PyInf _ => Raise ValueError
  end.

(** The line of a GPU in the old code, with [all=True] and without. *)
Definition old_row_all (gpu : GPU.t) : result string :=
  ID ← format_id 2 (GPU.id gpu);
  Ok (" " +:+ ID
      +:+ " | " +:+ GPU.name gpu
      +:+ " | " +:+ GPU.serial gpu
      +:+ " | " +:+ GPU.uuid gpu
      +:+ " || " +:+ PyStr.format_f 3 (Some 0%N) (GPU.load gpu * 100)%float
      +:+ "% | " +:+ PyStr.format_f 3 (Some 0%N) (GPU.memoryUtil gpu * 100)%float
      +:+ "% || " +:+ PyStr.format_f 0 (Some 0%N) (GPU.memoryTotal gpu)
      +:+ "MB | " +:+ PyStr.format_f 0 (Some 0%N) (GPU.memoryUsed gpu)
      +:+ "MB | " +:+ PyStr.format_f 0 (Some 0%N) (GPU.memoryFree gpu)
      +:+ "MB || " +:+ GPU.display_mode gpu
      +:+ " | " +:+ GPU.display_active gpu
      +:+ " || " +:+ PyStr.format_d 0 (GPU.core_clock gpu)
      +:+ "Mhz | " +:+ PyStr.format_d 0 (GPU.memory_clock gpu)
      +:+ "Mhz || " +:+ PyStr.format_f 2 (Some 0%N) (GPU.power_draw gpu)
      +:+ "W || " +:+ GPU.compute_mode gpu
      +:+ " || " +:+ PyStr.format_X (GPU.pci_bus gpu)).

Definition old_row (gpu : GPU.t) : result string :=
  ID ← format_id 2 (GPU.id gpu);
  Ok (" " +:+ ID
      +:+ " " +:+ PyStr.format_f 3 (Some 0%N) (GPU.load gpu * 100)%float
      +:+ "% " +:+ PyStr.format_f 3 (Some 0%N) (GPU.memoryUtil gpu * 100)%float
      +:+ "%").

Definition old_header_all : string :=
  " ID | Name | Serial | UUID || GPU util. | Memory util. || Memory total | Memory used | Memory free || Display mode | Display active || Core Clock | Memory Clock || Power draw || Compute Mode || PCI Id".

Definition old_rule_all : string :=
  "--------------------------------------------------------------------------------------------------------------------------------------------------------------------------------------------------------------------".

(** [print(line)]. *)
Definition print (line : string) : M unit := emit (Print line).

Section show.
Context (w : world).

(** [showUtilization].  A list of columns that the caller passes is
    [Some]; the default [attrList=None] is [None]. *)
Definition showUtilization (all : bool) (attrList : option (list (list AttrDict.t)))
    (useOldCode : bool) : M unit :=
  GPUs ← getGPUs w;
  attrList ←
    (if all then
       if useOldCode then
         _ ← print old_header_all;
         _ ← print old_rule_all;
         _ ← mapM (λ gpu, line ← lift (old_row_all gpu); print line) GPUs;
         mret attrList
       else mret (Some attrList_all)
     else
       if useOldCode then
         _ ← print " ID  GPU  MEM";
         _ ← print "--------------";
         _ ← mapM (λ gpu, line ← lift (old_row gpu); print line) GPUs;
         mret attrList
       else mret (Some attrList_default));
  match attrList with
  | Some attrList =>
      if negb useOldCode then
        '(headerString, GPUstrings) ← lift (table_of attrList GPUs);
        let headerSpacingString := PyStr.mul "-" (PyStr.len headerString) in
        _ ← print headerString;
        _ ← print headerSpacingString;
        _ ← mapM print GPUstrings;
        mret ()
      else mret ()
  | None => mret ()
  end.

End show.

(** The lines printed, oldest first. *)
Definition printed (tr : list event) : list string :=
  omap (λ e, match e with Print line => Some line | _ => None end) tr.

(* ================================================================== *)
(** ** Sample data *)
(* ================================================================== *)

(** A POSIX machine on which the [k]-th subprocess call gives [stdout k]. *)
Definition posix_world (stdout : nat → option string) : world :=
  {| platform_system := "Linux";
     find_executable := λ _, None;
     environ := ∅;
     subprocess_run := λ k _, stdout k;
     random_sample := λ _ n, seq 0 n;
     random_sample_perm := λ _ n, Permutation_refl (seq 0 n) |}.

(** A lightly loaded GPU with the given index, UUID and compute mode. *)
Definition idle_gpu (ID : pynum) (uuid compute_mode : string) : GPU.t :=
  {| GPU.id := ID;
     GPU.uuid := uuid;
     GPU.load := 0.25;
     GPU.memoryUtil := 0.125;
     GPU.memoryTotal := 8192;
     GPU.memoryUsed := 1024;
     GPU.memoryFree := 7168;
     GPU.driver := "535.54";
     GPU.name := "NVIDIA GeForce RTX 3080";
     GPU.serial := "[N/A]";
     GPU.display_mode := "Enabled";
     GPU.display_active := "Disabled";
     GPU.temperature := 45;
     GPU.vbios_version := "94.02.42.00.0B";
     GPU.power_draw := 50.5;
     GPU.power_limit := 250;
     GPU.core_clock := 1500;
     GPU.memory_clock := 5000;
     GPU.compute_mode := compute_mode;
     GPU.pci_bus := 1 |}.

(** A line of [--query-gpu] output for a GPU with the given index column
    and total memory column. *)
Definition gpu_line (index uuid total : string) : string :=
  index +:+ ", " +:+ uuid +:+ ", 25, " +:+ total
  +:+ ", 1024, 7168, 535.54, NVIDIA GeForce RTX 3080, [N/A], Disabled, Enabled, 45, 1500, 5000, 94.02.42.00.0B, 50.5, 250.00, Default, 0x01".

(** What [nvidia-smi] prints when it cannot reach the driver. *)
Definition driver_failure : string :=
  "NVIDIA-SMI has failed because it couldn't communicate with the NVIDIA driver. Make sure that the latest NVIDIA driver is installed and running."
  +:+ newline +:+ newline.

(** The output for three idle GPUs listed with the indices 2, 0, 1. *)
Definition three_gpus_output : string :=
  gpu_line "2" "GPU-c" "8192" +:+ newline
  +:+ gpu_line "0" "GPU-a" "8192" +:+ newline
  +:+ gpu_line "1" "GPU-b" "8192" +:+ newline.

(** The default of [excludeComputeMode]. *)
Definition default_excludeComputeMode : list string := ["Exclusive_Process"].

(** A GPU for which [nvidia-smi] printed [[N/A]] in the utilization and
    memory columns. *)
Definition unread_gpu (ID : pynum) (uuid : string) : GPU.t :=
  {| GPU.id := ID;
     GPU.uuid := uuid;
     GPU.load := nan;
     GPU.memoryUtil := nan;
     GPU.memoryTotal := nan;
     GPU.memoryUsed := nan;
     GPU.memoryFree := nan;
     GPU.driver := "535.54";
     GPU.name := "NVIDIA GeForce RTX 3080";
     GPU.serial := "[N/A]";
     GPU.display_mode := "Enabled";
     GPU.display_active := "Disabled";
     GPU.temperature := 45;
     GPU.vbios_version := "94.02.42.00.0B";
     GPU.power_draw := 50.5;
     GPU.power_limit := 250;
     GPU.core_clock := 1500;
     GPU.memory_clock := 5000;
     GPU.compute_mode := "Default";
     GPU.pci_bus := 1 |}.

(** A Windows machine with no [nvidia-smi] on the path and no
    [systemdrive] in the environment. *)
Definition bare_windows_world : world :=
  {| platform_system := "Windows";
     find_executable := λ _, None;
     environ := ∅;
     subprocess_run := λ _ _, None;
     random_sample := λ _ n, seq 0 n;
     random_sample_perm := λ _ n, Permutation_refl (seq 0 n) |}.

(** A POSIX machine on which [nvidia-smi] lists one process and [ps] then
    names its owner. *)
Definition one_process_world : world :=
  posix_world (λ k, match k with
                    | O => Some ("1234, python, GPU-a, NVIDIA GeForce RTX 3080, 100"
                                 +:+ newline)
                    | S _ => Some (" 1000 alice" +:+ newline)
                    end).

(* ================================================================== *)
(** ** Facts about the runtime *)
(* ================================================================== *)

Lemma SFcompare_refl (f : spec_float) :
  f ≠ S754_nan → SFcompare f f = Some Eq.
Proof.
  destruct f as [s|s| |s m e]; intros Hnan; try done; simpl.
  - by destruct s.
  - rewrite Z.compare_refl.
    change (PosDef.Pos.compare_cont Eq m m) with (Pos.compare m m).
    rewrite Pos.compare_refl. by destruct s.
Qed.

Lemma SFeqb_not_nan (f g : spec_float) :
  SFeqb f g = true → f ≠ S754_nan.
Proof. intros H ->. done. Qed.

(** [x == y] excludes [x < y] and a NaN [x]. *)
Lemma float_eqb_not_ltb (x y : float) :
  PrimFloat.eqb x y = true → PrimFloat.ltb x y = false.
Proof.
  rewrite FloatAxioms.eqb_spec, FloatAxioms.ltb_spec. unfold SFeqb, SFltb.
  by destruct (SFcompare _ _) as [[]|].
Qed.

Lemma float_eqb_not_nan (x y : float) :
  PrimFloat.eqb x y = true → PrimFloat.is_nan x = false.
Proof.
  intros H. unfold PrimFloat.is_nan.
  rewrite FloatAxioms.eqb_spec in *. apply SFeqb_not_nan in H.
  unfold SFeqb. by rewrite SFcompare_refl.
Qed.

Lemma num_in_false (x : pynum) (l : list pynum) :
  Py.num_in x l = false ↔ ∀ e, e ∈ l → Py.eq x e = false.
Proof.
  unfold Py.num_in. induction l as [|y l IH]; simpl.
  - split; [intros _ e He; by apply elem_of_nil in He | done].
  - rewrite orb_false_iff, IH. split.
    + intros [Hy Hl] e He. apply elem_of_cons in He as [->|He]; auto.
    + intros H. split; [apply H; left | intros e He; apply H; by right].
Qed.

Lemma str_in_false (x : string) (l : list string) :
  Py.str_in x l = false ↔ x ∉ l.
Proof.
  unfold Py.str_in. induction l as [|y l IH]; simpl.
  - split; [intros _ H; by apply elem_of_nil in H | done].
  - rewrite orb_false_iff, IH, not_elem_of_cons, String.eqb_neq. tauto.
Qed.

(** The runtime functions on inputs whose results are known from CPython. *)
Example split_examples :
  Py.split "a, b, c" ", " = ["a"; "b"; "c"]
  ∧ Py.split "" ", " = [""]
  ∧ Py.split "abc" ", " = ["abc"]
  ∧ Py.split "a,,b" "," = ["a"; ""; "b"]
  ∧ Py.split "aaa" "aa" = [""; "a"]
  ∧ Py.split ("x" +:+ newline +:+ "y" +:+ newline) newline = ["x"; "y"; ""]
  ∧ Py.split_ws "  1000   alice " = ["1000"; "alice"]
  ∧ Py.split_ws "" = [].
Proof. vm_compute. repeat split. Qed.

Example int_examples :
  Py.int "12" = Ok 12
  ∧ Py.int " -1_000 " = Ok (-1000)
  ∧ Py.int "007" = Ok 7
  ∧ Py.int "" = Raise ValueError
  ∧ Py.int "1__0" = Raise ValueError
  ∧ Py.int "_1" = Raise ValueError
  ∧ Py.int "0x1" = Raise ValueError
  ∧ Py.int "[N/A]" = Raise ValueError
  ∧ Py.int16 "0x0A" = Ok 10
  ∧ Py.int16 "1f" = Ok 31
  ∧ Py.int16 "-0X10" = Ok (-16)
  ∧ Py.int16 "0x" = Raise ValueError.
Proof. vm_compute. repeat split. Qed.

Example float_examples :
  Py.float "45" = Ok 45%float
  ∧ Py.float " 250.00 " = Ok 250%float
  ∧ Py.float "0.1" = Ok 0x1.999999999999ap-4%float
  ∧ Py.float "1_000.5" = Ok 1000.5%float
  ∧ Py.float ".5e1" = Ok 5%float
  ∧ Py.float "9007199254740993" = Ok 9007199254740992%float
  ∧ Py.float "1e400" = Ok infinity
  ∧ Py.float "-Infinity" = Ok neg_infinity
  ∧ Py.float "NaN" = Ok nan
  ∧ Py.float "[N/A]" = Raise ValueError
  ∧ Py.float "" = Raise ValueError
  ∧ Py.float "1e" = Raise ValueError
  ∧ Py.float "0x10" = Raise ValueError
  ∧ Py.float "1_" = Raise ValueError.
Proof. vm_compute. repeat split. Qed.

(** The sort is stable, also with [reverse=True]. *)
Example sort_examples :
  Py.sort Z.ltb fst false [(3, "a"); (1, "b"); (2, "c"); (1, "d")]
  = [(1, "b"); (1, "d"); (2, "c"); (3, "a")]
  ∧ Py.sort Z.ltb fst true [(1, "a"); (3, "b"); (1, "c"); (2, "d"); (3, "e")]
    = [(3, "b"); (3, "e"); (2, "d"); (1, "a"); (1, "c")].
Proof. vm_compute. repeat split. Qed.

(* ================================================================== *)
(** ** The availability mask *)
(* ================================================================== *)

(** The condition of the mask, read as a proposition. *)
Lemma available_iff (maxLoad maxMemory memoryFree : float) (includeNan : bool)
    (excludeID : list pynum) (excludeUUID excludeComputeMode : list string)
    (gpu : GPU.t) :
  available maxLoad maxMemory memoryFree includeNan
    excludeID excludeUUID excludeComputeMode gpu = true
  ↔ PrimFloat.leb memoryFree (GPU.memoryFree gpu) = true
    ∧ (PrimFloat.ltb (GPU.load gpu) maxLoad = true
       ∨ (includeNan = true ∧ PrimFloat.is_nan (GPU.load gpu) = true))
    ∧ (PrimFloat.ltb (GPU.memoryUtil gpu) maxMemory = true
       ∨ (includeNan = true ∧ PrimFloat.is_nan (GPU.memoryUtil gpu) = true))
    ∧ (∀ e, e ∈ excludeID → Py.eq (GPU.id gpu) e = false)
    ∧ (GPU.uuid gpu ∉ excludeUUID)
    ∧ (GPU.compute_mode gpu ∉ excludeComputeMode).
Proof.
  unfold available.
  rewrite !andb_true_iff, !orb_true_iff, !andb_true_iff, !negb_true_iff.
  rewrite num_in_false, !str_in_false. tauto.
Qed.

(** C1.  [getAvailability] returns one entry per GPU, in the order of its
    input; the entry of a GPU is 1 or 0, and it is 1 exactly when the six
    conditions hold: enough free memory, load below [maxLoad] (or NaN with
    [includeNan]), memory utilisation below [maxMemory] (or NaN with
    [includeNan]), index not excluded, UUID not excluded, compute mode not
    excluded.  The two comparisons are strict: a GPU whose load equals
    [maxLoad], or whose memory utilisation equals [maxMemory], gets 0. *)
Theorem getAvailability_spec (GPUs : list GPU.t) (maxLoad maxMemory memoryFree : float)
    (includeNan : bool) (excludeID : list pynum)
    (excludeUUID excludeComputeMode : list string) :
  let mask := getAvailability GPUs maxLoad maxMemory memoryFree includeNan
                excludeID excludeUUID excludeComputeMode in
  length mask = length GPUs
  ∧ (∀ (i : nat) (gpu : GPU.t), GPUs !! i = Some gpu →
       ∃ m : Z, mask !! i = Some m ∧ (m = 1 ∨ m = 0)
         ∧ (m = 1 ↔
              PrimFloat.leb memoryFree (GPU.memoryFree gpu) = true
              ∧ (PrimFloat.ltb (GPU.load gpu) maxLoad = true
                 ∨ (includeNan = true ∧ PrimFloat.is_nan (GPU.load gpu) = true))
              ∧ (PrimFloat.ltb (GPU.memoryUtil gpu) maxMemory = true
                 ∨ (includeNan = true ∧ PrimFloat.is_nan (GPU.memoryUtil gpu) = true))
              ∧ (∀ e, e ∈ excludeID → Py.eq (GPU.id gpu) e = false)
              ∧ (GPU.uuid gpu ∉ excludeUUID)
              ∧ (GPU.compute_mode gpu ∉ excludeComputeMode)))
  ∧ (∀ (i : nat) (gpu : GPU.t), GPUs !! i = Some gpu →
       PrimFloat.eqb (GPU.load gpu) maxLoad = true
       ∨ PrimFloat.eqb (GPU.memoryUtil gpu) maxMemory = true →
       mask !! i = Some 0).
Proof.
  intros mask. subst mask. unfold getAvailability.
  split; [by rewrite length_fmap|]. split.
  - intros i gpu Hi. rewrite list_lookup_fmap, Hi. simpl.
    destruct (available _ _ _ _ _ _ _ gpu) eqn:Hav; eexists; (split; [done|]).
    + split; [by left|]. split; [intros _; by apply available_iff | done].
    + split; [by right|]. split; [discriminate|].
      intros H%available_iff. congruence.
  - intros i gpu Hi Heq. rewrite list_lookup_fmap, Hi. simpl.
    unfold available.
    destruct Heq as [Heq|Heq];
      rewrite (float_eqb_not_ltb _ _ Heq), (float_eqb_not_nan _ _ Heq);
      by rewrite !andb_false_r, ?andb_false_l.
Qed.

(** The round trip of the specification: with [maxLoad=0.5, maxMemory=0.5]
    a GPU whose load is exactly 0.5 is not available, one just below is. *)
Example getAvailability_load_at_threshold :
  getAvailability
    [ idle_gpu (PyInt 0) "GPU-a" "Default";
      {| GPU.id := PyInt 1; GPU.uuid := "GPU-b"; GPU.load := 0.5;
         GPU.memoryUtil := 0.125; GPU.memoryTotal := 8192; GPU.memoryUsed := 1024;
         GPU.memoryFree := 7168; GPU.driver := ""; GPU.name := ""; GPU.serial := "";
         GPU.display_mode := ""; GPU.display_active := ""; GPU.temperature := 45;
         GPU.vbios_version := ""; GPU.power_draw := 50; GPU.power_limit := 250;
         GPU.core_clock := 1500; GPU.memory_clock := 5000;
         GPU.compute_mode := "Default"; GPU.pci_bus := 2 |};
      idle_gpu (PyInt 2) "GPU-c" "Exclusive_Process" ]
    0.5 0.5 0 false [] [] default_excludeComputeMode
  = [1; 0; 0].
Proof. vm_compute. reflexivity. Qed.

(* ================================================================== *)
(** ** Sorting *)
(* ================================================================== *)

Section sort_facts.
Context {K A : Type} (klt : K → K → bool) (key : A → K).

Lemma insert_sorted_perm (x : A) (l : list A) :
  Py.insert_sorted klt key x l ≡ₚ x :: l.
Proof.
  induction l as [|y l IH]; simpl; [done|].
  destruct (klt (key y) (key x)); [|done].
  rewrite IH. apply Permutation_swap.
Qed.

Lemma sort_asc_perm (l : list A) : Py.sort_asc klt key l ≡ₚ l.
Proof.
  induction l as [|x l IH]; simpl; [done|].
  by rewrite insert_sorted_perm, IH.
Qed.

Lemma sort_perm (reverse : bool) (l : list A) : Py.sort klt key reverse l ≡ₚ l.
Proof.
  unfold Py.sort. destruct reverse; [|apply sort_asc_perm].
  by rewrite <- Permutation_rev, sort_asc_perm, <- Permutation_rev.
Qed.

(** On keys that [<] orders (no key is below one it is above, and "not
    above" is transitive) the result is sorted. *)
Hypothesis klt_asym : ∀ a b : A, klt (key a) (key b) = true → klt (key b) (key a) = false.
Hypothesis kle_trans : ∀ a b c : A,
  klt (key b) (key a) = false → klt (key c) (key b) = false → klt (key c) (key a) = false.

Lemma insert_sorted_sorted (x : A) (l : list A) :
  StronglySorted (λ a b, klt (key b) (key a) = false) l →
  StronglySorted (λ a b, klt (key b) (key a) = false) (Py.insert_sorted klt key x l).
Proof.
  induction l as [|y l IH]; simpl; intros Hl.
  - repeat constructor.
  - apply StronglySorted_cons in Hl as [Hy Hl].
    destruct (klt (key y) (key x)) eqn:Hyx.
    + apply StronglySorted_cons. split; [|by apply IH].
      rewrite insert_sorted_perm. constructor; [by apply klt_asym | done].
    + apply StronglySorted_cons. split; [|by apply StronglySorted_cons].
      constructor; [done|].
      eapply Forall_impl; [exact Hy|]. intros z Hz. by apply kle_trans with y.
Qed.

Lemma sort_asc_sorted (l : list A) :
  StronglySorted (λ a b, klt (key b) (key a) = false) (Py.sort_asc klt key l).
Proof.
  induction l as [|x l IH]; simpl; [constructor | by apply insert_sorted_sorted].
Qed.



End sort_facts.







(** In a strongly sorted list the relation holds between any two places. *)
Lemma StronglySorted_lookup {A : Type} (R : relation A) (l : list A) (i j : nat) (a b : A) :
  StronglySorted R l → (i < j)%nat → l !! i = Some a → l !! j = Some b → R a b.
Proof.
  intros Hl. revert i j. induction Hl as [|x l Hl IH Hx]; intros i j Hij Hi Hj.
  - by rewrite lookup_nil in Hi.
  - destruct j as [|j]; [lia|]. simpl in Hj. destruct i as [|i]; simpl in Hi.
    + injection Hi as ->. rewrite Forall_forall in Hx. apply Hx.
      by eapply list_elem_of_lookup_2.
    + apply (IH i j); [lia|done..].
Qed.

(* ================================================================== *)
(** ** Running effectful computations *)
(* ================================================================== *)

Lemma bind_run {A B : Type} (m : M A) (f : A → M B) (st : state) :
  (m ≫= f) st = match m st with
                | (Ok a, st') => f a st'
                | (Raise e, st') => (Raise e, st')
                end.
Proof. reflexivity. Qed.

Lemma mapM_result_cons {A B : Type} (f : A → result B) (x : A) (l : list A) :
  mapM f (x :: l) = y ← f x; k ← mapM f l; Ok (y :: k).
Proof. reflexivity. Qed.

(** Reading a list at valid places never raises. *)
Lemma mapM_getitem {A : Type} (l : list A) (picks : list nat) :
  Forall (λ i, i < length l)%nat picks →
  mapM (Py.getitem l) picks = Ok (omap (l !!.) picks).
Proof.
  induction 1 as [|i picks Hi _ IH]; [done|].
  rewrite mapM_result_cons, IH. unfold Py.getitem. simpl.
  apply lookup_lt_is_Some_2 in Hi as [a Ha]. by rewrite Ha.
Qed.

Lemma omap_lookup_seq {A : Type} (pre l : list A) :
  omap ((pre ++ l) !!.) (seq (length pre) (length l)) = l.
Proof.
  revert pre. induction l as [|x l IH]; intros pre; simpl; [done|].
  rewrite list_lookup_middle by done. f_equal.
  specialize (IH (pre ++ [x])).
  by rewrite <- app_assoc, length_app, Nat.add_1_r in IH.
Qed.

Lemma mapM_getitem_perm {A : Type} (l : list A) (picks : list nat) :
  picks ≡ₚ seq 0 (length l) →
  ∃ l', mapM (Py.getitem l) picks = Ok l' ∧ l' ≡ₚ l.
Proof.
  intros Hp. exists (omap (l !!.) picks). split.
  - apply mapM_getitem. rewrite Hp. apply Forall_forall.
    intros i Hi. apply elem_of_seq in Hi. lia.
  - rewrite Hp. pose proof (omap_lookup_seq [] l) as Hl. simpl in Hl. by rewrite Hl.
Qed.

(** The two comprehensions of [getAvailable] that discard unavailable GPUs
    keep, in order, the GPUs whose mask entry is 1. *)
Lemma getitem_available (pre GPUs : list GPU.t) (av : GPU.t → bool) :
  mapM (Py.getitem (pre ++ GPUs))
    (List.filter
       (λ idx, bool_decide (((λ gpu, if av gpu then 1 else 0) <$> pre ++ GPUs) !! idx = Some 1))
       (seq (length pre) (length GPUs)))
  = Ok (List.filter av GPUs).
Proof.
  revert pre. induction GPUs as [|x GPUs IH]; intros pre; [done|].
  specialize (IH (pre ++ [x])).
  rewrite <- app_assoc, length_app, Nat.add_1_r in IH. simpl in IH.
  simpl. rewrite list_lookup_fmap, list_lookup_middle by done. simpl.
  destruct (av x); simpl.
  - rewrite IH. unfold Py.getitem. by rewrite list_lookup_middle.
  - apply IH.
Qed.

(** The ordering step never raises, and it only rearranges the list. *)
Lemma order_gpus_perm (w : world) (order : string) (GPUs : list GPU.t) (st : state) :
  ∃ ordered st', order_gpus w order GPUs st = (Ok ordered, st')
    ∧ ordered ≡ₚ GPUs ∧ runs st' = runs st.
Proof.
  unfold order_gpus.
  repeat match goal with
         | |- context [if ?b then _ else _] => destruct b
         end;
    try (eexists _, st; split; [reflexivity|]; split; [apply sort_perm || done | done]).
  rewrite bind_run. unfold sample, lift.
  destruct (mapM_getitem_perm GPUs (random_sample w (runs st) (length GPUs)))
    as (l' & -> & Hl'); [apply random_sample_perm|].
  by eexists _, _.
Qed.

(** [getAvailable] after a snapshot that was read without an exception:
    filter, order, truncate, project. *)
Lemma getAvailable_run (w : world) (order : string) (limit : Z)
    (maxLoad maxMemory memoryFree : float) (includeNan : bool) (excludeID : list pynum)
    (excludeUUID excludeComputeMode : list string) (st st1 : state) (gpus : list GPU.t) :
  getGPUs w st = (Ok gpus, st1) →
  getAvailable w order limit maxLoad maxMemory memoryFree includeNan
    excludeID excludeUUID excludeComputeMode st
  = match order_gpus w order
            (List.filter (available maxLoad maxMemory memoryFree includeNan
                            excludeID excludeUUID excludeComputeMode) gpus) st1 with
    | (Ok ordered, st2) =>
        (Ok (GPU.id <$> Py.slice_to ordered (Z.min limit (Z.of_nat (length ordered)))), st2)
    | (Raise e, st2) => (Raise e, st2)
    end.
Proof.
  intros Hsnap. unfold getAvailable. rewrite bind_run, Hsnap.
  rewrite bind_run. unfold lift at 1, getAvailability.
  rewrite length_fmap.
  rewrite (getitem_available [] gpus). rewrite bind_run.
  by destruct (order_gpus _ _ _ _) as [[ordered|e] st2].
Qed.

(** When the snapshot raises, so does [getAvailable]. *)
Lemma getAvailable_raise (w : world) (order : string) (limit : Z)
    (maxLoad maxMemory memoryFree : float) (includeNan : bool) (excludeID : list pynum)
    (excludeUUID excludeComputeMode : list string) (st st1 : state) (e : exn) :
  getGPUs w st = (Raise e, st1) →
  getAvailable w order limit maxLoad maxMemory memoryFree includeNan
    excludeID excludeUUID excludeComputeMode st = (Raise e, st1).
Proof. intros Hsnap. unfold getAvailable. by rewrite bind_run, Hsnap. Qed.

Lemma slice_to_min {A : Type} (l : list A) (limit : Z) :
  0 ≤ limit →
  Py.slice_to l (Z.min limit (Z.of_nat (length l))) = take (Z.to_nat limit) l.
Proof.
  intros Hlimit. unfold Py.slice_to.
  destruct (Z.ltb_spec (Z.min limit (Z.of_nat (length l))) 0); [lia|].
  destruct (Z.le_gt_cases limit (Z.of_nat (length l))).
  - by rewrite Z.min_l.
  - rewrite Z.min_r, Nat2Z.id by lia. rewrite !take_ge; [done|lia..].
Qed.

(* ================================================================== *)
(** ** The selector: ordering by index *)
(* ================================================================== *)



(* ================================================================== *)
(** ** The selector: truncation to [limit] *)
(* ================================================================== *)

(** C7.  After a snapshot that was read, and for a positive [limit],
    [getAvailable] does not raise: it returns the indices of the first
    [limit] GPUs of the ordered survivors, in that order, so at most [limit]
    of them; when [limit] is at least the number of available GPUs it
    returns the indices of all of them, each once. *)
Theorem getAvailable_truncates (w : world) (order : string) (limit : Z)
    (maxLoad maxMemory memoryFree : float) (includeNan : bool) (excludeID : list pynum)
    (excludeUUID excludeComputeMode : list string) (st st1 : state) (gpus : list GPU.t) :
  0 < limit →
  getGPUs w st = (Ok gpus, st1) →
  let survivors :=
    List.filter (available maxLoad maxMemory memoryFree includeNan
                   excludeID excludeUUID excludeComputeMode) gpus in
  ∃ (ordered : list GPU.t) (st2 : state),
    order_gpus w order survivors st1 = (Ok ordered, st2)
    ∧ ordered ≡ₚ survivors
    ∧ getAvailable w order limit maxLoad maxMemory memoryFree includeNan
        excludeID excludeUUID excludeComputeMode st
      = (Ok (GPU.id <$> take (Z.to_nat limit) ordered), st2)
    ∧ length (GPU.id <$> take (Z.to_nat limit) ordered)
      = (Z.to_nat limit `min` length survivors)%nat
    ∧ (Z.of_nat (length survivors) ≤ limit →
       take (Z.to_nat limit) ordered = ordered
       ∧ GPU.id <$> take (Z.to_nat limit) ordered ≡ₚ GPU.id <$> survivors).
Proof.
  intros Hlimit Hsnap survivors.
  destruct (order_gpus_perm w order survivors st1) as (ordered & st2 & Hord & Hperm & _).
  exists ordered, st2. split; [done|]. split; [done|]. split; [|split].
  - rewrite (getAvailable_run _ _ _ _ _ _ _ _ _ _ _ _ _ Hsnap).
    fold survivors. rewrite Hord. by rewrite slice_to_min by lia.
  - by rewrite length_fmap, length_take, Hperm.
  - intros Hall. rewrite take_ge by (rewrite Hperm; lia).
    split; [done | by apply fmap_Permutation].
Qed.

(* ================================================================== *)
(** ** The polling wrapper *)
(* ================================================================== *)

Lemma steps_snoc (tr : list event) (e : event) :
  steps (tr ++ [e]) = steps tr ++ steps [e].
Proof. apply omap_app. Qed.

Lemma polling_succ (interval : N) (n : nat) :
  polling interval (S n)
  = Attempt :: (if bool_decide (n ≠ O) then [Pause interval] else []) ++ polling interval n.
Proof. by destruct n. Qed.


Lemma polling_last (interval : N) (n : nat) :
  last (polling interval (S n)) = Some Attempt.
Proof.
  induction n as [|n IH]; [done|].
  change (polling interval (S (S n)))
    with (Attempt :: Pause interval :: polling interval (S n)).
  by rewrite !last_cons, IH.
Qed.

(** A progress line changes neither the number of calls nor the steps. *)
Lemma print_effect (verbose : bool) (line : string) (st : state) :
  ∃ st', (if verbose then emit (Print line) else mret ()) st = (Ok (), st')
    ∧ runs st' = runs st ∧ steps (trace st') = steps (trace st).
Proof.
  destruct verbose; eexists; (split; [reflexivity|]); simpl; [|done].
  split; [done|]. rewrite steps_snoc. simpl. apply app_nil_r.
Qed.

Lemma sleep_effect (b : bool) (interval : N) (st : state) :
  ∃ st', (if b then emit (Sleep interval) else mret ()) st = (Ok (), st')
    ∧ runs st' = runs st
    ∧ steps (trace st') = steps (trace st) ++ (if b then [Pause interval] else []).
Proof.
  destruct b; eexists; (split; [reflexivity|]); simpl.
  - split; [done|]. by rewrite steps_snoc.
  - by rewrite app_nil_r.
Qed.

(** Reading a snapshot is one subprocess call. *)
Lemma getGPUs_effect (w : world) (st st1 : state) (r : result (list GPU.t)) :
  getGPUs w st = (r, st1) →
  (∃ e, r = Raise e ∧ getNvidiaSmiCmd w = Raise e ∧ st1 = st)
  ∨ (runs st1 = S (runs st) ∧ steps (trace st1) = steps (trace st) ++ [Attempt]).
Proof.
  unfold getGPUs. rewrite bind_run. unfold lift at 1.
  destruct (getNvidiaSmiCmd w) as [cmd|e].
  - rewrite bind_run. unfold run.
    destruct (subprocess_run _ _ _); intros [= <- <-]; right; simpl;
      by rewrite steps_snoc.
  - intros [= <- <-]. left. by exists e.
Qed.

Lemma order_gpus_effect (w : world) (order : string) (GPUs : list GPU.t) (st st' : state)
    (r : result (list GPU.t)) :
  order_gpus w order GPUs st = (r, st') →
  runs st' = runs st ∧ steps (trace st') = steps (trace st).
Proof.
  unfold order_gpus.
  repeat match goal with
         | |- context [if ?b then _ else _] => destruct b
         end; try (by intros [= <- <-]).
  rewrite bind_run. unfold sample, lift.
  destruct (mapM _ _); intros [= <- <-]; simpl;
    (split; [done|]); rewrite steps_snoc; simpl; apply app_nil_r.
Qed.

(** A selector call that returns is one attempt. *)
Lemma getAvailable_effect (w : world) (order : string) (limit : Z)
    (maxLoad maxMemory memoryFree : float) (includeNan : bool) (excludeID : list pynum)
    (excludeUUID excludeComputeMode : list string) (st st' : state) (ids : list pynum) :
  getAvailable w order limit maxLoad maxMemory memoryFree includeNan
    excludeID excludeUUID excludeComputeMode st = (Ok ids, st') →
  runs st' = S (runs st) ∧ steps (trace st') = steps (trace st) ++ [Attempt]
  ∧ (0 ≤ limit → Z.of_nat (length ids) ≤ limit).
Proof.
  destruct (getGPUs w st) as [[gpus|e] st1] eqn:Hsnap.
  - rewrite (getAvailable_run _ _ _ _ _ _ _ _ _ _ _ _ _ Hsnap).
    destruct (order_gpus _ _ _ _) as [[ordered|e] st2] eqn:Hord; [|done].
    intros [= <- <-].
    apply order_gpus_effect in Hord as [-> ->].
    apply getGPUs_effect in Hsnap as [(e & ? & _)|[-> ->]]; [done|].
    split; [done|]. split; [done|].
    intros Hlimit. rewrite slice_to_min, length_fmap, length_take by done. lia.
  - by rewrite (getAvailable_raise _ _ _ _ _ _ _ _ _ _ _ _ _ Hsnap).
Qed.

Section polling.
Context (w : world) (order : string) (maxLoad maxMemory : float) (attempts : Z)
  (interval : N) (verbose includeNan : bool) (excludeID : list pynum)
  (excludeUUID excludeComputeMode : list string).

Local Abbreviation selector :=
  (getAvailable w order 1 maxLoad maxMemory 0 includeNan
     excludeID excludeUUID excludeComputeMode).
Local Abbreviation loop :=
  (attempt_loop w order maxLoad maxMemory attempts interval verbose includeNan
     excludeID excludeUUID excludeComputeMode).

Lemma attempt_loop_cons (available : option (list pynum)) (i : Z) (todo : list Z) :
  loop available (i :: todo)
  = (_ ← (if verbose
          then emit (Print ("Attempting (" +:+ Py.str_int (i + 1) +:+ "/"
                            +:+ Py.str_int attempts +:+ ") to locate available GPU."))
          else mret ());
     available ← selector;
     match available with
     | _ :: _ =>
         _ ← (if verbose
              then emit (Print ("GPU " +:+ Py.str_list available +:+ " located!"))
              else mret ());
         mret (Some available)
     | [] =>
         _ ← (if bool_decide (i ≠ attempts - 1) then emit (Sleep interval) else mret ());
         loop (Some available) todo
     end).
Proof. reflexivity. Qed.


(** The rounds of the loop up to the one in which the selector finds a GPU. *)
Lemma attempt_loop_found (m n k : nat) (available : option (list pynum)) (st : state)
    (found : list pynum) :
  Z.of_nat (k + n) = attempts → (m < n)%nat →
  (∀ (j : nat) (st' : state), (j < m)%nat → runs st' = (runs st + j)%nat →
     fst (selector st') = Ok []) →
  (∀ st' : state, runs st' = (runs st + m)%nat → fst (selector st') = Ok found) →
  found ≠ [] →
  ∃ st', loop available (Z.of_nat <$> seq k n) st = (Ok (Some found), st')
    ∧ runs st' = (runs st + S m)%nat
    ∧ steps (trace st') = steps (trace st) ++ polling interval (S m)
    ∧ length found = 1%nat.
Proof.
  revert n k available st.
  induction m as [|m IH]; intros n k available st Hk Hmn Hempty Hfound Hne;
    (destruct n as [|n]; [lia|]);
    simpl seq; rewrite fmap_cons, attempt_loop_cons, bind_run;
    destruct (print_effect verbose
                ("Attempting (" +:+ Py.str_int (Z.of_nat k + 1) +:+ "/"
                 +:+ Py.str_int attempts +:+ ") to locate available GPU.") st)
      as (st_p & -> & Hrp & Hsp);
    rewrite bind_run.
  - pose proof (Hfound st_p ltac:(lia)) as Hsel.
    destruct (selector st_p) as [ids st_a] eqn:Hcall. simpl in Hsel. subst ids.
    apply getAvailable_effect in Hcall as (Hra & Hsa & Hlen).
    destruct found as [|id found]; [done|]. rewrite bind_run.
    destruct (print_effect verbose
                ("GPU " +:+ Py.str_list (id :: found) +:+ " located!") st_a)
      as (st' & -> & Hr' & Hs').
    exists st'. split; [done|]. split; [lia|]. split.
    + by rewrite Hs', Hsa, Hsp.
    + specialize (Hlen ltac:(lia)). simpl in *. lia.
  - pose proof (Hempty O st_p ltac:(lia) ltac:(lia)) as Hsel.
    destruct (selector st_p) as [ids st_a] eqn:Hcall. simpl in Hsel. subst ids.
    apply getAvailable_effect in Hcall as (Hra & Hsa & _).
    rewrite bind_run.
    destruct (sleep_effect (bool_decide (Z.of_nat k ≠ attempts - 1)) interval st_a)
      as (st_s & -> & Hrs & Hss).
    destruct (IH n (S k) (Some []) st_s) as (st' & -> & Hr' & Hs' & Hlen); [lia..| | |done|].
    { intros j st'' Hj Hruns. apply (Hempty (S j)); lia. }
    { intros st'' Hruns. apply Hfound. lia. }
    exists st'. split; [done|]. split; [lia|]. split; [|done].
    rewrite Hs', Hss, Hsa, Hsp, (polling_succ _ (S m)), <- !app_assoc. simpl.
    do 2 f_equal. by rewrite bool_decide_eq_true_2 by lia.
Qed.

End polling.

Section failures.
Context (w : world) (order : string) (maxLoad maxMemory : float) (attempts : Z)
  (interval : N) (verbose includeNan : bool) (excludeID : list pynum)
  (excludeUUID excludeComputeMode : list string).

Local Abbreviation the_selector :=
  (getAvailable w order 1 maxLoad maxMemory 0 includeNan
     excludeID excludeUUID excludeComputeMode).
Local Abbreviation the_loop :=
  (attempt_loop w order maxLoad maxMemory attempts interval verbose includeNan
     excludeID excludeUUID excludeComputeMode).



End failures.



(** C4.  When the selector returns the empty list in the first [k] rounds
    and a non-empty list [found] in the next one, with [k < attempts],
    [getFirstAvailable] returns [found], a list of one index, after exactly
    [k + 1] selector calls: the steps are [k + 1] attempts with a sleep
    between consecutive ones, so the last step is the successful attempt and
    no sleep follows it. *)
Theorem getFirstAvailable_found (w : world) (order : string)
    (maxLoad maxMemory : float) (attempts : Z) (interval : N)
    (verbose includeNan : bool) (excludeID : list pynum)
    (excludeUUID excludeComputeMode : list string) (st : state)
    (k : nat) (found : list pynum) :
  Z.of_nat k < attempts →
  (∀ (j : nat) (st' : state), (j < k)%nat → runs st' = (runs st + j)%nat →
     fst (getAvailable w order 1 maxLoad maxMemory 0 includeNan
            excludeID excludeUUID excludeComputeMode st') = Ok []) →
  (∀ st' : state, runs st' = (runs st + k)%nat →
     fst (getAvailable w order 1 maxLoad maxMemory 0 includeNan
            excludeID excludeUUID excludeComputeMode st') = Ok found) →
  found ≠ [] →
  ∃ st',
    getFirstAvailable w order maxLoad maxMemory attempts interval verbose includeNan
      excludeID excludeUUID excludeComputeMode st
    = (Ok found, st')
    ∧ length found = 1%nat
    ∧ runs st' = (runs st + S k)%nat
    ∧ steps (trace st') = steps (trace st) ++ polling interval (S k)
    ∧ last (steps (trace st')) = Some Attempt.
Proof.
  intros Hk Hempty Hfound Hne.
  destruct (attempt_loop_found w order maxLoad maxMemory attempts interval verbose
              includeNan excludeID excludeUUID excludeComputeMode
              k (Z.to_nat attempts) O None st found)
    as (st' & Hloop & Hruns & Hsteps & Hlen); [lia..|done|done|done|].
  exists st'. unfold getFirstAvailable, Py.range. rewrite bind_run, Hloop.
  destruct found as [|id found]; [done|].
  split; [done|]. split; [done|]. split; [done|]. split; [done|].
  rewrite Hsteps, last_app, polling_last. done.
Qed.

(** C10.  With [attempts = 0] (and likewise with a negative [attempts]) the
    body of the loop never runs: no selector call, no sleep, nothing
    printed; the read of the local variable [available] after the loop
    raises UnboundLocalError, not the RuntimeError of an exhausted search,
    and nothing is returned. *)
Theorem getFirstAvailable_no_attempts (w : world) (order : string)
    (maxLoad maxMemory : float) (interval : N)
    (verbose includeNan : bool) (excludeID : list pynum)
    (excludeUUID excludeComputeMode : list string) (st : state) :
  getFirstAvailable w order maxLoad maxMemory 0 interval verbose includeNan
    excludeID excludeUUID excludeComputeMode st
  = (Raise (UnboundLocalError "available"), st)
  ∧ (∀ attempts : Z, attempts ≤ 0 →
       getFirstAvailable w order maxLoad maxMemory attempts interval verbose includeNan
         excludeID excludeUUID excludeComputeMode st
       = (Raise (UnboundLocalError "available"), st)).
Proof.
  split; [reflexivity|].
  intros attempts Hattempts. unfold getFirstAvailable, Py.range.
  replace (Z.to_nat attempts) with O by lia. reflexivity.
Qed.

(* ================================================================== *)
(** ** Records and the parsing of a line *)
(* ================================================================== *)

Lemma bind_ok_inv {A B : Type} (m : result A) (f : A → result B) (b : B) :
  m ≫= f = Ok b → ∃ a, m = Ok a ∧ f a = Ok b.
Proof. destruct m as [a|e]; [by exists a | done]. Qed.

Lemma fmap_ok_inv {A B : Type} (m : result A) (f : A → B) (b : B) :
  f <$> m = Ok b → ∃ a, m = Ok a ∧ f a = b.
Proof. destruct m as [a|e]; [intros [= <-]; by exists a | done]. Qed.

Lemma getitem_ok {A : Type} (l : list A) (i : nat) (a : A) :
  Py.getitem l i = Ok a ↔ l !! i = Some a.
Proof. unfold Py.getitem. destruct (l !! i); split; congruence. Qed.

(** A value that [float] rejects is read as NaN. *)
Lemma safeFloatCast_rejected (strNumber : string) :
  (∀ number, Py.float strNumber ≠ Ok number) → safeFloatCast strNumber = nan.
Proof.
  intros H. unfold safeFloatCast. destruct (Py.float strNumber) as [f|e]; [|done].
  by destruct (H f).
Qed.

Lemma gpu_init_run (ID : pynum) (uuid : string) (load memoryTotal memoryUsed memoryFree : float)
    (driver gpu_name serial display_mode display_active : string) (temp_gpu : float)
    (core_clock memory_clock : Z) (vbios_version : string) (power_draw power_limit : float)
    (compute_mode : string) (pci_bus : Z) :
  GPU.init ID uuid load memoryTotal memoryUsed memoryFree driver gpu_name serial
    display_mode display_active temp_gpu core_clock memory_clock vbios_version
    power_draw power_limit compute_mode pci_bus
  = if PrimFloat.eqb memoryTotal 0 then Raise ZeroDivisionError
    else Ok {| GPU.id := ID; GPU.uuid := uuid; GPU.load := load;
               GPU.memoryUtil := PrimFloat.div memoryUsed memoryTotal;
               GPU.memoryTotal := memoryTotal; GPU.memoryUsed := memoryUsed;
               GPU.memoryFree := memoryFree; GPU.driver := driver;
               GPU.name := gpu_name; GPU.serial := serial;
               GPU.display_mode := display_mode; GPU.display_active := display_active;
               GPU.temperature := temp_gpu; GPU.vbios_version := vbios_version;
               GPU.power_draw := power_draw; GPU.power_limit := power_limit;
               GPU.core_clock := core_clock; GPU.memory_clock := memory_clock;
               GPU.compute_mode := compute_mode; GPU.pci_bus := pci_bus |}.
Proof. unfold GPU.init, GPU.truediv. by destruct (PrimFloat.eqb memoryTotal 0). Qed.

(** A list of at least nineteen fields is read column by column: the four
    integer columns must parse, and the record is built from the rest. *)
Lemma gpu_of_vals_run (v0 v1 v2 v3 v4 v5 v6 v7 v8 v9 v10 v11 v12 v13 v14 v15 v16 v17 v18 : string)
    (rest : list string) :
  gpu_of_vals (v0 :: v1 :: v2 :: v3 :: v4 :: v5 :: v6 :: v7 :: v8 :: v9 :: v10 :: v11
               :: v12 :: v13 :: v14 :: v15 :: v16 :: v17 :: v18 :: rest)
  = (deviceIds ← Py.int v0;
     core_clock ← Py.int v12;
     memory_clock ← Py.int v13;
     pci_bus ← Py.int16 v18;
     GPU.init (PyInt deviceIds) v1 (PrimFloat.div (safeFloatCast v2) 100)
       (safeFloatCast v3) (safeFloatCast v4) (safeFloatCast v5) v6 v7 v8 v10 v9
       (safeFloatCast v11) core_clock memory_clock v14
       (safeFloatCast v15) (safeFloatCast v16) v17 pci_bus).
Proof. reflexivity. Qed.

(** A line that is read has at least nineteen fields. *)
Lemma gpu_of_vals_fields (vals : list string) (gpu : GPU.t) :
  gpu_of_vals vals = Ok gpu →
  ∃ v0 v1 v2 v3 v4 v5 v6 v7 v8 v9 v10 v11 v12 v13 v14 v15 v16 v17 v18 rest,
    vals = v0 :: v1 :: v2 :: v3 :: v4 :: v5 :: v6 :: v7 :: v8 :: v9 :: v10 :: v11
           :: v12 :: v13 :: v14 :: v15 :: v16 :: v17 :: v18 :: rest.
Proof.
  intros H. unfold gpu_of_vals in H.
  assert (is_Some (vals !! 18%nat)) as Hlen.
  { repeat (apply bind_ok_inv in H as (? & ? & H)). clear H.
    match goal with
    | Hget : Py.getitem vals 18 ≫= Py.int16 = Ok _ |- _ =>
        apply bind_ok_inv in Hget as (v & Hget & _); apply getitem_ok in Hget; by exists v
    end. }
  apply lookup_lt_is_Some in Hlen.
  do 19 (destruct vals as [|? vals]; [simpl in Hlen; lia|]).
  by repeat eexists.
Qed.

(** With a total memory of zero [GPU.__init__] builds no record at all: the
    division raises ZeroDivisionError, also for zero used memory. *)
Lemma gpu_init_zero_total_raises :
  GPU.init (PyInt 0) "GPU-a" 0.25 0 0 0 "535.54" "NVIDIA GeForce RTX 3080" "[N/A]"
    "Enabled" "Disabled" 45 1500 5000 "94.02.42.00.0B" 50.5 250 "Default" 1
  = Raise ZeroDivisionError.
Proof. vm_compute. reflexivity. Qed.

(** The same through the parser: a line whose memory.total column is 0. *)
Lemma gpu_of_line_zero_total_raises :
  gpu_of_line (gpu_line "0" "GPU-a" "0") = Raise ZeroDivisionError.
Proof. vm_compute. reflexivity. Qed.

(** C6 (amended).  [GPU.__init__] computes [memoryUtil] as
    [memoryUsed / memoryTotal] and stores the other arguments unchanged, so
    every record it builds, and every record parsed from a line, satisfies
    [memoryUtil = memoryUsed / memoryTotal]; when [memoryTotal] is zero no
    record is built: the constructor raises ZeroDivisionError. *)
Theorem gpu_init_memoryUtil (ID : pynum) (uuid : string)
    (load memoryTotal memoryUsed memoryFree : float)
    (driver gpu_name serial display_mode display_active : string) (temp_gpu : float)
    (core_clock memory_clock : Z) (vbios_version : string) (power_draw power_limit : float)
    (compute_mode : string) (pci_bus : Z) :
  let built :=
    GPU.init ID uuid load memoryTotal memoryUsed memoryFree driver gpu_name serial
      display_mode display_active temp_gpu core_clock memory_clock vbios_version
      power_draw power_limit compute_mode pci_bus in
  (PrimFloat.eqb memoryTotal 0 = true → built = Raise ZeroDivisionError)
  ∧ (PrimFloat.eqb memoryTotal 0 = false →
     ∃ gpu, built = Ok gpu
       ∧ GPU.memoryUsed gpu = memoryUsed ∧ GPU.memoryTotal gpu = memoryTotal
       ∧ GPU.memoryUtil gpu = PrimFloat.div memoryUsed memoryTotal)
  ∧ (∀ gpu, built = Ok gpu →
       GPU.memoryUtil gpu = PrimFloat.div (GPU.memoryUsed gpu) (GPU.memoryTotal gpu)
       ∧ PrimFloat.eqb (GPU.memoryTotal gpu) 0 = false)
  ∧ (∀ line gpu, gpu_of_line line = Ok gpu →
       GPU.memoryUtil gpu = PrimFloat.div (GPU.memoryUsed gpu) (GPU.memoryTotal gpu)
       ∧ PrimFloat.eqb (GPU.memoryTotal gpu) 0 = false).
Proof.
  intros built. subst built. rewrite gpu_init_run.
  split; [by intros ->|]. split; [intros ->; by eexists|]. split.
  - intros gpu. destruct (PrimFloat.eqb memoryTotal 0) eqn:Hz; [done|].
    by intros [= <-].
  - intros line gpu Hline. unfold gpu_of_line in Hline.
    destruct (gpu_of_vals_fields _ _ Hline)
      as (v0 & v1 & v2 & v3 & v4 & v5 & v6 & v7 & v8 & v9 & v10 & v11 & v12 & v13
          & v14 & v15 & v16 & v17 & v18 & rest & Hvals).
    rewrite Hvals, gpu_of_vals_run in Hline.
    do 4 (apply bind_ok_inv in Hline as (? & _ & Hline)).
    rewrite gpu_init_run in Hline.
    destruct (PrimFloat.eqb (safeFloatCast v3) 0) eqn:Hz; [done|].
    by injection Hline as <-.
Qed.

(* ================================================================== *)
(** ** The permissive float cast *)
(* ================================================================== *)

(** C8.  [safeFloatCast] is defined on every string and never raises: it
    returns the number when [float] parses the string, and NaN when [float]
    raises.  So a line that is read is still read when one of its float
    columns is replaced by text that [float] rejects, and the record then
    holds NaN for that column. *)
Theorem safeFloatCast_total (strNumber : string) :
  (∀ number, Py.float strNumber = Ok number → safeFloatCast strNumber = number)
  ∧ ((∀ number, Py.float strNumber ≠ Ok number) → safeFloatCast strNumber = nan)
  ∧ (∀ (vals : list string) (gpu : GPU.t) (i : nat),
       gpu_of_vals vals = Ok gpu →
       is_Some (float_column i gpu) →
       (∀ number, Py.float strNumber ≠ Ok number) →
       ∃ gpu' f, gpu_of_vals (<[i := strNumber]> vals) = Ok gpu'
         ∧ float_column i gpu' = Some f ∧ PrimFloat.is_nan f = true).
Proof.
  split; [|split].
  - intros number H. unfold safeFloatCast. by rewrite H.
  - apply safeFloatCast_rejected.
  - intros vals gpu i Hvals Hcol Hbad.
    apply safeFloatCast_rejected in Hbad.
    destruct (gpu_of_vals_fields _ _ Hvals)
      as (v0 & v1 & v2 & v3 & v4 & v5 & v6 & v7 & v8 & v9 & v10 & v11 & v12 & v13
          & v14 & v15 & v16 & v17 & v18 & rest & ->).
    rewrite gpu_of_vals_run in Hvals.
    apply bind_ok_inv in Hvals as (deviceIds & Hv0 & Hvals).
    apply bind_ok_inv in Hvals as (core_clock & Hv12 & Hvals).
    apply bind_ok_inv in Hvals as (memory_clock & Hv13 & Hvals).
    apply bind_ok_inv in Hvals as (pci_bus & Hv18 & Hvals).
    rewrite gpu_init_run in Hvals.
    destruct (PrimFloat.eqb (safeFloatCast v3) 0) eqn:Hz; [done|]. clear Hvals.
    destruct Hcol as [f Hf].
    assert (i = 2 ∨ i = 3 ∨ i = 4 ∨ i = 5 ∨ i = 11 ∨ i = 15 ∨ i = 16)%nat as Hi.
    { do 17 (destruct i as [|i]; [first [discriminate Hf | lia]|]). discriminate Hf. }
    clear Hf.
    destruct Hi as [->|[->|[->|[->|[->|[->| ->]]]]]];
      simpl; rewrite gpu_of_vals_run, Hv0, Hv12, Hv13, Hv18; simpl;
      rewrite gpu_init_run, Hbad, ?Hz; simpl; eexists _, _;
      (split; [reflexivity|]); split; reflexivity.
Qed.

(* ================================================================== *)
(** ** The snapshot readers *)
(* ================================================================== *)

Lemma getNvidiaSmiCmd_posix (w : world) :
  platform_system w ≠ "Windows" → getNvidiaSmiCmd w = Ok "nvidia-smi".
Proof.
  intros H. unfold getNvidiaSmiCmd. apply String.eqb_neq in H. by rewrite H.
Qed.

(** The loop over [range(numDevices)] reads the first [n] lines in order. *)
Lemma mapM_range_getitem {A B : Type} (f : A → result B) (pre l : list A) (n : nat) :
  (n ≤ length l)%nat →
  mapM (λ g, Py.getitem (pre ++ l) (Z.to_nat g) ≫= f) (Z.of_nat <$> seq (length pre) n)
  = mapM f (take n l).
Proof.
  revert pre l. induction n as [|n IH]; intros pre l Hn; [done|].
  destruct l as [|x l]; [simpl in Hn; lia|].
  specialize (IH (pre ++ [x]) l).
  rewrite <- app_assoc, length_app, Nat.add_1_r in IH.
  change ((pre ++ [x] ++ l)) with (pre ++ x :: l) in IH.
  change (seq (length pre) (S n)) with (length pre :: seq (S (length pre)) n).
  change (take (S n) (x :: l)) with (x :: take n l).
  rewrite fmap_cons, !mapM_result_cons, IH by (simpl in Hn; lia).
  rewrite Nat2Z.id. unfold Py.getitem. by rewrite list_lookup_middle.
Qed.

Lemma gpus_of_output_lines (w : world) (output : string) :
  gpus_of_output w output
  = mapM gpu_of_line
      (take (length (Py.split output (os_linesep w)) - 1)
         (Py.split output (os_linesep w))).
Proof.
  unfold gpus_of_output, Py.range.
  replace (Z.to_nat (Z.of_nat (length (Py.split output (os_linesep w))) - 1))
    with (length (Py.split output (os_linesep w)) - 1)%nat by lia.
  apply (mapM_range_getitem gpu_of_line []). lia.
Qed.

(** What [nvidia-smi] prints when the driver is down is not caught by
    [getGPUs]: [int] raises ValueError on its first line. *)
Lemma getGPUs_malformed_output_raises :
  fst (getGPUs (posix_world (λ _, Some driver_failure)) initial) = Raise ValueError.
Proof. vm_compute. reflexivity. Qed.

(** A line with too few fields raises IndexError. *)
Lemma getGPUs_short_line_raises :
  fst (getGPUs (posix_world (λ _, Some ("0, GPU-a, 25" +:+ newline))) initial)
  = Raise IndexError.
Proof. vm_compute. reflexivity. Qed.

(** C5 (amended).  Once the command name is determined, [getGPUs] returns
    the empty list when the invocation of [nvidia-smi] raises, and when the
    captured text has no line terminator, in particular when it is empty.
    Otherwise it parses the lines before the last terminator in order and
    returns their records, or raises what the first line that does not
    parse raises: parse errors are not caught. *)
Theorem getGPUs_failure_policy (w : world) (st : state) (nvidia_smi : string) :
  getNvidiaSmiCmd w = Ok nvidia_smi →
  let outcome := subprocess_run w (runs st) [nvidia_smi; query_gpu; format_csv] in
  (outcome = None → fst (getGPUs w st) = Ok [])
  ∧ (outcome = Some "" → fst (getGPUs w st) = Ok [])
  ∧ (∀ stdout, outcome = Some stdout → Py.split stdout (os_linesep w) = [stdout] →
       fst (getGPUs w st) = Ok [])
  ∧ (∀ stdout, outcome = Some stdout →
       fst (getGPUs w st)
       = mapM gpu_of_line
           (take (length (Py.split stdout (os_linesep w)) - 1)
              (Py.split stdout (os_linesep w)))).
Proof.
  intros Hcmd outcome.
  assert (∀ stdout, outcome = Some stdout →
            fst (getGPUs w st) = gpus_of_output w stdout) as Hrun.
  { intros stdout Hout. unfold getGPUs. rewrite bind_run, Hcmd. unfold lift at 1.
    rewrite bind_run. unfold run. fold outcome. by rewrite Hout. }
  split; [|split; [|split]].
  - intros Hout. unfold getGPUs. rewrite bind_run, Hcmd. unfold lift at 1.
    rewrite bind_run. unfold run. fold outcome. by rewrite Hout.
  - intros Hout. rewrite (Hrun _ Hout). unfold gpus_of_output, os_linesep.
    by destruct (String.eqb _ _).
  - intros stdout Hout Hsplit. rewrite (Hrun _ Hout), gpus_of_output_lines.
    by rewrite Hsplit.
  - intros stdout Hout. by rewrite (Hrun _ Hout), gpus_of_output_lines.
Qed.

(* ================================================================== *)
(** ** GPU processes *)
(* ================================================================== *)

(** The default of -1 is taken only for a key that is present with the
    value None; a key that is absent raises KeyError. *)
Lemma lookup_gpuId_spec (gpuUuidToIdMap : gmap string (option pynum)) (gpuUuid : string) :
  (gpuUuidToIdMap !! gpuUuid = None →
   lookup_gpuId gpuUuidToIdMap gpuUuid = Raise (KeyError gpuUuid))
  ∧ (lookup_gpuId gpuUuidToIdMap gpuUuid = Ok (PyInt (-1)) →
     gpuUuidToIdMap !! gpuUuid = Some None
     ∨ gpuUuidToIdMap !! gpuUuid = Some (Some (PyInt (-1)))).
Proof.
  unfold lookup_gpuId. destruct (gpuUuidToIdMap !! gpuUuid) as [[i|]|].
  - split; [done|]. intros [= ->]. by right.
  - split; [done|]. by left.
  - split; done.
Qed.

(** The map built at import never holds None. *)
Lemma gpuUuidToIdMap_no_None (gpus : list GPU.t) (m : gmap string (option pynum))
    (gpuUuid : string) :
  m !! gpuUuid ≠ Some None →
  foldl (λ m gpu, <[GPU.uuid gpu := Some (GPU.id gpu)]> m) m gpus !! gpuUuid ≠ Some None.
Proof.
  revert m. induction gpus as [|gpu gpus IH]; intros m Hm; [done|].
  simpl. apply IH.
  destruct (decide (GPU.uuid gpu = gpuUuid)) as [->|Hne].
  - by rewrite lookup_insert_eq.
  - by rewrite lookup_insert_ne.
Qed.

(** A process line whose GPU UUID is not a key of the map aborts the round
    with KeyError, before [ps] is called; no record is built. *)
Lemma process_of_line_unknown_uuid (w : world) (gpuUuidToIdMap : gmap string (option pynum))
    (pid processName gpuUuid gpuName usedMemory : string) (rest : list string)
    (line : string) (n : Z) (st : state) :
  Py.split line ", " = pid :: processName :: gpuUuid :: gpuName :: usedMemory :: rest →
  Py.int pid = Ok n →
  gpuUuidToIdMap !! gpuUuid = None →
  process_of_line w gpuUuidToIdMap line st = (Raise (KeyError gpuUuid), st).
Proof.
  intros Hsplit Hpid Hmap. unfold process_of_line. rewrite Hsplit.
  rewrite !bind_run. unfold lift, Py.getitem. simpl. rewrite Hpid. simpl.
  rewrite !bind_run. simpl.
  by rewrite (proj1 (lookup_gpuId_spec gpuUuidToIdMap gpuUuid) Hmap).
Qed.

(** C9 at a failing input.  The driver is down when the module is
    imported, so the map stays empty; later [nvidia-smi] lists a process on
    GPU-aaaa.  [getGPUProcesses] raises KeyError for that UUID: no record
    with [gpuId = -1] is returned. *)
Theorem getGPUProcesses_unknown_uuid_raises :
  let w := posix_world (λ k, match k with
                             | O => None
                             | S _ => Some ("1234, python, GPU-aaaa, NVIDIA GeForce RTX 3080, 100"
                                            +:+ newline)
                             end) in
  ∃ st1, gpuUuidToIdMap_at_import w initial = (Ok ∅, st1)
    ∧ fst (getGPUProcesses w ∅ st1) = Raise (KeyError "GPU-aaaa").
Proof. eexists. split; vm_compute; reflexivity. Qed.

(* ================================================================== *)
(** ** The theorems at concrete inputs *)
(* ================================================================== *)


(** The second attempt succeeds: no third attempt, no sleep after it. *)
Lemma getFirstAvailable_found_witness :
  ∃ st',
    getFirstAvailable
      (posix_world (λ k, match k with O => Some "" | S _ => Some three_gpus_output end))
      "first" 0.5 0.5 3 900 false false [] [] default_excludeComputeMode initial
    = (Ok [PyInt 0], st')
    ∧ runs st' = 2%nat
    ∧ steps (trace st') = [Attempt; Pause 900; Attempt].
Proof.
  destruct (getFirstAvailable_found
              (posix_world (λ k, match k with O => Some "" | S _ => Some three_gpus_output end))
              "first" 0.5 0.5 3 900 false false [] [] default_excludeComputeMode initial
              1 [PyInt 0])
    as (st' & Hrun & _ & Hruns & Hsteps & _).
  - lia.
  - intros j [r tr] Hj Hr. simpl in Hr. assert (r = O) as -> by lia.
    vm_compute. reflexivity.
  - intros [r tr] Hr. simpl in Hr. subst r. vm_compute. reflexivity.
  - discriminate.
  - exists st'. split; [exact Hrun|]. split; [exact Hruns | exact Hsteps].
Defined.

(** Both failures of the invocation that [getGPUs] answers with the empty
    list, on a POSIX machine. *)
Lemma getGPUs_failure_policy_witness :
  fst (getGPUs (posix_world (λ _, None)) initial) = Ok []
  ∧ fst (getGPUs (posix_world (λ _, Some "")) initial) = Ok [].
Proof.
  split.
  - apply (proj1 (getGPUs_failure_policy (posix_world (λ _, None)) initial
                    "nvidia-smi" eq_refl)).
    reflexivity.
  - apply (proj1 (proj2 (getGPUs_failure_policy (posix_world (λ _, Some "")) initial
                           "nvidia-smi" eq_refl))).
    reflexivity.
Defined.

(** A limit of five with three available GPUs. *)
Lemma getAvailable_truncates_witness :
  ∃ (gpus ordered : list GPU.t) (st2 : state),
    fst (getGPUs (posix_world (λ _, Some three_gpus_output)) initial) = Ok gpus
    ∧ length gpus = 3%nat
    ∧ getAvailable (posix_world (λ _, Some three_gpus_output)) "load" 5 0.5 0.5 0 false
        [] [] default_excludeComputeMode initial
      = (Ok (GPU.id <$> ordered), st2)
    ∧ GPU.id <$> ordered
      ≡ₚ GPU.id <$> List.filter (available 0.5 0.5 0 false [] [] default_excludeComputeMode) gpus.
Proof.
  destruct (getGPUs (posix_world (λ _, Some three_gpus_output)) initial)
    as [snapshot st1] eqn:Hsnap.
  assert (∃ gpus, snapshot = Ok gpus ∧ length gpus = 3%nat) as (gpus & -> & Hlen).
  { vm_compute in Hsnap. injection Hsnap as <- _. eexists. split; reflexivity. }
  destruct (getAvailable_truncates (posix_world (λ _, Some three_gpus_output)) "load" 5
              0.5 0.5 0 false [] [] default_excludeComputeMode initial st1 gpus)
    as (ordered & st2 & _ & Hperm & Hrun & _ & Hall); [lia | exact Hsnap |].
  destruct Hall as [Htake Hids].
  { pose proof (List.filter_length_le
                  (available 0.5 0.5 0 false [] [] default_excludeComputeMode) gpus).
    lia. }
  exists gpus, ordered, st2. split; [reflexivity|]. split; [exact Hlen|].
  rewrite Htake in Hrun. split; [exact Hrun|]. rewrite Htake in Hids. exact Hids.
Defined.

(** A line with 1024 of 8192 MiB in use. *)
Lemma gpu_init_memoryUtil_witness :
  ∃ gpu, gpu_of_line (gpu_line "0" "GPU-a" "8192") = Ok gpu
    ∧ GPU.memoryUtil gpu = PrimFloat.div (GPU.memoryUsed gpu) (GPU.memoryTotal gpu)
    ∧ GPU.memoryUtil gpu = 0.125%float.
Proof.
  destruct (gpu_of_line (gpu_line "0" "GPU-a" "8192")) as [gpu|e] eqn:Hline.
  - exists gpu. split; [reflexivity|].
    destruct (proj2 (proj2 (proj2 (gpu_init_memoryUtil (PyInt 0) "" 0 1 0 0 "" "" "" "" ""
                                     0 0 0 "" 0 0 "" 0)))
                _ _ Hline) as [Hutil _].
    split; [exact Hutil|].
    vm_compute in Hline. injection Hline as <-. reflexivity.
  - vm_compute in Hline. discriminate Hline.
Defined.

(** The temperature column of a line replaced by the text that
    [nvidia-smi] prints for a missing sensor. *)
Lemma safeFloatCast_total_witness :
  safeFloatCast "[N/A]" = nan
  ∧ ∃ gpu' f,
      gpu_of_vals (<[11%nat := "[N/A]"]> (Py.split (gpu_line "0" "GPU-a" "8192") ", "))
      = Ok gpu'
      ∧ float_column 11 gpu' = Some f ∧ PrimFloat.is_nan f = true.
Proof.
  split.
  - apply (proj1 (proj2 (safeFloatCast_total "[N/A]"))).
    intros number Hnumber. vm_compute in Hnumber. discriminate Hnumber.
  - destruct (gpu_of_vals (Py.split (gpu_line "0" "GPU-a" "8192") ", "))
      as [gpu|e] eqn:Hvals.
    + apply (proj2 (proj2 (safeFloatCast_total "[N/A]")) _ gpu 11%nat Hvals).
      * by eexists.
      * intros number Hnumber. vm_compute in Hnumber. discriminate Hnumber.
    + vm_compute in Hvals. discriminate Hvals.
Defined.

(* ================================================================== *)
(** ** The order of floats *)
(* ================================================================== *)

Lemma SFltb_rank (f g : spec_float) :
  f ≠ S754_nan → g ≠ S754_nan →
  SFltb f g = true ↔ lex_lt (SFrank f) (SFrank g).
Proof.
  intros Hf Hg. unfold SFltb, lex_lt.
  destruct f as [s1|s1| |s1 m1 e1], g as [s2|s2| |s2 m2 e2]; try done;
    try destruct s1; try destruct s2; simpl;
    try change (PosDef.Pos.compare_cont Eq m1 m2) with (Pos.compare m1 m2);
    try destruct (Z.compare_spec e1 e2);
    try destruct (Pos.compare_spec m1 m2);
    simpl; (split; [try discriminate; intros _; lia | try done; intros ?; exfalso; lia]).
Qed.

Lemma SF_nan_or_not (f : spec_float) : f = S754_nan ∨ f ≠ S754_nan.
Proof. destruct f; first [by left | by right]. Qed.

Lemma SFltb_nan_l (g : spec_float) : SFltb S754_nan g = false.
Proof. done. Qed.

Lemma SFltb_nan_r (f : spec_float) : SFltb f S754_nan = false.
Proof. by destruct f. Qed.

Lemma SFltb_false_rank (f g : spec_float) :
  f ≠ S754_nan → g ≠ S754_nan →
  SFltb f g = false ↔ ¬ lex_lt (SFrank f) (SFrank g).
Proof.
  intros Hf Hg. rewrite <- (SFltb_rank f g Hf Hg). by destruct (SFltb f g).
Qed.

Lemma SFltb_asym (f g : spec_float) : SFltb f g = true → SFltb g f = false.
Proof.
  intros H.
  destruct (SF_nan_or_not f) as [->|Hf]; [done|].
  destruct (SF_nan_or_not g) as [->|Hg]; [by rewrite SFltb_nan_r in H|].
  apply SFltb_rank in H; [|done..]. apply SFltb_false_rank; [done..|].
  unfold lex_lt in *. destruct (SFrank f) as [[??]?], (SFrank g) as [[??]?].
  simpl in *. lia.
Qed.

Lemma SFle_trans (f g h : spec_float) :
  g ≠ S754_nan → SFltb g f = false → SFltb h g = false → SFltb h f = false.
Proof.
  intros Hg Hgf Hhg.
  destruct (SF_nan_or_not f) as [->|Hf]; [apply SFltb_nan_r|].
  destruct (SF_nan_or_not h) as [->|Hh]; [done|].
  apply SFltb_false_rank in Hgf, Hhg; [|done..]. apply SFltb_false_rank; [done..|].
  unfold lex_lt in *.
  destruct (SFrank f) as [[??]?], (SFrank g) as [[??]?], (SFrank h) as [[??]?].
  simpl in *. lia.
Qed.

Lemma is_nan_Prim2SF (x : float) :
  PrimFloat.is_nan x = true ↔ Prim2SF x = S754_nan.
Proof.
  unfold PrimFloat.is_nan. rewrite FloatAxioms.eqb_spec. unfold SFeqb. split.
  - intros H. destruct (SF_nan_or_not (Prim2SF x)) as [|Hn]; [done|].
    by rewrite SFcompare_refl in H.
  - by intros ->.
Qed.

Lemma not_nan_Prim2SF (x : float) :
  PrimFloat.is_nan x = false ↔ Prim2SF x ≠ S754_nan.
Proof.
  rewrite <- is_nan_Prim2SF. by destruct (PrimFloat.is_nan x).
Qed.

(** Every comparison with NaN is false. *)
Lemma float_nan_compare (x y : float) :
  PrimFloat.is_nan x = true →
  PrimFloat.ltb x y = false ∧ PrimFloat.ltb y x = false
  ∧ PrimFloat.leb x y = false ∧ PrimFloat.leb y x = false.
Proof.
  intros H%is_nan_Prim2SF.
  rewrite !FloatAxioms.ltb_spec, !FloatAxioms.leb_spec, H.
  unfold SFltb, SFleb. by destruct (Prim2SF y).
Qed.

Lemma float_ltb_asym (x y : float) :
  PrimFloat.ltb x y = true → PrimFloat.ltb y x = false.
Proof. rewrite !FloatAxioms.ltb_spec. apply SFltb_asym. Qed.

Lemma float_ltb_irrefl (x : float) : PrimFloat.ltb x x = false.
Proof.
  destruct (PrimFloat.ltb x x) eqn:H; [|done].
  by rewrite (float_ltb_asym _ _ H) in H.
Qed.

Lemma float_le_trans (x y z : float) :
  PrimFloat.is_nan y = false →
  PrimFloat.ltb y x = false → PrimFloat.ltb z y = false → PrimFloat.ltb z x = false.
Proof.
  rewrite !FloatAxioms.ltb_spec, not_nan_Prim2SF. apply SFle_trans.
Qed.

(* ================================================================== *)
(** ** The selector: the other orders, ties, and odd limits *)
(* ================================================================== *)

Lemma key_load_not_nan (x : GPU.t) : PrimFloat.is_nan (key_load x) = false.
Proof. unfold key_load. by destruct (PrimFloat.is_nan (GPU.load x)) eqn:H. Qed.

Lemma key_memory_not_nan (x : GPU.t) : PrimFloat.is_nan (key_memory x) = false.
Proof. unfold key_memory. by destruct (PrimFloat.is_nan (GPU.memoryUtil x)) eqn:H. Qed.

(** A list sorted by a float key in which NaN counts as plus infinity:
    no number is followed by a smaller one, and NaN only by NaN or plus
    infinity. *)
Lemma sorted_by_float_key (field : GPU.t → float) (l : list GPU.t) (i j : nat) (a b : GPU.t) :
  StronglySorted
    (λ a b, PrimFloat.ltb (if PrimFloat.is_nan (field b) then infinity else field b)
              (if PrimFloat.is_nan (field a) then infinity else field a) = false) l →
  (i < j)%nat → l !! i = Some a → l !! j = Some b →
  PrimFloat.ltb (field b) (field a) = false
  ∧ (PrimFloat.is_nan (field a) = true → PrimFloat.ltb (field b) infinity = false).
Proof.
  intros Hs Hij Hi Hj.
  pose proof (StronglySorted_lookup _ _ i j a b Hs Hij Hi Hj) as H. simpl in H.
  destruct (PrimFloat.is_nan (field b)) eqn:Hb.
  - destruct (float_nan_compare (field b) (field a) Hb) as (-> & _).
    split; [done|]. intros _. by destruct (float_nan_compare (field b) infinity Hb).
  - destruct (PrimFloat.is_nan (field a)) eqn:Ha.
    + split; [|done]. by destruct (float_nan_compare (field a) (field b) Ha) as (_ & -> & _).
    + split; [done|discriminate].
Qed.

(** X1.  With [order="load"] the ordering step rearranges the survivors so
    that no GPU is followed by one with a smaller load, and a GPU whose
    load is NaN is followed only by GPUs whose load is NaN or plus
    infinity; with [order="memory"] the same holds for [memoryUtil]. *)
Theorem order_by_load_and_memory (w : world) (GPUs : list GPU.t) (st : state) :
  (∃ ordered, order_gpus w "load" GPUs st = (Ok ordered, st)
     ∧ ordered ≡ₚ GPUs
     ∧ ∀ (i j : nat) (a b : GPU.t), (i < j)%nat →
         ordered !! i = Some a → ordered !! j = Some b →
         PrimFloat.ltb (GPU.load b) (GPU.load a) = false
         ∧ (PrimFloat.is_nan (GPU.load a) = true →
            PrimFloat.ltb (GPU.load b) infinity = false))
  ∧ (∃ ordered, order_gpus w "memory" GPUs st = (Ok ordered, st)
       ∧ ordered ≡ₚ GPUs
       ∧ ∀ (i j : nat) (a b : GPU.t), (i < j)%nat →
           ordered !! i = Some a → ordered !! j = Some b →
           PrimFloat.ltb (GPU.memoryUtil b) (GPU.memoryUtil a) = false
           ∧ (PrimFloat.is_nan (GPU.memoryUtil a) = true →
              PrimFloat.ltb (GPU.memoryUtil b) infinity = false)).
Proof.
  split.
  - exists (Py.sort PrimFloat.ltb key_load false GPUs).
    split; [reflexivity|]. split; [apply sort_perm|].
    intros i j a b. apply (sorted_by_float_key GPU.load).
    apply (sort_asc_sorted PrimFloat.ltb key_load).
    + intros x y. apply float_ltb_asym.
    + intros x y z. apply float_le_trans, key_load_not_nan.
  - exists (Py.sort PrimFloat.ltb key_memory false GPUs).
    split; [reflexivity|]. split; [apply sort_perm|].
    intros i j a b. apply (sorted_by_float_key GPU.memoryUtil).
    apply (sort_asc_sorted PrimFloat.ltb key_memory).
    + intros x y. apply float_ltb_asym.
    + intros x y z. apply float_le_trans, key_memory_not_nan.
Qed.

(** The sort keeps the elements of one key in the order they had. *)
Section stability.
Context {K A : Type} (klt : K → K → bool) (key : A → K).
Hypothesis klt_irrefl : ∀ k, klt k k = false.

Lemma insert_sorted_stable (P : A → bool) (k : K) (x : A) (l : list A) :
  (∀ y, P y = true → key y = k) →
  List.filter P (Py.insert_sorted klt key x l) = List.filter P (x :: l).
Proof.
  intros HP. induction l as [|y l IH]; [done|].
  simpl. destruct (klt (key y) (key x)) eqn:Hyx; [|done].
  simpl. rewrite IH. simpl.
  destruct (P x) eqn:Hx, (P y) eqn:Hy; try done.
  rewrite (HP x Hx), (HP y Hy), klt_irrefl in Hyx. done.
Qed.

Lemma sort_asc_stable (P : A → bool) (k : K) (l : list A) :
  (∀ y, P y = true → key y = k) →
  List.filter P (Py.sort_asc klt key l) = List.filter P l.
Proof.
  intros HP. induction l as [|x l IH]; [done|].
  simpl Py.sort_asc. rewrite (insert_sorted_stable P k) by done.
  simpl. by rewrite IH.
Qed.

Lemma filter_rev (P : A → bool) (l : list A) :
  List.filter P (rev l) = rev (List.filter P l).
Proof.
  induction l as [|x l IH]; [done|].
  simpl. rewrite List.filter_app, IH. simpl. destruct (P x); [done|].
  by rewrite app_nil_r.
Qed.

Lemma sort_stable (P : A → bool) (k : K) (reverse : bool) (l : list A) :
  (∀ y, P y = true → key y = k) →
  List.filter P (Py.sort klt key reverse l) = List.filter P l.
Proof.
  intros HP. unfold Py.sort. destruct reverse; [|by apply (sort_asc_stable P k)].
  by rewrite filter_rev, (sort_asc_stable P k), filter_rev, rev_involutive.
Qed.

End stability.

Lemma lt_irrefl (a : pynum) : Py.lt a a = false.
Proof. destruct a as [z| |[]]; simpl; [apply Z.ltb_irrefl|done..]. Qed.

(** X2.  The four sorting orders are stable: GPUs that have the same sort
    key (the same index, load or memory utilisation) come out in the order
    in which the snapshot listed them, also with [order="last"]. *)
Theorem order_keeps_ties (w : world) (GPUs : list GPU.t) (st : state) (P : GPU.t → bool) :
  (∀ k : pynum, (∀ x, P x = true → key_first x = k) →
     ∃ ordered, order_gpus w "first" GPUs st = (Ok ordered, st)
       ∧ List.filter P ordered = List.filter P GPUs)
  ∧ (∀ k : pynum, (∀ x, P x = true → key_last x = k) →
       ∃ ordered, order_gpus w "last" GPUs st = (Ok ordered, st)
         ∧ List.filter P ordered = List.filter P GPUs)
  ∧ (∀ k : float, (∀ x, P x = true → key_load x = k) →
       ∃ ordered, order_gpus w "load" GPUs st = (Ok ordered, st)
         ∧ List.filter P ordered = List.filter P GPUs)
  ∧ (∀ k : float, (∀ x, P x = true → key_memory x = k) →
       ∃ ordered, order_gpus w "memory" GPUs st = (Ok ordered, st)
         ∧ List.filter P ordered = List.filter P GPUs).
Proof.
  split; [|split; [|split]]; intros k HP; eexists; (split; [reflexivity|]).
  - by apply (sort_stable Py.lt key_first lt_irrefl P k).
  - by apply (sort_stable Py.lt key_last lt_irrefl P k).
  - by apply (sort_stable PrimFloat.ltb key_load float_ltb_irrefl P k).
  - by apply (sort_stable PrimFloat.ltb key_memory float_ltb_irrefl P k).
Qed.

(** X3.  An [order] that is none of the five names is not an error: the
    survivors stay in the order of the snapshot, and [getAvailable] returns
    the indices of the first [limit] of them. *)
Theorem getAvailable_unknown_order (w : world) (order : string) (limit : Z)
    (maxLoad maxMemory memoryFree : float) (includeNan : bool) (excludeID : list pynum)
    (excludeUUID excludeComputeMode : list string) (st st1 : state) (gpus : list GPU.t) :
  order ≠ "first" → order ≠ "last" → order ≠ "random" → order ≠ "load" →
  order ≠ "memory" →
  0 ≤ limit →
  getGPUs w st = (Ok gpus, st1) →
  getAvailable w order limit maxLoad maxMemory memoryFree includeNan
    excludeID excludeUUID excludeComputeMode st
  = (Ok (GPU.id <$> take (Z.to_nat limit)
                      (List.filter (available maxLoad maxMemory memoryFree includeNan
                                      excludeID excludeUUID excludeComputeMode) gpus)),
     st1).
Proof.
  intros H1 H2 H3 H4 H5 Hlimit Hsnap.
  rewrite (getAvailable_run _ _ _ _ _ _ _ _ _ _ _ _ _ Hsnap).
  unfold order_gpus.
  apply String.eqb_neq in H1, H2, H3, H4, H5. rewrite H1, H2, H3, H4, H5.
  simpl. by rewrite slice_to_min.
Qed.

(** X4.  The slice [GPUs[0:min(limit, len(GPUs))]] with a limit that is not
    positive: a limit of 0 gives the empty list; a negative limit is not an
    error, it drops the last [-limit] GPUs of the ordered survivors (all of
    them when there are no more than that). *)
Theorem getAvailable_nonpositive_limit (w : world) (order : string) (limit : Z)
    (maxLoad maxMemory memoryFree : float) (includeNan : bool) (excludeID : list pynum)
    (excludeUUID excludeComputeMode : list string) (st st1 : state) (gpus : list GPU.t) :
  limit ≤ 0 →
  getGPUs w st = (Ok gpus, st1) →
  ∃ (ordered : list GPU.t) (st2 : state),
    order_gpus w order
      (List.filter (available maxLoad maxMemory memoryFree includeNan
                      excludeID excludeUUID excludeComputeMode) gpus) st1
    = (Ok ordered, st2)
    ∧ getAvailable w order limit maxLoad maxMemory memoryFree includeNan
        excludeID excludeUUID excludeComputeMode st
      = (Ok (GPU.id <$> (if bool_decide (limit = 0) then []
                         else take (length ordered - Z.to_nat (- limit)) ordered)),
         st2).
Proof.
  intros Hlimit Hsnap.
  destruct (order_gpus_perm w order
              (List.filter (available maxLoad maxMemory memoryFree includeNan
                              excludeID excludeUUID excludeComputeMode) gpus) st1)
    as (ordered & st2 & Hord & _ & _).
  exists ordered, st2. split; [done|].
  rewrite (getAvailable_run _ _ _ _ _ _ _ _ _ _ _ _ _ Hsnap), Hord.
  do 3 f_equal. unfold Py.slice_to. rewrite Z.min_l by lia.
  case_bool_decide as H0.
  - subst limit. done.
  - destruct (Z.ltb_spec limit 0); [|lia]. f_equal. lia.
Qed.

(** X5.  What NaN does to the availability test.  A GPU whose free memory
    is NaN is never available, whatever [includeNan] is; without
    [includeNan] a GPU whose load or memory utilisation is NaN is never
    available; with [includeNan] a NaN load passes the load test for every
    [maxLoad], so the entry does not depend on [maxLoad]. *)
Theorem getAvailability_nan (GPUs : list GPU.t) (maxLoad maxMemory memoryFree : float)
    (includeNan : bool) (excludeID : list pynum)
    (excludeUUID excludeComputeMode : list string) (i : nat) (gpu : GPU.t) :
  GPUs !! i = Some gpu →
  let mask := getAvailability GPUs maxLoad maxMemory memoryFree includeNan
                excludeID excludeUUID excludeComputeMode in
  (PrimFloat.is_nan (GPU.memoryFree gpu) = true → mask !! i = Some 0)
  ∧ (includeNan = false →
     PrimFloat.is_nan (GPU.load gpu) = true ∨ PrimFloat.is_nan (GPU.memoryUtil gpu) = true →
     mask !! i = Some 0)
  ∧ (includeNan = true → PrimFloat.is_nan (GPU.load gpu) = true →
     ∀ maxLoad' : float,
       getAvailability GPUs maxLoad' maxMemory memoryFree includeNan
         excludeID excludeUUID excludeComputeMode !! i = mask !! i).
Proof.
  intros Hi mask. subst mask. unfold getAvailability.
  rewrite !list_lookup_fmap, Hi. simpl. unfold available. split; [|split].
  - intros Hnan.
    destruct (float_nan_compare (GPU.memoryFree gpu) memoryFree Hnan) as (_ & _ & _ & ->).
    done.
  - intros -> [Hnan|Hnan].
    + destruct (float_nan_compare (GPU.load gpu) maxLoad Hnan) as (-> & _).
      by rewrite andb_false_r.
    + destruct (float_nan_compare (GPU.memoryUtil gpu) maxMemory Hnan) as (-> & _).
      by rewrite !andb_false_r.
  - intros -> Hnan maxLoad'. rewrite list_lookup_fmap, Hi. simpl.
    destruct (float_nan_compare (GPU.load gpu) maxLoad Hnan) as (-> & _).
    destruct (float_nan_compare (GPU.load gpu) maxLoad' Hnan) as (-> & _).
    done.
Qed.

Lemma elem_of_slice_to {A : Type} (l : list A) (stop : Z) (x : A) :
  x ∈ Py.slice_to l stop → x ∈ l.
Proof.
  unfold Py.slice_to. destruct (stop <? 0); intros H%list_elem_of_lookup;
    destruct H as [i Hi]; apply lookup_take_Some in Hi as [Hi _];
    by eapply list_elem_of_lookup_2.
Qed.

(** X6.  Whatever the order and the limit, every index that [getAvailable]
    returns is the index of a GPU of the snapshot that passes the
    availability test: it equals no entry of [excludeID], and the GPU's
    UUID and compute mode are not excluded. *)
Theorem getAvailable_returns_available (w : world) (order : string) (limit : Z)
    (maxLoad maxMemory memoryFree : float) (includeNan : bool) (excludeID : list pynum)
    (excludeUUID excludeComputeMode : list string) (st st' : state)
    (gpus : list GPU.t) (st1 : state) (ids : list pynum) (id : pynum) :
  getGPUs w st = (Ok gpus, st1) →
  getAvailable w order limit maxLoad maxMemory memoryFree includeNan
    excludeID excludeUUID excludeComputeMode st = (Ok ids, st') →
  id ∈ ids →
  ∃ gpu, gpu ∈ gpus ∧ GPU.id gpu = id
    ∧ available maxLoad maxMemory memoryFree includeNan
        excludeID excludeUUID excludeComputeMode gpu = true
    ∧ (∀ e, e ∈ excludeID → Py.eq id e = false)
    ∧ (GPU.uuid gpu ∉ excludeUUID)
    ∧ (GPU.compute_mode gpu ∉ excludeComputeMode).
Proof.
  intros Hsnap Hrun Hid.
  rewrite (getAvailable_run _ _ _ _ _ _ _ _ _ _ _ _ _ Hsnap) in Hrun.
  destruct (order_gpus_perm w order
              (List.filter (available maxLoad maxMemory memoryFree includeNan
                              excludeID excludeUUID excludeComputeMode) gpus) st1)
    as (ordered & st2 & Hord & Hperm & _).
  rewrite Hord in Hrun. injection Hrun as <- <-.
  apply list_elem_of_fmap in Hid as (gpu & -> & Hgpu).
  apply elem_of_slice_to in Hgpu. rewrite Hperm in Hgpu.
  apply list_elem_of_In, List.filter_In in Hgpu as [Hin Hav].
  exists gpu. split; [by apply list_elem_of_In|]. split; [done|]. split; [done|].
  apply available_iff in Hav. tauto.
Qed.

(* ================================================================== *)
(** ** The parser: which lines are read *)
(* ================================================================== *)

Lemma mapM_result_ok {A B : Type} (f : A → result B) (l : list A) (r : list B) :
  mapM f l = Ok r ↔ Forall2 (λ x y, f x = Ok y) l r.
Proof.
  revert r. induction l as [|x l IH]; intros r.
  - split; [intros [= <-]; constructor | by inv 1].
  - rewrite mapM_result_cons. split.
    + intros H. apply bind_ok_inv in H as (y & Hy & H).
      apply bind_ok_inv in H as (k & Hk & [= <-]).
      constructor; [done | by apply IH].
    + inv 1 as [|? y ? k Hy Hk]. apply IH in Hk. by rewrite Hy, Hk.
Qed.

(** What a record that was read shows of its line. *)
Lemma gpu_of_vals_ok (vals : list string) (gpu : GPU.t) :
  gpu_of_vals vals = Ok gpu →
  (19 ≤ length vals)%nat
  ∧ gpu_of_vals (take 19 vals) = Ok gpu
  ∧ (∃ z, Py.int (vals !!! 0%nat) = Ok z ∧ GPU.id gpu = PyInt z)
  ∧ (∃ z, Py.int (vals !!! 12%nat) = Ok z)
  ∧ (∃ z, Py.int (vals !!! 13%nat) = Ok z)
  ∧ (∃ z, Py.int16 (vals !!! 18%nat) = Ok z)
  ∧ PrimFloat.eqb (safeFloatCast (vals !!! 3%nat)) 0 = false.
Proof.
  intros H.
  destruct (gpu_of_vals_fields _ _ H)
    as (v0 & v1 & v2 & v3 & v4 & v5 & v6 & v7 & v8 & v9 & v10 & v11 & v12 & v13
        & v14 & v15 & v16 & v17 & v18 & rest & ->).
  change (take 19 _) with [v0; v1; v2; v3; v4; v5; v6; v7; v8; v9; v10; v11; v12; v13;
                           v14; v15; v16; v17; v18].
  rewrite gpu_of_vals_run in *. split; [simpl; lia|]. split; [done|].
  apply bind_ok_inv in H as (deviceIds & Hv0 & H).
  apply bind_ok_inv in H as (core_clock & Hv12 & H).
  apply bind_ok_inv in H as (memory_clock & Hv13 & H).
  apply bind_ok_inv in H as (pci_bus & Hv18 & H).
  rewrite gpu_init_run in H.
  destruct (PrimFloat.eqb (safeFloatCast v3) 0) eqn:Hz; [done|].
  injection H as <-. simpl. repeat split; eauto.
Qed.

(** X7.  The fields of a line are read into a record exactly when there
    are at least nineteen of them, the index, the two clocks and the PCI
    bus parse as integers (the last in base 16), and the total memory does
    not read as zero; what the other columns hold never matters, and fields
    beyond the nineteenth are ignored.  The record then has an integer
    index. *)
Theorem gpu_of_vals_accepts (vals : list string) :
  ((∃ gpu, gpu_of_vals vals = Ok gpu)
   ↔ (19 ≤ length vals)%nat
     ∧ (∃ z, Py.int (vals !!! 0%nat) = Ok z)
     ∧ (∃ z, Py.int (vals !!! 12%nat) = Ok z)
     ∧ (∃ z, Py.int (vals !!! 13%nat) = Ok z)
     ∧ (∃ z, Py.int16 (vals !!! 18%nat) = Ok z)
     ∧ PrimFloat.eqb (safeFloatCast (vals !!! 3%nat)) 0 = false)
  ∧ (∀ gpu, gpu_of_vals vals = Ok gpu →
       gpu_of_vals (take 19 vals) = Ok gpu
       ∧ ∃ z, Py.int (vals !!! 0%nat) = Ok z ∧ GPU.id gpu = PyInt z).
Proof.
  split; [split|].
  - intros [gpu H].
    destruct (gpu_of_vals_ok _ _ H) as (Hlen & _ & (z & Hz & _) & H12 & H13 & H18 & Htotal).
    repeat split; eauto.
  - intros (Hlen & [z0 H0] & [z12 H12] & [z13 H13] & [z18 H18] & Hz).
    do 19 (destruct vals as [|? vals]; [simpl in Hlen; lia|]).
    simpl in H0, H12, H13, H18, Hz.
    rewrite gpu_of_vals_run, H0, H12, H13, H18. simpl.
    rewrite gpu_init_run, Hz. by eexists.
  - intros gpu H.
    destruct (gpu_of_vals_ok _ _ H) as (_ & Htake & Hid & _). by split.
Qed.

Lemma gpu_of_line_int_id (line : string) (gpu : GPU.t) :
  gpu_of_line line = Ok gpu → ∃ z, GPU.id gpu = PyInt z.
Proof.
  intros H. destruct (gpu_of_vals_ok _ _ H) as (_ & _ & (z & _ & Hz) & _).
  by exists z.
Qed.

Lemma getGPUs_parsed (w : world) (st st1 : state) (gpus : list GPU.t) :
  getGPUs w st = (Ok gpus, st1) →
  ∃ cmd, getNvidiaSmiCmd w = Ok cmd
    ∧ match subprocess_run w (runs st) [cmd; query_gpu; format_csv] with
      | None => gpus = []
      | Some stdout =>
          Forall2 (λ line gpu, gpu_of_line line = Ok gpu)
            (take (length (Py.split stdout (os_linesep w)) - 1)
               (Py.split stdout (os_linesep w))) gpus
      end.
Proof.
  unfold getGPUs. rewrite bind_run. unfold lift at 1.
  destruct (getNvidiaSmiCmd w) as [cmd|e]; [|done].
  rewrite bind_run. unfold run. simpl. intros Hrun. exists cmd. split; [done|].
  destruct (subprocess_run w (runs st) [cmd; query_gpu; format_csv]) as [stdout|].
  - unfold lift in Hrun. injection Hrun as Hparse _.
    rewrite gpus_of_output_lines in Hparse. by apply mapM_result_ok in Hparse.
  - by injection Hrun as <- _.
Qed.

(** The records of a snapshot have integer indices. *)
Lemma getGPUs_int_ids (w : world) (st st1 : state) (gpus : list GPU.t) :
  getGPUs w st = (Ok gpus, st1) →
  Forall (λ gpu, ∃ z, GPU.id gpu = PyInt z) gpus.
Proof.
  intros (cmd & _ & Hparse)%getGPUs_parsed.
  destruct (subprocess_run _ _ _) as [stdout|]; [|subst; constructor].
  induction Hparse as [|line gpu lines gpus Hline _ IH]; constructor; [|done].
  by eapply gpu_of_line_int_id.
Qed.

(** X8.  A snapshot that [getGPUs] returns holds one record per line that
    ends in the line separator, and every record has an integer index:
    the index of a GPU that was read is never NaN, so the NaN branch of the
    sort keys of [getAvailable] is never taken on a snapshot. *)
Theorem getGPUs_records (w : world) (st st1 : state) (gpus : list GPU.t) :
  getGPUs w st = (Ok gpus, st1) →
  Forall (λ gpu, ∃ z, GPU.id gpu = PyInt z) gpus
  ∧ Forall (λ gpu, key_first gpu = GPU.id gpu ∧ key_last gpu = GPU.id gpu) gpus
  ∧ (∀ cmd stdout,
       getNvidiaSmiCmd w = Ok cmd →
       subprocess_run w (runs st) [cmd; query_gpu; format_csv] = Some stdout →
       length gpus = (length (Py.split stdout (os_linesep w)) - 1)%nat).
Proof.
  intros Hsnap. pose proof (getGPUs_int_ids _ _ _ _ Hsnap) as Hint.
  split; [done|]. split.
  - eapply Forall_impl; [exact Hint|]. intros gpu [z Hz].
    unfold key_first, key_last. by rewrite Hz.
  - intros cmd stdout Hcmd Hout.
    apply getGPUs_parsed in Hsnap as (cmd' & Hcmd' & Hparse).
    rewrite Hcmd in Hcmd'. injection Hcmd' as <-. rewrite Hout in Hparse.
    apply Forall2_length in Hparse. rewrite <- Hparse, length_take. lia.
Qed.

(* ================================================================== *)
(** ** The selector: order by index on a snapshot *)
(* ================================================================== *)



(* ================================================================== *)
(** ** The polling loop in any surroundings *)
(* ================================================================== *)

(** With a command path, a selector call is one attempt whatever it gives. *)
Lemma getAvailable_effect_any (w : world) (order : string) (limit : Z)
    (maxLoad maxMemory memoryFree : float) (includeNan : bool) (excludeID : list pynum)
    (excludeUUID excludeComputeMode : list string) (st st' : state)
    (r : result (list pynum)) (cmd : string) :
  getNvidiaSmiCmd w = Ok cmd →
  getAvailable w order limit maxLoad maxMemory memoryFree includeNan
    excludeID excludeUUID excludeComputeMode st = (r, st') →
  runs st' = S (runs st) ∧ steps (trace st') = steps (trace st) ++ [Attempt].
Proof.
  intros Hcmd. destruct (getGPUs w st) as [[gpus|e] st1] eqn:Hsnap.
  - rewrite (getAvailable_run _ _ _ _ _ _ _ _ _ _ _ _ _ Hsnap).
    destruct (order_gpus _ _ _ _) as [ro st2] eqn:Hord.
    apply order_gpus_effect in Hord as [Hr Hs].
    apply getGPUs_effect in Hsnap as [(e & _ & He & _)|[Hr1 Hs1]]; [congruence|].
    destruct ro; intros [= <- <-]; by rewrite Hr, Hs, Hr1, Hs1.
  - rewrite (getAvailable_raise _ _ _ _ _ _ _ _ _ _ _ _ _ Hsnap).
    intros [= <- <-].
    apply getGPUs_effect in Hsnap as [(e' & _ & He & _)|[Hr1 Hs1]]; [congruence|done].
Qed.

(** Without one, it raises before anything is run. *)
Lemma getAvailable_no_cmd (w : world) (order : string) (limit : Z)
    (maxLoad maxMemory memoryFree : float) (includeNan : bool) (excludeID : list pynum)
    (excludeUUID excludeComputeMode : list string) (st : state) (e : exn) :
  getNvidiaSmiCmd w = Raise e →
  getAvailable w order limit maxLoad maxMemory memoryFree includeNan
    excludeID excludeUUID excludeComputeMode st = (Raise e, st).
Proof.
  intros Hcmd. apply getAvailable_raise.
  unfold getGPUs. rewrite bind_run. unfold lift. by rewrite Hcmd.
Qed.

Section polling_any.
Context (w : world) (order : string) (maxLoad maxMemory : float) (attempts : Z)
  (interval : N) (verbose includeNan : bool) (excludeID : list pynum)
  (excludeUUID excludeComputeMode : list string).

Local Abbreviation selector' :=
  (getAvailable w order 1 maxLoad maxMemory 0 includeNan
     excludeID excludeUUID excludeComputeMode).
Local Abbreviation loop' :=
  (attempt_loop w order maxLoad maxMemory attempts interval verbose includeNan
     excludeID excludeUUID excludeComputeMode).

(** The loop, whatever the selector gives in each round. *)
Lemma attempt_loop_any (cmd : string) (n k : nat) (available : option (list pynum))
    (st st' : state) (r : result (option (list pynum))) :
  getNvidiaSmiCmd w = Ok cmd →
  Z.of_nat (k + n) = attempts →
  loop' available (Z.of_nat <$> seq k n) st = (r, st') →
  ∃ m : nat,
    (m ≤ n)%nat
    ∧ runs st' = (runs st + m)%nat
    ∧ steps (trace st') = steps (trace st) ++ polling interval m
    ∧ ((n = O ∧ r = Ok available)
       ∨ (1 ≤ n ∧ r = Ok (Some []) ∧ m = n)%nat
       ∨ (∃ ids, r = Ok (Some ids) ∧ length ids = 1%nat ∧ (1 ≤ m)%nat)
       ∨ (∃ e, r = Raise e ∧ (1 ≤ m)%nat)).
Proof.
  intros Hcmd. revert k available st.
  induction n as [|n IH]; intros k available st Hk.
  - intros [= <- <-]. exists O. simpl. rewrite Nat.add_0_r, app_nil_r.
    split; [lia|]. split; [done|]. split; [done|]. by left.
  - simpl seq. rewrite fmap_cons, attempt_loop_cons, bind_run.
    destruct (print_effect verbose
                ("Attempting (" +:+ Py.str_int (Z.of_nat k + 1) +:+ "/"
                 +:+ Py.str_int attempts +:+ ") to locate available GPU.") st)
      as (st_p & -> & Hrp & Hsp).
    rewrite bind_run.
    destruct (selector' st_p) as [ra st_a] eqn:Hcall.
    pose proof (getAvailable_effect_any _ _ _ _ _ _ _ _ _ _ _ _ _ _ Hcmd Hcall)
      as [Hra Hsa].
    destruct ra as [[|id ids]|e].
    + rewrite bind_run.
      destruct (sleep_effect (bool_decide (Z.of_nat k ≠ attempts - 1)) interval st_a)
        as (st_s & -> & Hrs & Hss).
      intros Hloop.
      destruct (IH (S k) (Some []) st_s ltac:(lia) Hloop) as (m & Hm & Hr' & Hs' & Hcases).
      exists (S m). split; [lia|]. split; [lia|]. split.
      * rewrite Hs', Hss, Hsa, Hsp, <- !app_assoc. f_equal.
        destruct m as [|m].
        -- assert (n = O) as -> by (destruct Hcases as [[? _]|[(_ & _ & ?)|[(? & _ & _ & ?)|(? & _ & ?)]]]; lia).
           by rewrite bool_decide_eq_false_2 by lia.
        -- by rewrite bool_decide_eq_true_2 by lia.
      * destruct Hcases as [[-> ->]|[(? & -> & ->)|[(ids & -> & ? & ?)|(e & -> & ?)]]].
        -- right; left. split; [lia|]. split; [done|lia].
        -- right; left. split; [lia|]. split; [done|lia].
        -- right; right; left. exists ids. split; [done|]. split; [done|lia].
        -- right; right; right. exists e. split; [done|lia].
    + apply getAvailable_effect in Hcall as (_ & _ & Hlen).
      specialize (Hlen ltac:(lia)).
      rewrite bind_run.
      destruct (print_effect verbose
                  ("GPU " +:+ Py.str_list (id :: ids) +:+ " located!") st_a)
        as (st_l & -> & Hrl & Hsl).
      intros [= <- <-]. exists 1%nat. split; [lia|]. split; [lia|]. split.
      * by rewrite Hsl, Hsa, Hsp.
      * right; right; left. exists (id :: ids). split; [done|].
        simpl in *. split; lia.
    + intros [= <- <-]. exists 1%nat. split; [lia|]. split; [lia|]. split.
      * by rewrite Hsa, Hsp.
      * right; right; right. by exists e.
Qed.

(** The rounds of the loop up to one in which the selector raises. *)
Lemma attempt_loop_raise (m n k : nat) (available : option (list pynum)) (st : state)
    (e : exn) :
  Z.of_nat (k + n) = attempts → (m < n)%nat →
  (∀ (j : nat) (st' : state), (j < m)%nat → runs st' = (runs st + j)%nat →
     fst (selector' st') = Ok []) →
  (∀ st' : state, runs st' = (runs st + m)%nat → fst (selector' st') = Raise e) →
  ∃ st', loop' available (Z.of_nat <$> seq k n) st = (Raise e, st')
    ∧ (runs st' ≤ runs st + S m)%nat
    ∧ (steps (trace st') = steps (trace st) ++ polling interval (S m)
       ∨ (m = O ∧ steps (trace st') = steps (trace st) ∧ runs st' = runs st
          ∧ getNvidiaSmiCmd w = Raise e)).
Proof.
  revert n k available st.
  induction m as [|m IH]; intros n k available st Hk Hmn Hempty Hraise;
    (destruct n as [|n]; [lia|]);
    simpl seq; rewrite fmap_cons, attempt_loop_cons, bind_run;
    destruct (print_effect verbose
                ("Attempting (" +:+ Py.str_int (Z.of_nat k + 1) +:+ "/"
                 +:+ Py.str_int attempts +:+ ") to locate available GPU.") st)
      as (st_p & -> & Hrp & Hsp);
    rewrite bind_run.
  - pose proof (Hraise st_p ltac:(lia)) as Hsel.
    destruct (selector' st_p) as [ra st_a] eqn:Hcall. simpl in Hsel. subst ra.
    exists st_a. split; [done|].
    destruct (getNvidiaSmiCmd w) as [cmd|e'] eqn:Hcmd.
    + pose proof (getAvailable_effect_any _ _ _ _ _ _ _ _ _ _ _ _ _ _ Hcmd Hcall)
        as [Hra Hsa].
      split; [lia|]. left. by rewrite Hsa, Hsp.
    + rewrite (getAvailable_no_cmd _ _ _ _ _ _ _ _ _ _ _ _ Hcmd) in Hcall.
      injection Hcall as <- <-. split; [lia|]. right. by rewrite Hsp, Hrp.
  - pose proof (Hempty O st_p ltac:(lia) ltac:(lia)) as Hsel.
    destruct (selector' st_p) as [ids st_a] eqn:Hcall. simpl in Hsel. subst ids.
    apply getAvailable_effect in Hcall as (Hra & Hsa & _).
    rewrite bind_run.
    destruct (sleep_effect (bool_decide (Z.of_nat k ≠ attempts - 1)) interval st_a)
      as (st_s & -> & Hrs & Hss).
    destruct (IH n (S k) (Some []) st_s) as (st' & -> & Hr' & Hs'); [lia..| | |].
    { intros j st'' Hj Hruns. apply (Hempty (S j)); lia. }
    { intros st'' Hruns. apply Hraise. lia. }
    exists st'. split; [done|]. split; [lia|]. left.
    destruct Hs' as [Hs'|(_ & _ & _ & Hcmd)].
    + rewrite Hs', Hss, Hsa, Hsp, (polling_succ _ (S m)), <- !app_assoc. simpl.
      do 2 f_equal. by rewrite bool_decide_eq_true_2 by lia.
    + pose proof (Hempty O st_p ltac:(lia) ltac:(lia)) as Hsel.
      by rewrite (getAvailable_no_cmd _ _ _ _ _ _ _ _ _ _ _ _ Hcmd) in Hsel.
Qed.

End polling_any.

(** X9.  Whatever [nvidia-smi] prints and however the call ends,
    [getFirstAvailable] makes some number [n] of selector calls that is at
    most [attempts], with a sleep of [interval] between consecutive calls
    and none after the last, and nothing else is run.  When it returns, it
    returns exactly one GPU id and has made at least one call. *)
Theorem getFirstAvailable_bounded (w : world) (order : string)
    (maxLoad maxMemory : float) (attempts : Z) (interval : N)
    (verbose includeNan : bool) (excludeID : list pynum)
    (excludeUUID excludeComputeMode : list string) (st : state) :
  ∃ n : nat,
    Z.of_nat n ≤ Z.max 0 attempts
    ∧ runs (getFirstAvailable w order maxLoad maxMemory attempts interval verbose
              includeNan excludeID excludeUUID excludeComputeMode st).2
      = (runs st + n)%nat
    ∧ steps (trace (getFirstAvailable w order maxLoad maxMemory attempts interval verbose
                      includeNan excludeID excludeUUID excludeComputeMode st).2)
      = steps (trace st) ++ polling interval n
    ∧ ∀ ids,
        (getFirstAvailable w order maxLoad maxMemory attempts interval verbose
           includeNan excludeID excludeUUID excludeComputeMode st).1 = Ok ids →
        length ids = 1%nat ∧ (1 ≤ n)%nat.
Proof.
  unfold getFirstAvailable. rewrite bind_run. unfold Py.range.
  destruct (Z.to_nat attempts) as [|n0] eqn:Hn.
  { exists O. simpl. rewrite Nat.add_0_r, app_nil_r.
    split; [lia|]. split; [done|]. split; [done|]. done. }
  destruct (getNvidiaSmiCmd w) as [cmd|e] eqn:Hcmd.
  - destruct (attempt_loop _ _ _ _ _ _ _ _ _ _ _ _ _ _) as [r st'] eqn:Hloop.
    destruct (attempt_loop_any w order maxLoad maxMemory attempts interval verbose
                includeNan excludeID excludeUUID excludeComputeMode
                cmd (S n0) 0 None st st' r Hcmd ltac:(lia) Hloop)
      as (m & Hm & Hr & Hs & Hcases).
    exists m. split; [lia|].
    destruct Hcases as [[? _]|[(_ & -> & ->)|[(ids & -> & Hlen & ?)|(e & -> & ?)]]];
      [lia| | |]; simpl.
    + by repeat split.
    + destruct ids as [|id ids]; [done|]. simpl.
      split; [done|]. split; [done|]. intros ? [= <-]. split; [done|lia].
    + by repeat split.
  - simpl seq. rewrite fmap_cons, attempt_loop_cons, bind_run.
    destruct (print_effect verbose
                ("Attempting (" +:+ Py.str_int (Z.of_nat 0 + 1) +:+ "/"
                 +:+ Py.str_int attempts +:+ ") to locate available GPU.") st)
      as (st_p & -> & Hrp & Hsp).
    rewrite bind_run, (getAvailable_no_cmd _ _ _ _ _ _ _ _ _ _ _ _ Hcmd). simpl.
    exists O. rewrite Nat.add_0_r, app_nil_r.
    split; [lia|]. split; [done|]. split; [done|]. done.
Qed.

(** X10.  [getFirstAvailable] catches nothing: when the selector finds no
    GPU in the first [k] rounds and raises in the next one (a malformed
    line, a missing field, a zero total memory, no command path), that
    exception ends the call at once, with no further attempt and no
    RuntimeError in its place. *)
Theorem getFirstAvailable_selector_raises (w : world) (order : string)
    (maxLoad maxMemory : float) (attempts : Z) (interval : N)
    (verbose includeNan : bool) (excludeID : list pynum)
    (excludeUUID excludeComputeMode : list string) (st : state)
    (k : nat) (e : exn) :
  Z.of_nat k < attempts →
  (∀ (j : nat) (st' : state), (j < k)%nat → runs st' = (runs st + j)%nat →
     fst (getAvailable w order 1 maxLoad maxMemory 0 includeNan
            excludeID excludeUUID excludeComputeMode st') = Ok []) →
  (∀ st' : state, runs st' = (runs st + k)%nat →
     fst (getAvailable w order 1 maxLoad maxMemory 0 includeNan
            excludeID excludeUUID excludeComputeMode st') = Raise e) →
  ∃ st',
    getFirstAvailable w order maxLoad maxMemory attempts interval verbose includeNan
      excludeID excludeUUID excludeComputeMode st
    = (Raise e, st')
    ∧ (runs st' ≤ runs st + S k)%nat
    ∧ (steps (trace st') = steps (trace st) ++ polling interval (S k)
       ∨ (k = O ∧ steps (trace st') = steps (trace st) ∧ runs st' = runs st
          ∧ getNvidiaSmiCmd w = Raise e)).
Proof.
  intros Hk Hempty Hraise.
  destruct (attempt_loop_raise w order maxLoad maxMemory attempts interval verbose
              includeNan excludeID excludeUUID excludeComputeMode
              k (Z.to_nat attempts) 0 None st e)
    as (st' & Hloop & Hruns & Hsteps); [lia|lia|done|done|].
  exists st'. unfold getFirstAvailable, Py.range. rewrite bind_run, Hloop.
  by split.
Qed.

(* ================================================================== *)
(** ** The map from UUIDs to indices, and the processes read with it *)
(* ================================================================== *)

Lemma import_map_lookup_absent (gpus : list GPU.t) (m : gmap string (option pynum))
    (u : string) :
  u ∉ GPU.uuid <$> gpus →
  foldl (λ m gpu, <[GPU.uuid gpu := Some (GPU.id gpu)]> m) m gpus !! u = m !! u.
Proof.
  revert m. induction gpus as [|gpu gpus IH]; intros m Hu; [done|].
  rewrite fmap_cons, not_elem_of_cons in Hu. destruct Hu as [Hne Hu].
  simpl. rewrite IH by done. by rewrite lookup_insert_ne.
Qed.

Lemma import_map_lookup_last (gpus : list GPU.t) (m : gmap string (option pynum))
    (i : nat) (gpu : GPU.t) :
  gpus !! i = Some gpu →
  (∀ j gpu', (i < j)%nat → gpus !! j = Some gpu' → GPU.uuid gpu' ≠ GPU.uuid gpu) →
  foldl (λ m gpu, <[GPU.uuid gpu := Some (GPU.id gpu)]> m) m gpus !! GPU.uuid gpu
  = Some (Some (GPU.id gpu)).
Proof.
  revert m i. induction gpus as [|g gpus IH]; intros m i Hi Hlast; [done|].
  destruct i as [|i]; simpl in *.
  - injection Hi as ->. rewrite import_map_lookup_absent.
    + by rewrite lookup_insert_eq.
    + intros (g' & Hg' & [j Hj]%list_elem_of_lookup_1)%list_elem_of_fmap.
      by apply (Hlast (S j) g' ltac:(lia) Hj).
  - apply (IH _ i Hi). intros j gpu' Hj Hgpu'. apply (Hlast (S j) gpu'); [lia|done].
Qed.

Lemma import_map_values (gpus : list GPU.t) (m : gmap string (option pynum))
    (u : string) (v : option pynum) :
  foldl (λ m gpu, <[GPU.uuid gpu := Some (GPU.id gpu)]> m) m gpus !! u = Some v →
  m !! u = Some v ∨ ∃ gpu, gpu ∈ gpus ∧ GPU.uuid gpu = u ∧ v = Some (GPU.id gpu).
Proof.
  revert m. induction gpus as [|g gpus IH]; intros m Hv; [by left|].
  simpl in Hv. apply IH in Hv as [Hv|(gpu & Hin & Hu & Hv)].
  - destruct (decide (GPU.uuid g = u)) as [Heq|Hne].
    + rewrite <- Heq, lookup_insert_eq in Hv. injection Hv as <-.
      right. exists g. split; [by left|done].
    + rewrite lookup_insert_ne in Hv by done. by left.
  - right. exists gpu. split; [by right|done].
Qed.

(** X11.  The statements run at import never raise.  They leave the map
    empty when [getGPUs] raises; otherwise the keys of the map are the
    UUIDs of the snapshot, each mapped to the index of the last GPU listed
    with that UUID, and every value is an integer (never None). *)
Theorem gpuUuidToIdMap_at_import_spec (w : world) (st : state) :
  ∃ m,
    gpuUuidToIdMap_at_import w st = (Ok m, (getGPUs w st).2)
    ∧ (∀ e, (getGPUs w st).1 = Raise e → m = ∅)
    ∧ (∀ gpus, (getGPUs w st).1 = Ok gpus →
         (∀ u, u ∉ GPU.uuid <$> gpus → m !! u = None)
         ∧ (∀ i gpu, gpus !! i = Some gpu →
              (∀ j gpu', (i < j)%nat → gpus !! j = Some gpu' →
                 GPU.uuid gpu' ≠ GPU.uuid gpu) →
              m !! GPU.uuid gpu = Some (Some (GPU.id gpu)))
         ∧ (∀ u v, m !! u = Some v →
              ∃ gpu z, gpu ∈ gpus ∧ GPU.uuid gpu = u ∧ v = Some (PyInt z)
                       ∧ lookup_gpuId m u = Ok (PyInt z))).
Proof.
  unfold gpuUuidToIdMap_at_import.
  destruct (getGPUs w st) as [[gpus|e] st1] eqn:Hsnap; simpl.
  - eexists. split; [done|]. split; [done|]. intros ? [= <-]. split; [|split].
    + intros u Hu. by rewrite import_map_lookup_absent.
    + intros i gpu. apply import_map_lookup_last.
    + intros u v Hv. pose proof Hv as Hv'.
      apply import_map_values in Hv' as [?|(gpu & Hin & Hu & ->)]; [done|].
      pose proof (getGPUs_int_ids _ _ _ _ Hsnap) as Hint.
      rewrite Forall_forall in Hint. destruct (Hint gpu Hin) as [z Hz].
      exists gpu, z. unfold lookup_gpuId. by rewrite Hv, Hz.
  - exists ∅. split; [done|]. split; [done|]. by intros ? [=].
Qed.

(** The rounds of a loop that appends what each round gives. *)
Lemma mapM_M_cons {A B : Type} (f : A → M B) (x : A) (l : list A) :
  mapM f (x :: l) = (y ← f x; k ← mapM f l; mret (y :: k)).
Proof. reflexivity. Qed.

(** A round of the loop of [getGPUProcesses]: when it gives a record, [ps]
    was run once and the record carries the entry of the map. *)
Lemma process_of_line_ok (w : world) (m : gmap string (option pynum)) (line : string)
    (st st' : state) (proc : GPUProcess.t) :
  process_of_line w m line st = (Ok proc, st') →
  runs st' = S (runs st)
  ∧ lookup_gpuId m (GPUProcess.gpuUuid proc) = Ok (GPUProcess.gpuId proc)
  ∧ (GPUProcess.uid proc, GPUProcess.uname proc)
    = owner_of_ps (subprocess_run w (runs st)
                     ["ps"; "-p" +:+ Py.str_int (GPUProcess.pid proc); "-oruid=,ruser="]).
Proof.
  unfold process_of_line.
  do 6 (rewrite bind_run; unfold lift at 1;
        match goal with
        | |- (match ?r with Ok _ => _ | Raise _ => _ end) = _ → _ =>
            let H := fresh "H" in destruct r as [?|?] eqn:H; [|done]
        end).
  rewrite bind_run. unfold run.
  destruct (owner_of_ps _) as [uid uname] eqn:Hown.
  intros [= <- <-]. simpl. by rewrite Hown.
Qed.

(** A round that raises has run nothing. *)
Lemma process_of_line_raise (w : world) (m : gmap string (option pynum)) (line : string)
    (st st' : state) (e : exn) :
  process_of_line w m line st = (Raise e, st') → st' = st.
Proof.
  unfold process_of_line.
  do 6 (rewrite bind_run; unfold lift at 1;
        match goal with
        | |- (match ?r with Ok _ => _ | Raise _ => _ end) = _ → _ =>
            let H := fresh "H" in destruct r as [?|?] eqn:H; [|by intros [= _ <-]]
        end).
  rewrite bind_run. unfold run. by destruct (owner_of_ps _).
Qed.

(** X12.  A line of the [--query-compute-apps] output gives a process
    record exactly when it has at least five fields, the first of them reads
    as an integer and the third is a key of the map; what [ps] does never
    matters: its failure only leaves the owner at [-1] and the empty name.
    A line that gives no record raises before [ps] is run. *)
Theorem process_of_line_accepts (w : world) (m : gmap string (option pynum))
    (line : string) (st : state) :
  ((∃ proc st', process_of_line w m line st = (Ok proc, st'))
   ↔ (5 ≤ length (Py.split line ", "))%nat
     ∧ (∃ n, Py.int (Py.split line ", " !!! 0%nat) = Ok n)
     ∧ is_Some (m !! (Py.split line ", " !!! 2%nat)))
  ∧ (∀ e st', process_of_line w m line st = (Raise e, st') → st' = st)
  ∧ (∀ proc st', process_of_line w m line st = (Ok proc, st') →
       runs st' = S (runs st)
       ∧ (subprocess_run w (runs st)
            ["ps"; "-p" +:+ Py.str_int (GPUProcess.pid proc); "-oruid=,ruser="] = None →
          GPUProcess.uid proc = -1 ∧ GPUProcess.uname proc = "")).
Proof.
  split; [split|split].
  - intros (proc & st' & H). revert H. unfold process_of_line.
    destruct (Py.split line ", ") as [|v0 [|v1 [|v2 [|v3 [|v4 rest]]]]];
      rewrite bind_run; unfold lift at 1, Py.getitem; simpl; try done;
      (destruct (Py.int v0) as [n|] eqn:Hn; simpl); try done.
    unfold lift, lookup_gpuId, mbind, M_bind. simpl.
    destruct (m !! v2) as [v|] eqn:Hv; [|done].
    intros _. split; [lia|]. split; [by exists n | by exists v].
  - intros (Hlen & [n Hn] & [v Hv]). unfold process_of_line.
    destruct (Py.split line ", ") as [|v0 [|v1 [|v2 [|v3 [|v4 rest]]]]];
      simpl in Hlen; try lia.
    simpl in Hn, Hv.
    rewrite bind_run. unfold lift at 1, Py.getitem. simpl. rewrite Hn. simpl.
    unfold lift, lookup_gpuId, mbind, M_bind. simpl. rewrite Hv.
    destruct v as [gpuId|]; unfold run; destruct (owner_of_ps _); by eauto.
  - intros e st'. apply process_of_line_raise.
  - intros proc st' H. apply process_of_line_ok in H as (Hruns & _ & Howner).
    split; [done|]. intros Hps. rewrite Hps in Howner. by injection Howner.
Qed.

(** The rounds of a loop, each of which runs one subprocess when it gives a
    value. *)
Lemma mapM_M_rounds {A B : Type} (f : A → M B) (Q : nat → A → B → Prop) (l : list A)
    (st st' : state) (r : list B) :
  (∀ i x st0 y st1, l !! i = Some x → runs st0 = (runs st + i)%nat →
     f x st0 = (Ok y, st1) → Q i x y ∧ runs st1 = S (runs st0)) →
  mapM f l st = (Ok r, st') →
  length r = length l
  ∧ runs st' = (runs st + length l)%nat
  ∧ ∀ i x y, l !! i = Some x → r !! i = Some y → Q i x y.
Proof.
  revert Q st r. induction l as [|x l IH]; intros Q st r Hf.
  - intros [= <- <-]. split; [done|]. split; [simpl; lia|]. by intros [|?] ???.
  - rewrite mapM_M_cons, bind_run.
    destruct (f x st) as [[y|e] st0] eqn:Hx; [|done].
    rewrite bind_run.
    destruct (mapM f l st0) as [[k|e] st1] eqn:Hl; [|done].
    intros [= <- <-].
    destruct (Hf O x st y st0 eq_refl ltac:(lia) Hx) as [HQ Hr].
    destruct (IH (λ i, Q (S i)) st0 k) as (Hlen & Hrs & HQs); [|done|].
    { intros i x' st0' y' st1' Hi Hr0. apply (Hf (S i)); [done|lia]. }
    split; [simpl; lia|]. split; [simpl; lia|].
    intros [|i] x' y'; simpl.
    + by intros [= <-] [= <-].
    + apply HQs.
Qed.

(** X13.  When [getGPUProcesses] returns, it has run [nvidia-smi] once and
    then [ps] once for each record, in the order of the lines; it returns
    one record for each line that ends in the line separator (none when the
    invocation raised), and the record of line [i] carries the pid of that
    line, the index the map holds for its UUID, and the owner that the
    [i]-th call of [ps] printed. *)
Theorem getGPUProcesses_records (w : world) (m : gmap string (option pynum))
    (st st' : state) (procs : list GPUProcess.t) :
  getGPUProcesses w m st = (Ok procs, st') →
  ∃ cmd,
    getNvidiaSmiCmd w = Ok cmd
    ∧ runs st' = (runs st + 1 + length procs)%nat
    ∧ length procs
      = match subprocess_run w (runs st) [cmd; query_compute_apps; format_csv] with
        | None => O
        | Some stdout => (length (Py.split stdout (os_linesep w)) - 1)%nat
        end
    ∧ ∀ i proc, procs !! i = Some proc →
        lookup_gpuId m (GPUProcess.gpuUuid proc) = Ok (GPUProcess.gpuId proc)
        ∧ (GPUProcess.uid proc, GPUProcess.uname proc)
          = owner_of_ps
              (subprocess_run w (runs st + 1 + i)
                 ["ps"; "-p" +:+ Py.str_int (GPUProcess.pid proc); "-oruid=,ruser="])
        ∧ ∃ stdout line,
            subprocess_run w (runs st) [cmd; query_compute_apps; format_csv] = Some stdout
            ∧ Py.split stdout (os_linesep w) !! i = Some line
            ∧ Py.getitem (Py.split line ", ") 0 ≫= Py.int = Ok (GPUProcess.pid proc)
            ∧ Py.getitem (Py.split line ", ") 2 = Ok (GPUProcess.gpuUuid proc).
Proof.
  unfold getGPUProcesses. rewrite bind_run. unfold lift at 1.
  destruct (getNvidiaSmiCmd w) as [cmd|e]; [|done].
  rewrite bind_run. unfold run.
  set (st1 := {| runs := S (runs st); trace := trace st ++ [_] |}).
  intros Hrun. exists cmd. split; [done|].
  destruct (subprocess_run w (runs st) [cmd; query_compute_apps; format_csv])
    as [stdout|] eqn:Hout.
  - apply (mapM_M_rounds _
             (λ i g proc,
                lookup_gpuId m (GPUProcess.gpuUuid proc) = Ok (GPUProcess.gpuId proc)
                ∧ (GPUProcess.uid proc, GPUProcess.uname proc)
                  = owner_of_ps
                      (subprocess_run w (runs st + 1 + i)
                         ["ps"; "-p" +:+ Py.str_int (GPUProcess.pid proc);
                          "-oruid=,ruser="])
                ∧ ∃ line,
                    Py.split stdout (os_linesep w) !! i = Some line
                    ∧ Py.getitem (Py.split line ", ") 0 ≫= Py.int
                      = Ok (GPUProcess.pid proc)
                    ∧ Py.getitem (Py.split line ", ") 2 = Ok (GPUProcess.gpuUuid proc)))
      in Hrun as (Hlen & Hruns & Hrounds).
    + unfold Py.range in Hlen, Hruns, Hrounds.
      rewrite length_fmap, length_seq in Hlen, Hruns.
      split; [simpl in Hruns; lia|]. split; [lia|].
      intros i proc Hi.
      destruct (Hrounds i (Z.of_nat i) proc) as (Hid & Hown & line & Hline & Hpid & Hu);
        [|done|].
      { rewrite list_lookup_fmap, lookup_seq_lt; [done|].
        apply lookup_lt_Some in Hi. lia. }
      split; [done|]. split; [done|]. by exists stdout, line.
    + intros i g st0 proc st2 Hg Hr0.
      unfold Py.range in Hg. rewrite list_lookup_fmap in Hg.
      destruct (seq _ _ !! i) as [i'|] eqn:Hi'; [|done].
      apply lookup_seq in Hi' as [-> _]. injection Hg as <-.
      rewrite bind_run. unfold lift, Py.getitem at 1. rewrite Nat2Z.id.
      destruct (Py.split stdout (os_linesep w) !! i) as [line|] eqn:Hline; [|done].
      intros Hround. pose proof Hround as Hfields.
      apply process_of_line_ok in Hround as (Hr2 & Hid & Hown).
      split; [|done]. split; [done|]. split.
      { rewrite Hown. do 2 f_equal. simpl in Hr0. lia. }
      exists line. split; [done|].
      revert Hfields. unfold process_of_line.
      rewrite bind_run. unfold lift at 1.
      destruct (Py.getitem (Py.split line ", ") 0 ≫= Py.int) as [n|]; [|done].
      rewrite bind_run. unfold lift at 1.
      destruct (Py.getitem (Py.split line ", ") 1) as [v1|]; [|done].
      rewrite bind_run. unfold lift at 1.
      destruct (Py.getitem (Py.split line ", ") 2) as [v2|]; [|done].
      rewrite bind_run. unfold lift at 1.
      destruct (Py.getitem (Py.split line ", ") 3) as [v3|]; [|done].
      rewrite bind_run. unfold lift at 1.
      destruct (safeFloatCast <$> Py.getitem (Py.split line ", ") 4) as [v4|]; [|done].
      rewrite bind_run. unfold lift at 1.
      destruct (lookup_gpuId m v2) as [gpuId|]; [|done].
      rewrite bind_run. unfold run.
      destruct (owner_of_ps (subprocess_run w (runs st0) ["ps"; "-p" +:+ Py.str_int n; _])).
      by intros [= <- _].
  - injection Hrun as <- <-. simpl. split; [lia|]. split; [done|]. by intros [|?] ?.
Qed.

(* ================================================================== *)
(** ** The table of [showUtilization] *)
(* ================================================================== *)

(** The formats checked against what CPython prints. *)
Example format_examples :
  PyStr.format_f 0 (Some 0%N) 2.5 = "2"
  ∧ PyStr.format_f 0 (Some 0%N) 1.5 = "2"
  ∧ PyStr.format_f 0 (Some 0%N) 0.5 = "0"
  ∧ PyStr.format_f 0 (Some 0%N) (-0.5) = "-0"
  ∧ PyStr.format_f 6 (Some 0%N) 3.5 = "     4"
  ∧ PyStr.format_f 0 None (-0) = "-0.000000"
  ∧ PyStr.format_f 0 None 50.5 = "50.500000"
  ∧ PyStr.format_f 0 None 0x1.999999999999ap-4 = "0.100000"
  ∧ PyStr.format_f 0 (Some 2%N) 0x1.5666666666666p+1 = "2.67"
  ∧ PyStr.format_f 0 None 0x1p-1074 = "0.000000"
  ∧ PyStr.format_f 0 None 1e22 = "10000000000000000000000.000000"
  ∧ PyStr.format_f 0 (Some 0%N) nan = "nan"
  ∧ PyStr.format_f 5 (Some 0%N) neg_infinity = " -inf"
  ∧ PyStr.format_f 3 (Some 0%N) (0.25 * 100) = " 25"
  ∧ PyStr.format_d 2 (-7) = "-7"
  ∧ PyStr.format_d 3 5 = "  5"
  ∧ PyStr.format_s 5 "abc" = "abc  "
  ∧ PyStr.format_X (-255) = "-FF"
  ∧ PyStr.format_X 0 = "0"
  ∧ PyStr.format_X 4096 = "1000".
Proof. vm_compute. repeat split. Qed.

Lemma string_length_app (s1 s2 : string) :
  String.length (s1 +:+ s2) = (String.length s1 + String.length s2)%nat.
Proof. induction s1 as [|c s1 IH]; simpl; [done | by rewrite IH]. Qed.

Lemma len_app (s1 s2 : string) : PyStr.len (s1 +:+ s2) = PyStr.len s1 + PyStr.len s2.
Proof. unfold PyStr.len. rewrite string_length_app. lia. Qed.

Lemma len_nonneg (s : string) : 0 ≤ PyStr.len s.
Proof. unfold PyStr.len. lia. Qed.

Lemma len_mul_char (c : ascii) (n : Z) :
  PyStr.len (PyStr.mul (String c "") n) = Z.max 0 n.
Proof.
  unfold PyStr.mul, PyStr.len.
  assert (∀ k, String.length (Nat.iter k (String.append (String c "")) "") = k) as H.
  { induction k as [|k IH]; [done|]. by rewrite Nat.iter_succ, string_length_app, IH. }
  rewrite H. lia.
Qed.

Lemma len_rjust (s : string) (width : Z) :
  PyStr.len (PyStr.rjust s width) = Z.max width (PyStr.len s).
Proof.
  unfold PyStr.rjust. rewrite len_app. change " "%string with (String " "%char "").
  rewrite len_mul_char. pose proof (len_nonneg s). lia.
Qed.

Lemma len_ljust (s : string) (width : Z) :
  PyStr.len (PyStr.ljust s width) = Z.max width (PyStr.len s).
Proof.
  unfold PyStr.ljust. rewrite len_app. change " "%string with (String " "%char "").
  rewrite len_mul_char. pose proof (len_nonneg s). lia.
Qed.

(** The width found by the first pass is at least that of the name and of
    every entry. *)
Lemma minWidth_bounds (f : GPU.t → Z) (GPUs : list GPU.t) (init : Z) :
  init ≤ foldl (λ minWidth gpu, Z.max minWidth (f gpu)) init GPUs
  ∧ Forall (λ gpu, f gpu ≤ foldl (λ minWidth gpu, Z.max minWidth (f gpu)) init GPUs) GPUs.
Proof.
  revert init. induction GPUs as [|gpu GPUs IH]; intros init; simpl.
  - split; [lia | constructor].
  - destruct (IH (Z.max init (f gpu))) as [Hinit Hall].
    split; [lia|]. constructor; [lia | done].
Qed.

(** In a field as wide as the first pass found, an entry has exactly the
    width of the column. *)
Lemma attr_field_len (attrDict : AttrDict.t) (minWidth : Z) (gpu : GPU.t) :
  PyStr.len (attr_text attrDict gpu) ≤ minWidth →
  ∃ attrStr,
    attr_field attrDict (minWidth - PyStr.len (attrSuffix attrDict)) gpu = Ok attrStr
    ∧ PyStr.len attrStr = minWidth.
Proof.
  unfold attr_text, attr_field. rewrite len_app.
  pose proof (len_nonneg (attrSuffix attrDict)) as Hsuffix.
  destruct (attr_value attrDict gpu) as [z|x|s]; simpl; intros Hfit.
  - unfold PyStr.format_d in *. rewrite len_rjust in Hfit.
    pose proof (len_nonneg (Py.str_int z)).
    eexists. split; [done|]. rewrite len_app, len_rjust. lia.
  - unfold PyStr.format_f in *. rewrite len_rjust in Hfit.
    pose proof (len_nonneg (PyStr.fixed (default 6%N (AttrDict.precision attrDict)) x)).
    eexists. split; [done|]. rewrite len_app, len_rjust. lia.
  - pose proof (len_nonneg s).
    destruct (Z.ltb_spec (minWidth - PyStr.len (attrSuffix attrDict)) 0) as [?|?]; [lia|].
    eexists. split; [done|]. unfold PyStr.format_s. rewrite len_app, len_ljust. lia.
Qed.

(** A loop over [enumerate] that extends the line of each GPU in turn. *)
Lemma foldlM_alter_enumerate {A : Type} (h : A → result string) (g : string → string → string)
    (bs : list A) (ss done todo : list string) :
  Forall2 (λ b s, h b = Ok s) bs ss →
  length todo = length bs →
  foldlM (λ acc '(i, b), s ← h b; Ok (alter (λ x, g x s) i acc))
    (done ++ todo) (zip (seq (length done) (length bs)) bs)
  = Ok (done ++ zip_with g todo ss).
Proof.
  intros Hh. revert done todo.
  induction Hh as [|b s bs ss Hb _ IH]; intros done todo Hlen.
  - destruct todo; [|done]. done.
  - destruct todo as [|x todo]; [done|]. simpl in Hlen.
    simpl. rewrite Hb. simpl.
    rewrite <- (Nat.add_0_r (length done)) at 1. rewrite alter_app_r. simpl.
    rewrite (cons_middle _ done todo), (cons_middle _ done (zip_with g todo ss)), !app_assoc.
    replace (S (length done)) with (length (done ++ [g x s]))
      by (rewrite length_app; simpl; lia).
    apply IH. lia.
Qed.

Lemma foldl_alter_enumerate {A : Type} (g : string → string) (bs : list A)
    (done todo : list string) :
  length todo = length bs →
  foldl (λ acc '(i, _), alter g i acc) (done ++ todo) (zip (seq (length done) (length bs)) bs)
  = done ++ (g <$> todo).
Proof.
  revert done todo. induction bs as [|b bs IH]; intros done todo Hlen.
  - destruct todo; [|done]. done.
  - destruct todo as [|x todo]; [done|]. simpl in Hlen. simpl.
    rewrite <- (Nat.add_0_r (length done)) at 1. rewrite alter_app_r. simpl.
    change (list_fmap string string g todo) with (g <$> todo).
    rewrite (cons_middle _ done todo), (cons_middle _ done (g <$> todo)), !app_assoc.
    replace (S (length done)) with (length (done ++ [g x]))
      by (rewrite length_app; simpl; lia).
    apply IH. lia.
Qed.

Lemma Forall_exists_Forall2 {A B : Type} (R : A → B → Prop) (l : list A) :
  Forall (λ a, ∃ b, R a b) l → ∃ k, Forall2 R l k.
Proof.
  induction 1 as [|a l [b Hb] _ [k IH]]; [by exists []|].
  exists (b :: k). by constructor.
Qed.

Lemma add_column_aligned (GPUs : list GPU.t) (table : string * list string)
    (attrDict : AttrDict.t) :
  aligned GPUs table →
  ∃ table', add_column GPUs table attrDict = Ok table' ∧ aligned GPUs table'.
Proof.
  destruct table as [headerString GPUstrings]. intros [Hlen Hall]. simpl in *.
  unfold add_column.
  set (minWidth := foldl _ _ _).
  destruct (minWidth_bounds (λ gpu, PyStr.len (attr_text attrDict gpu)) GPUs
              (PyStr.len (AttrDict.name attrDict))) as [Hname Hfit].
  fold minWidth in Hname, Hfit.
  assert (∃ ss, Forall2 (λ gpu s, attr_field attrDict
                                    (minWidth - PyStr.len (attrSuffix attrDict)) gpu = Ok s
                                  ∧ PyStr.len s = minWidth) GPUs ss) as [ss Hss].
  { apply Forall_exists_Forall2. eapply Forall_impl; [exact Hfit|].
    intros gpu Hgpu. by apply attr_field_len. }
  unfold PyStr.enumerate.
  pose proof (foldlM_alter_enumerate
                (attr_field attrDict (minWidth - PyStr.len (attrSuffix attrDict)))
                (λ x s, x +:+ "| " +:+ s +:+ " ") GPUs ss [] GPUstrings) as Hloop.
  simpl in Hloop. rewrite Hloop; [|by eapply Forall2_impl; [exact Hss|]; intros ?? [? _]|done].
  simpl. eexists. split; [done|]. split; simpl.
  - rewrite length_zip_with_l_eq; [done|]. apply Forall2_length in Hss. lia.
  - apply Forall_forall. intros row [i Hrow]%list_elem_of_lookup_1.
    apply lookup_zip_with_Some in Hrow as (x & s & -> & Hx & Hs).
    rewrite Forall_forall in Hall. rewrite !len_app.
    rewrite (Hall x) by (by eapply list_elem_of_lookup_2).
    apply Forall2_length in Hss as Hlen'.
    destruct (GPUs !! i) as [gpu|] eqn:Hgpu.
    + destruct (Forall2_lookup_lr _ _ _ _ _ _ Hss Hgpu Hs) as [_ ->].
      change " "%string with (String " "%char ""). rewrite len_mul_char.
      change (PyStr.len "| ") with 2. change (PyStr.len (String " " "")) with 1. lia.
    + apply lookup_ge_None in Hgpu. apply lookup_lt_Some in Hs. lia.
Qed.

Lemma foldlM_aligned {A : Type} (GPUs : list GPU.t)
    (f : string * list string → A → result (string * list string)) (l : list A)
    (table : string * list string) :
  (∀ table a, aligned GPUs table → ∃ table', f table a = Ok table' ∧ aligned GPUs table') →
  aligned GPUs table →
  ∃ table', foldlM f table l = Ok table' ∧ aligned GPUs table'.
Proof.
  intros Hf. revert table. induction l as [|a l IH]; intros table Htable.
  - by exists table.
  - destruct (Hf table a Htable) as (table1 & H1 & Htable1).
    simpl. rewrite H1. simpl. by apply IH.
Qed.

Lemma add_group_aligned (GPUs : list GPU.t) (table : string * list string)
    (attrGroup : list AttrDict.t) :
  aligned GPUs table →
  ∃ table', add_group GPUs table attrGroup = Ok table' ∧ aligned GPUs table'.
Proof.
  intros Htable. unfold add_group.
  destruct (foldlM_aligned GPUs (add_column GPUs) attrGroup table) as ([h rows] & -> & Hlen & Hall);
    [by intros; apply add_column_aligned | done |].
  simpl in *. eexists. split; [done|].
  unfold PyStr.enumerate.
  pose proof (foldl_alter_enumerate (λ s, s +:+ "|") GPUs [] rows Hlen) as Hloop.
  simpl in Hloop. rewrite Hloop. split; simpl.
  - by rewrite length_fmap.
  - apply Forall_fmap. eapply Forall_impl; [exact Hall|].
    intros row Hrow. simpl. by rewrite !len_app, Hrow.
Qed.

(** The table is built whatever the GPUs hold, and it is rectangular. *)
Lemma table_of_aligned (attrList : list (list AttrDict.t)) (GPUs : list GPU.t) :
  ∃ table, table_of attrList GPUs = Ok table ∧ aligned GPUs table.
Proof.
  apply foldlM_aligned.
  - intros. by apply add_group_aligned.
  - split; simpl; [by rewrite length_replicate|].
    apply Forall_forall. by intros s [-> _]%elem_of_replicate.
Qed.

Lemma print_run (line : string) (st : state) :
  print line st = (Ok (), {| runs := runs st; trace := trace st ++ [Print line] |}).
Proof. reflexivity. Qed.

Lemma mapM_print (lines : list string) (st : state) :
  mapM print lines st
  = (Ok (replicate (length lines) ()),
     {| runs := runs st; trace := trace st ++ (Print <$> lines) |}).
Proof.
  revert st. induction lines as [|line lines IH]; intros st.
  - simpl. rewrite app_nil_r. by destruct st.
  - rewrite mapM_M_cons, bind_run, print_run, bind_run, IH.
    simpl. by rewrite <- app_assoc.
Qed.

(** The lines of the old code are printed for every GPU with an integer
    index. *)
Lemma mapM_old_rows (row : GPU.t → result string) (GPUs : list GPU.t) (st : state) :
  Forall (λ gpu, ∃ line, row gpu = Ok line) GPUs →
  ∃ lines,
    Forall2 (λ gpu line, row gpu = Ok line) GPUs lines
    ∧ mapM (λ gpu, line ← lift (row gpu); print line) GPUs st
      = (Ok (replicate (length GPUs) ()),
         {| runs := runs st; trace := trace st ++ (Print <$> lines) |}).
Proof.
  intros Hrows. revert st. induction Hrows as [|gpu GPUs [line Hline] _ IH]; intros st.
  - exists []. split; [constructor|]. simpl. rewrite app_nil_r. by destruct st.
  - destruct (IH {| runs := runs st; trace := trace st ++ [Print line] |})
      as (lines & Hlines & Hrun).
    exists (line :: lines). split; [by constructor|].
    rewrite mapM_M_cons, bind_run, bind_run. unfold lift at 1. rewrite Hline.
    rewrite print_run, bind_run, Hrun. simpl. by rewrite <- app_assoc.
Qed.

Lemma old_rows_int_ids (GPUs : list GPU.t) :
  Forall (λ gpu, ∃ z, GPU.id gpu = PyInt z) GPUs →
  Forall (λ gpu, ∃ line, old_row gpu = Ok line) GPUs
  ∧ Forall (λ gpu, ∃ line, old_row_all gpu = Ok line) GPUs.
Proof.
  intros Hint. split; (eapply Forall_impl; [exact Hint|]); intros gpu [z Hz];
    unfold old_row, old_row_all; rewrite Hz; simpl; by eexists.
Qed.

(** X14.  With the new code (the default), [showUtilization] prints a
    rectangular table for every snapshot that was read: a header, a rule of
    dashes as long as the header, and one line per GPU in the order of the
    snapshot, each as long as the header.  It runs nothing but the one
    [nvidia-smi] call of the snapshot and never raises.  The table is the one
    of the built-in columns for [all]. *)
Theorem showUtilization_table (w : world) (all : bool)
    (attrList : option (list (list AttrDict.t))) (st st1 : state) (gpus : list GPU.t) :
  getGPUs w st = (Ok gpus, st1) →
  ∃ header rows,
    showUtilization w all attrList false st
    = (Ok (), {| runs := runs st1;
                 trace := trace st1 ++ Print header
                            :: Print (PyStr.mul "-" (PyStr.len header))
                            :: (Print <$> rows) |})
    ∧ table_of (if all then attrList_all else attrList_default) gpus = Ok (header, rows)
    ∧ length rows = length gpus
    ∧ Forall (λ row, String.length row = String.length header) rows
    ∧ String.length (PyStr.mul "-" (PyStr.len header)) = String.length header.
Proof.
  intros Hsnap.
  destruct (table_of_aligned (if all then attrList_all else attrList_default) gpus)
    as ([header rows] & Htable & Hlen & Hall).
  simpl in Hlen, Hall. exists header, rows.
  split; [|split; [done|split; [done|split]]].
  - unfold showUtilization. rewrite bind_run, Hsnap.
    destruct all; rewrite bind_run; simpl; rewrite bind_run; unfold lift at 1;
      rewrite Htable, bind_run, print_run, bind_run, print_run, bind_run, mapM_print;
      simpl; by rewrite <- !app_assoc.
  - eapply Forall_impl; [exact Hall|]. unfold PyStr.len. intros row Hrow. simpl in Hrow. lia.
  - pose proof (len_mul_char "-" (PyStr.len header)) as Hrule.
    change (String "-" "") with "-"%string in Hrule.
    pose proof (len_nonneg header). unfold PyStr.len in *. lia.
Qed.

(** X15.  In every mode, [showUtilization] raises exactly when reading the
    snapshot raises, with that exception and nothing printed; otherwise it
    returns after printing two lines and one more per GPU, and has run
    nothing but the [nvidia-smi] call of the snapshot.  The [attrList] of
    the caller is never used: the call does the same for every value of
    it. *)
Theorem showUtilization_total (w : world) (all : bool)
    (attrList : option (list (list AttrDict.t))) (useOldCode : bool) (st : state) :
  showUtilization w all attrList useOldCode st = showUtilization w all None useOldCode st
  ∧ (∀ e st1, getGPUs w st = (Raise e, st1) →
       showUtilization w all attrList useOldCode st = (Raise e, st1))
  ∧ (∀ gpus st1, getGPUs w st = (Ok gpus, st1) →
       ∃ lines,
         showUtilization w all attrList useOldCode st
         = (Ok (), {| runs := runs st1; trace := trace st1 ++ (Print <$> lines) |})
         ∧ length lines = (2 + length gpus)%nat).
Proof.
  split; [|split].
  - unfold showUtilization. rewrite !bind_run.
    destruct (getGPUs w st) as [[gpus|e] st1]; [|done].
    destruct all, useOldCode; rewrite ?bind_run; simpl; try done.
    + rewrite !bind_run, !print_run, !bind_run.
      match goal with
      | |- context [mapM ?f ?l ?s] => destruct (mapM f l s) as [[?|?] ?]; [|done]
      end.
      by destruct attrList.
    + rewrite !bind_run, !print_run, !bind_run.
      match goal with
      | |- context [mapM ?f ?l ?s] => destruct (mapM f l s) as [[?|?] ?]; [|done]
      end.
      by destruct attrList.
  - intros e st1 Hsnap. unfold showUtilization. by rewrite bind_run, Hsnap.
  - intros gpus st1 Hsnap.
    pose proof (getGPUs_int_ids _ _ _ _ Hsnap) as Hint.
    destruct (old_rows_int_ids gpus Hint) as [Hrows Hrows_all].
    unfold showUtilization. rewrite bind_run, Hsnap.
    destruct useOldCode.
    + destruct all; rewrite bind_run, bind_run, print_run, bind_run, print_run, bind_run.
      * destruct (mapM_old_rows old_row_all gpus
                    {| runs := runs {| runs := runs st1;
                                       trace := trace st1 ++ [Print old_header_all] |};
                       trace := trace {| runs := runs st1;
                                         trace := trace st1 ++ [Print old_header_all] |}
                                ++ [Print old_rule_all] |} Hrows_all)
          as (lines & Hlines & ->).
        exists (old_header_all :: old_rule_all :: lines).
        apply Forall2_length in Hlines.
        split; [|simpl; lia]. simpl. rewrite <- !app_assoc. by destruct attrList.
      * destruct (mapM_old_rows old_row gpus
                    {| runs := runs {| runs := runs st1;
                                       trace := trace st1 ++ [Print " ID  GPU  MEM"] |};
                       trace := trace {| runs := runs st1;
                                         trace := trace st1 ++ [Print " ID  GPU  MEM"] |}
                                ++ [Print "--------------"] |} Hrows)
          as (lines & Hlines & ->).
        exists (" ID  GPU  MEM"%string :: "--------------"%string :: lines).
        apply Forall2_length in Hlines.
        split; [|simpl; lia]. simpl. rewrite <- !app_assoc. by destruct attrList.
    + destruct (table_of_aligned (if all then attrList_all else attrList_default) gpus)
        as ([header rows] & Htable & Hlen & _).
      simpl in Hlen.
      exists (header :: PyStr.mul "-" (PyStr.len header) :: rows).
      split; [|simpl; lia].
      destruct all; rewrite bind_run; simpl; rewrite bind_run; unfold lift at 1;
        rewrite Htable, bind_run, print_run, bind_run, print_run, bind_run, mapM_print;
        simpl; by rewrite <- !app_assoc.
Qed.

(* ================================================================== *)
(** ** Looser filters and larger limits *)
(* ================================================================== *)

Lemma SFleb_rank (f g : spec_float) :
  f ≠ S754_nan → g ≠ S754_nan →
  SFleb f g = true ↔ ¬ lex_lt (SFrank g) (SFrank f).
Proof.
  intros Hf Hg. unfold SFleb, lex_lt.
  destruct f as [s1|s1| |s1 m1 e1], g as [s2|s2| |s2 m2 e2]; try done;
    try destruct s1; try destruct s2; simpl;
    try change (PosDef.Pos.compare_cont Eq m1 m2) with (Pos.compare m1 m2);
    try destruct (Z.compare_spec e1 e2);
    try destruct (Pos.compare_spec m1 m2);
    simpl; (split; [try discriminate; intros _; lia | try done; intros ?; exfalso; lia]).
Qed.

Lemma SFleb_not_nan (f g : spec_float) :
  SFleb f g = true → f ≠ S754_nan ∧ g ≠ S754_nan.
Proof. by destruct f, g. Qed.

Lemma SFltb_not_nan (f g : spec_float) :
  SFltb f g = true → f ≠ S754_nan ∧ g ≠ S754_nan.
Proof. by destruct f, g. Qed.

Lemma float_lt_le_trans (x a b : float) :
  PrimFloat.ltb x a = true → PrimFloat.leb a b = true → PrimFloat.ltb x b = true.
Proof.
  rewrite !FloatAxioms.ltb_spec, FloatAxioms.leb_spec. intros Hxa Hab.
  destruct (SFltb_not_nan _ _ Hxa) as [Hx Ha], (SFleb_not_nan _ _ Hab) as [_ Hb].
  apply SFltb_rank in Hxa; [|done..]. apply SFleb_rank in Hab; [|done..].
  apply SFltb_rank; [done..|]. unfold lex_lt in *.
  destruct (SFrank (Prim2SF x)) as [[??]?], (SFrank (Prim2SF a)) as [[??]?],
    (SFrank (Prim2SF b)) as [[??]?].
  simpl in *. lia.
Qed.

Lemma float_le_le_trans (a b c : float) :
  PrimFloat.leb a b = true → PrimFloat.leb b c = true → PrimFloat.leb a c = true.
Proof.
  rewrite !FloatAxioms.leb_spec. intros Hab Hbc.
  destruct (SFleb_not_nan _ _ Hab) as [Ha Hb], (SFleb_not_nan _ _ Hbc) as [_ Hc].
  apply SFleb_rank in Hab, Hbc; [|done..].
  apply SFleb_rank; [done..|]. unfold lex_lt in *.
  destruct (SFrank (Prim2SF a)) as [[??]?], (SFrank (Prim2SF b)) as [[??]?],
    (SFrank (Prim2SF c)) as [[??]?].
  simpl in *. lia.
Qed.

Lemma existsb_subseteq {A : Type} (p : A → bool) (l l' : list A) :
  l' ⊆ l → existsb p l' = true → existsb p l = true.
Proof.
  intros Hsub (x & Hin & Hp)%existsb_exists. apply existsb_exists.
  exists x. split; [|done]. apply list_elem_of_In, Hsub, list_elem_of_In, Hin.
Qed.

(** X16.  Loosening a filter never loses a GPU: with a higher [maxLoad] or
    [maxMemory], a lower [memoryFree], [includeNan] switched on, or fewer
    excluded ids, UUIDs and compute modes, every GPU that was marked
    available still is. *)
Theorem getAvailability_monotone (GPUs : list GPU.t)
    (maxLoad maxMemory memoryFree maxLoad' maxMemory' memoryFree' : float)
    (includeNan includeNan' : bool) (excludeID excludeID' : list pynum)
    (excludeUUID excludeUUID' excludeComputeMode excludeComputeMode' : list string)
    (i : nat) :
  PrimFloat.leb maxLoad maxLoad' = true →
  PrimFloat.leb maxMemory maxMemory' = true →
  PrimFloat.leb memoryFree' memoryFree = true →
  (includeNan = true → includeNan' = true) →
  excludeID' ⊆ excludeID →
  excludeUUID' ⊆ excludeUUID →
  excludeComputeMode' ⊆ excludeComputeMode →
  getAvailability GPUs maxLoad maxMemory memoryFree includeNan
    excludeID excludeUUID excludeComputeMode !! i = Some 1 →
  getAvailability GPUs maxLoad' maxMemory' memoryFree' includeNan'
    excludeID' excludeUUID' excludeComputeMode' !! i = Some 1.
Proof.
  intros Hload Hmem Hfree Hnan Hid Huuid Hmode. unfold getAvailability.
  rewrite !list_lookup_fmap. destruct (GPUs !! i) as [gpu|]; [simpl|done].
  destruct (available maxLoad maxMemory memoryFree includeNan _ _ _ gpu) eqn:Hav; [|done].
  intros _. unfold available in *.
  apply andb_prop in Hav
    as [[[HA HB]%andb_prop HC]%andb_prop [[HD HE]%andb_prop HF]%andb_prop].
  assert (∀ b : bool, b = true → (if b then 1 else 0) = 1) as Hif by (by intros []).
  f_equal. apply Hif. clear Hif.
  repeat (apply andb_true_intro; split).
  - by eapply float_le_le_trans.
  - apply orb_prop in HB as [HB|[-> ->]%andb_prop].
    + by rewrite (float_lt_le_trans _ _ _ HB Hload).
    + rewrite Hnan by done. apply orb_true_r.
  - apply orb_prop in HC as [HC|[-> ->]%andb_prop].
    + by rewrite (float_lt_le_trans _ _ _ HC Hmem).
    + rewrite Hnan by done. apply orb_true_r.
  - apply negb_true_iff. unfold Py.num_in in *.
    destruct (existsb _ excludeID') eqn:Hex; [|done].
    apply (existsb_subseteq _ _ _ Hid) in Hex. by rewrite Hex in HD.
  - apply negb_true_iff. unfold Py.str_in in *.
    destruct (existsb _ excludeUUID') eqn:Hex; [|done].
    apply (existsb_subseteq _ _ _ Huuid) in Hex. by rewrite Hex in HE.
  - apply negb_true_iff. unfold Py.str_in in *.
    destruct (existsb _ excludeComputeMode') eqn:Hex; [|done].
    apply (existsb_subseteq _ _ _ Hmode) in Hex. by rewrite Hex in HF.
Qed.

(** X17.  A larger limit only appends: from the same state, the ids that
    [getAvailable] returns for a limit are the first ones of those it
    returns for any larger limit (also for [order="random"], where the same
    draw is made). *)
Theorem getAvailable_limit_prefix (w : world) (order : string) (limit limit' : Z)
    (maxLoad maxMemory memoryFree : float) (includeNan : bool) (excludeID : list pynum)
    (excludeUUID excludeComputeMode : list string) (st st1 : state) (gpus : list GPU.t) :
  0 ≤ limit ≤ limit' →
  getGPUs w st = (Ok gpus, st1) →
  ∃ ids ids' st',
    getAvailable w order limit maxLoad maxMemory memoryFree includeNan
      excludeID excludeUUID excludeComputeMode st = (Ok ids, st')
    ∧ getAvailable w order limit' maxLoad maxMemory memoryFree includeNan
        excludeID excludeUUID excludeComputeMode st = (Ok ids', st')
    ∧ ids = take (Z.to_nat limit) ids'.
Proof.
  intros Hlimit Hsnap.
  rewrite !(getAvailable_run _ _ _ _ _ _ _ _ _ _ _ _ _ Hsnap).
  destruct (order_gpus_perm w order
              (List.filter (available maxLoad maxMemory memoryFree includeNan
                              excludeID excludeUUID excludeComputeMode) gpus) st1)
    as (ordered & st' & -> & _ & _).
  eexists _, _, st'. split; [done|]. split; [done|].
  rewrite !slice_to_min by lia. rewrite <- fmap_take, take_take. do 2 f_equal. lia.
Qed.

(* ================================================================== *)
(** ** No command path *)
(* ================================================================== *)

(** X18.  [getNvidiaSmiCmd] raises only on Windows, when [nvidia-smi] is
    not on the path and the environment has no [systemdrive], and then it
    is KeyError.  Every reader then raises that KeyError before anything is
    run or printed, the polling wrapper raises it in its first round instead
    of retrying, and only the statements run at import swallow it, leaving
    the map empty. *)
Theorem no_command_path (w : world) (e : exn) :
  getNvidiaSmiCmd w = Raise e →
  (e = KeyError "systemdrive"
   ∧ platform_system w = "Windows"
   ∧ find_executable w "nvidia-smi" = None
   ∧ environ w !! "systemdrive" = None)
  ∧ ∀ st,
      getGPUs w st = (Raise e, st)
      ∧ gpuUuidToIdMap_at_import w st = (Ok ∅, st)
      ∧ (∀ m, getGPUProcesses w m st = (Raise e, st))
      ∧ (∀ order limit maxLoad maxMemory memoryFree includeNan
           excludeID excludeUUID excludeComputeMode,
           getAvailable w order limit maxLoad maxMemory memoryFree includeNan
             excludeID excludeUUID excludeComputeMode st = (Raise e, st))
      ∧ (∀ all attrList useOldCode,
           showUtilization w all attrList useOldCode st = (Raise e, st))
      ∧ (∀ order maxLoad maxMemory attempts interval verbose includeNan
           excludeID excludeUUID excludeComputeMode,
           1 ≤ attempts →
           ∃ st',
             getFirstAvailable w order maxLoad maxMemory attempts interval verbose
               includeNan excludeID excludeUUID excludeComputeMode st = (Raise e, st')
             ∧ runs st' = runs st ∧ steps (trace st') = steps (trace st)).
Proof.
  intros Hcmd. split.
  - revert Hcmd. unfold getNvidiaSmiCmd.
    destruct (String.eqb _ _) eqn:Hwin; [|done].
    destruct (find_executable w "nvidia-smi"); [done|].
    destruct (environ w !! "systemdrive"); [done|].
    intros [= <-]. by apply String.eqb_eq in Hwin.
  - intros st.
    assert (getGPUs w st = (Raise e, st)) as Hsnap.
    { unfold getGPUs. rewrite bind_run. unfold lift. by rewrite Hcmd. }
    split; [done|]. split; [|split; [|split; [|split]]].
    + unfold gpuUuidToIdMap_at_import. by rewrite Hsnap.
    + intros m. unfold getGPUProcesses. rewrite bind_run. unfold lift. by rewrite Hcmd.
    + intros. by apply getAvailable_no_cmd.
    + intros. unfold showUtilization. by rewrite bind_run, Hsnap.
    + intros order maxLoad maxMemory attempts interval verbose includeNan
        excludeID excludeUUID excludeComputeMode Hattempts.
      unfold getFirstAvailable, Py.range. rewrite bind_run.
      destruct (Z.to_nat attempts) as [|n] eqn:Hn; [lia|].
      simpl seq. rewrite fmap_cons, attempt_loop_cons, bind_run.
      destruct (print_effect verbose
                  ("Attempting (" +:+ Py.str_int (Z.of_nat 0 + 1) +:+ "/"
                   +:+ Py.str_int attempts +:+ ") to locate available GPU.") st)
        as (st_p & -> & Hrp & Hsp).
      rewrite bind_run, (getAvailable_no_cmd _ _ _ _ _ _ _ _ _ _ _ _ Hcmd).
      by exists st_p.
Qed.

(* ================================================================== *)
(** ** Further theorems at concrete inputs *)
(* ================================================================== *)


(** An unknown order and the limit 2 on three idle GPUs listed as 2, 0, 1. *)
Lemma getAvailable_unknown_order_witness :
  fst (getAvailable (posix_world (λ _, Some three_gpus_output)) "fastest" 2 0.5 0.5 0 false
         [] [] default_excludeComputeMode initial) = Ok [PyInt 2; PyInt 0].
Proof.
  destruct (getGPUs (posix_world (λ _, Some three_gpus_output)) initial)
    as [snapshot st1] eqn:Hsnap.
  pose proof Hsnap as Hvalue. vm_compute in Hvalue. injection Hvalue as <- <-.
  rewrite (getAvailable_unknown_order
             (posix_world (λ _, Some three_gpus_output)) "fastest" 2 0.5 0.5 0 false
             [] [] default_excludeComputeMode initial _ _
             ltac:(discriminate) ltac:(discriminate) ltac:(discriminate)
             ltac:(discriminate) ltac:(discriminate) ltac:(lia) Hsnap).
  vm_compute. reflexivity.
Defined.

(** The limit -1 on the same GPUs drops the last of them. *)
Lemma getAvailable_nonpositive_limit_witness :
  fst (getAvailable (posix_world (λ _, Some three_gpus_output)) "first" (-1) 0.5 0.5 0 false
         [] [] default_excludeComputeMode initial) = Ok [PyInt 0; PyInt 1].
Proof.
  destruct (getGPUs (posix_world (λ _, Some three_gpus_output)) initial)
    as [snapshot st1] eqn:Hsnap.
  pose proof Hsnap as Hvalue. vm_compute in Hvalue. injection Hvalue as <- <-.
  destruct (getAvailable_nonpositive_limit
              (posix_world (λ _, Some three_gpus_output)) "first" (-1) 0.5 0.5 0 false
              [] [] default_excludeComputeMode initial _ _ ltac:(lia) Hsnap)
    as (ordered & st2 & Horder & ->).
  vm_compute in Horder. injection Horder as <- <-. vm_compute. reflexivity.
Defined.

(** A GPU whose free memory was not read is unavailable even with
    [includeNan]. *)
Lemma getAvailability_nan_witness :
  getAvailability [unread_gpu (PyInt 0) "GPU-a"] 0.5 0.5 0 true [] []
    default_excludeComputeMode !! 0%nat = Some 0.
Proof.
  apply (proj1 (getAvailability_nan [unread_gpu (PyInt 0) "GPU-a"] 0.5 0.5 0 true [] []
                  default_excludeComputeMode 0 (unread_gpu (PyInt 0) "GPU-a") eq_refl)).
  vm_compute. reflexivity.
Defined.

(** The id 0 that the selector returns is that of an available GPU of the
    snapshot. *)
Lemma getAvailable_returns_available_witness :
  ∃ gpus gpu,
    fst (getGPUs (posix_world (λ _, Some three_gpus_output)) initial) = Ok gpus
    ∧ gpu ∈ gpus ∧ GPU.id gpu = PyInt 0
    ∧ available 0.5 0.5 0 false [] [] default_excludeComputeMode gpu = true.
Proof.
  destruct (getGPUs (posix_world (λ _, Some three_gpus_output)) initial)
    as [snapshot st1] eqn:Hsnap.
  pose proof Hsnap as Hvalue. vm_compute in Hvalue. injection Hvalue as <- <-.
  destruct (getAvailable (posix_world (λ _, Some three_gpus_output)) "first" 2 0.5 0.5 0
              false [] [] default_excludeComputeMode initial) as [r st'] eqn:Hrun.
  pose proof Hrun as Hvalue. vm_compute in Hvalue. injection Hvalue as <- <-.
  destruct (getAvailable_returns_available _ _ _ _ _ _ _ _ _ _ _ _ _ _ _ (PyInt 0)
              Hsnap Hrun ltac:(by left))
    as (gpu & Hin & Hid & Hav & _).
  eexists _, gpu. split; [reflexivity|]. split; [exact Hin|]. split; [exact Hid|exact Hav].
Defined.

(** The snapshot of three GPUs. *)
Lemma getGPUs_records_witness :
  ∃ gpus,
    fst (getGPUs (posix_world (λ _, Some three_gpus_output)) initial) = Ok gpus
    ∧ Forall (λ gpu, ∃ z, GPU.id gpu = PyInt z) gpus
    ∧ length gpus = 3%nat.
Proof.
  destruct (getGPUs (posix_world (λ _, Some three_gpus_output)) initial)
    as [snapshot st1] eqn:Hsnap.
  pose proof Hsnap as Hvalue. vm_compute in Hvalue. injection Hvalue as <- <-.
  destruct (getGPUs_records _ _ _ _ Hsnap) as (Hint & _ & Hlen).
  eexists. split; [reflexivity|]. split; [exact Hint|].
  rewrite (Hlen "nvidia-smi" three_gpus_output eq_refl eq_refl).
  vm_compute. reflexivity.
Defined.

(** The driver goes down between the first and the second attempt. *)
Lemma getFirstAvailable_selector_raises_witness :
  ∃ st',
    getFirstAvailable
      (posix_world (λ k, match k with O => Some "" | S _ => Some driver_failure end))
      "first" 0.5 0.5 3 900 false false [] [] default_excludeComputeMode initial
    = (Raise ValueError, st')
    ∧ (runs st' ≤ 2)%nat.
Proof.
  destruct (getFirstAvailable_selector_raises
              (posix_world (λ k, match k with O => Some "" | S _ => Some driver_failure end))
              "first" 0.5 0.5 3 900 false false [] [] default_excludeComputeMode initial
              1 ValueError)
    as (st' & Hrun & Hruns & _).
  - lia.
  - intros j [r tr] Hj Hr. simpl in Hr. assert (r = O) as -> by lia.
    vm_compute. reflexivity.
  - intros [r tr] Hr. simpl in Hr. subst r. vm_compute. reflexivity.
  - exists st'. split; [exact Hrun | exact Hruns].
Defined.

(** One process on a GPU of the map, owned by uid 1000. *)
Lemma getGPUProcesses_records_witness :
  ∃ proc st',
    getGPUProcesses one_process_world {["GPU-a" := Some (PyInt 0)]} initial
    = (Ok [proc], st')
    ∧ runs st' = 2%nat
    ∧ GPUProcess.gpuId proc = PyInt 0
    ∧ GPUProcess.uid proc = 1000 ∧ GPUProcess.uname proc = "alice".
Proof.
  destruct (getGPUProcesses one_process_world {["GPU-a" := Some (PyInt 0)]} initial)
    as [r st'] eqn:Hrun.
  assert (∃ proc, r = Ok [proc] ∧ GPUProcess.gpuId proc = PyInt 0
                  ∧ GPUProcess.uid proc = 1000 ∧ GPUProcess.uname proc = "alice")
    as (proc & -> & Hid & Huid & Huname).
  { vm_compute in Hrun. injection Hrun as <- _. eexists. repeat split; reflexivity. }
  destruct (getGPUProcesses_records _ _ _ _ _ Hrun) as (cmd & _ & Hruns & _).
  exists proc, st'. split; [reflexivity|]. split; [exact Hruns|].
  split; [exact Hid|]. split; [exact Huid | exact Huname].
Defined.

(** The default table for three GPUs. *)
Lemma showUtilization_table_witness :
  printed (trace (showUtilization (posix_world (λ _, Some three_gpus_output))
                    false None false initial).2)
  = ["| ID | GPU | MEM |"; "------------------"; "|  2 | 25% | 12% |";
     "|  0 | 25% | 12% |"; "|  1 | 25% | 12% |"].
Proof.
  destruct (getGPUs (posix_world (λ _, Some three_gpus_output)) initial)
    as [snapshot st1] eqn:Hsnap.
  pose proof Hsnap as Hvalue. vm_compute in Hvalue. injection Hvalue as <- <-.
  destruct (showUtilization_table (posix_world (λ _, Some three_gpus_output)) false None
              _ _ _ Hsnap) as (header & rows & -> & Htable & _).
  vm_compute in Htable. injection Htable as <- <-. vm_compute. reflexivity.
Defined.

(** Raising [maxLoad] from 0.5 to 0.75 and dropping an exclusion keeps an
    idle GPU available. *)
Lemma getAvailability_monotone_witness :
  getAvailability [idle_gpu (PyInt 0) "GPU-a" "Default"] 0.75 0.5 0 true
    [] [] [] !! 0%nat = Some 1.
Proof.
  apply (getAvailability_monotone [idle_gpu (PyInt 0) "GPU-a" "Default"]
           0.5 0.5 0 0.75 0.5 0 false true [PyInt 1] [] [] [] default_excludeComputeMode []
           0 eq_refl eq_refl eq_refl (λ _, eq_refl)
           (list_subseteq_nil _) (list_subseteq_nil _) (list_subseteq_nil _)).
  vm_compute. reflexivity.
Defined.

(** The limits 1 and 2 on three idle GPUs. *)
Lemma getAvailable_limit_prefix_witness :
  ∃ ids ids' st',
    getAvailable (posix_world (λ _, Some three_gpus_output)) "first" 1 0.5 0.5 0 false
      [] [] default_excludeComputeMode initial = (Ok ids, st')
    ∧ getAvailable (posix_world (λ _, Some three_gpus_output)) "first" 2 0.5 0.5 0 false
        [] [] default_excludeComputeMode initial = (Ok ids', st')
    ∧ ids = take 1 ids'.
Proof.
  destruct (getGPUs (posix_world (λ _, Some three_gpus_output)) initial)
    as [snapshot st1] eqn:Hsnap.
  pose proof Hsnap as Hvalue. vm_compute in Hvalue. injection Hvalue as <- <-.
  apply (getAvailable_limit_prefix (posix_world (λ _, Some three_gpus_output)) "first" 1 2
           0.5 0.5 0 false [] [] default_excludeComputeMode initial _ _
           ltac:(lia) Hsnap).
Defined.

(** Windows without [nvidia-smi] and without [systemdrive]. *)
Lemma no_command_path_witness :
  getGPUs bare_windows_world initial = (Raise (KeyError "systemdrive"), initial)
  ∧ gpuUuidToIdMap_at_import bare_windows_world initial = (Ok ∅, initial).
Proof.
  destruct (no_command_path bare_windows_world (KeyError "systemdrive") eq_refl)
    as [_ Hall].
  destruct (Hall initial) as (Hsnap & Himport & _).
  split; [exact Hsnap | exact Himport].
Defined.
